(** * NetExec dashboard: aggregation, pagination, layout and command
      composition, embedded from [src/nxc/dashboard].

    Python [int] is [Z].  A [str] is a [string], the bytes of its UTF-8
    form: equality, concatenation and [join] are those of the bytes, the
    names of the protocols and the letters made of them are ASCII, and the
    methods that go by the Unicode tables ([lower], [upper], [strip]) are
    the operations of the class [PyStr].  A [dict] whose keys are fixed by
    the code is a record, a [dict] read with [.get] is a [gmap]; a [dict]
    whose insertion order is observed through [.values()] is an association
    list.  A Python exception is the [Raise] branch of [result]. *)

From Stdlib Require Import ZArith Lia Ascii String List Bool.
From stdpp Require Import base option list gmap strings pretty.

Import ListNotations.

(** ** Python values and exceptions *)

Inductive exn : Type :=
  | ZeroDivisionError
  | AttributeError
  | IndexError
  | TypeError
  | KeyError
  | OperationalError (msg : string)
  | ProgrammingError (msg : string).

Inductive result (A : Type) : Type :=
  | Ok (a : A)
  | Raise (e : exn).

Arguments Ok {A} a.
Arguments Raise {A} e.

#[global] Instance exn_eq_dec : EqDecision exn.
Proof. solve_decision. Defined.

#[global] Instance result_eq_dec {A : Type} `{EqDecision A} : EqDecision (result A).
Proof. solve_decision. Defined.

Definition is_ok {A : Type} (r : result A) : bool :=
  match r with
  | Ok _ => true
  | Raise _ => false
  end.

Definition rbind {A B : Type} (m : result A) (k : A -> result B) : result B :=
  match m with
  | Ok a => k a
  | Raise e => Raise e
  end.

#[global] Instance result_ret : MRet result := @Ok.
#[global] Instance result_bind : MBind result :=
  fun A B k m => rbind m k.

Definition try_except {A : Type} (body : result A) (handler : exn -> result A)
  : result A :=
  match body with
  | Ok a => Ok a
  | Raise e => handler e
  end.

(** A value held in a row dict or a selection dict. *)
Inductive pyval : Type :=
  | PNone
  | PStr (s : string)
  | PInt (z : Z)
  | PBool (b : bool).

#[global] Instance pyval_eq_dec : EqDecision pyval.
Proof. solve_decision. Defined.

(** Truth value of [v] in a condition. *)
Definition truthy (v : pyval) : bool :=
  match v with
  | PNone => false
  | PStr s => negb (String.eqb s "")
  | PInt z => negb (z =? 0)%Z
  | PBool b => b
  end.

(** [str(v)], as an f-string field renders it. *)
Definition py_str (v : pyval) : string :=
  match v with
  | PNone => "None"
  | PStr s => s
  | PInt z => pretty z
  | PBool true => "True"
  | PBool false => "False"
  end.

(** [d.get(key, default)] *)
Definition dict_get (d : gmap string pyval) (key : string) (default : pyval) : pyval :=
  match d !! key with
  | Some v => v
  | None => default
  end.

(** ** Text

    [s.lower()], [s.upper()] and [s.strip()] go by the Unicode tables of the
    interpreter, which are no part of the repository.  They are the
    operations of the class [PyStr]: the functions below that call one of
    them take it from the instance at hand, and what is proved of these
    functions is proved for every instance, the interpreter's among them. *)
Class PyStr : Type := {
  (** [s.lower()] *)
  str_lower : string -> string;
  (** [s.upper()] *)
  str_upper : string -> string;
  (** [not s.strip()]: nothing is left once the white space is stripped *)
  strip_is_empty : string -> bool
}.

(** The three methods on ASCII characters: the letters A-Z and a-z, and
    the white space 9-13 and 28-32. *)
Definition ascii_upper (c : ascii) : ascii :=
  let n := nat_of_ascii c in
  if (97 <=? n)%nat && (n <=? 122)%nat then ascii_of_nat (n - 32) else c.

Definition ascii_lower (c : ascii) : ascii :=
  let n := nat_of_ascii c in
  if (65 <=? n)%nat && (n <=? 90)%nat then ascii_of_nat (n + 32) else c.

Definition ascii_isspace (c : ascii) : bool :=
  let n := nat_of_ascii c in
  ((9 <=? n)%nat && (n <=? 13)%nat) || ((28 <=? n)%nat && (n <=? 32)%nat).

Fixpoint str_map (f : ascii -> ascii) (s : string) : string :=
  match s with
  | EmptyString => EmptyString
  | String c s' => String (f c) (str_map f s')
  end.

Fixpoint str_forall (f : ascii -> bool) (s : string) : bool :=
  match s with
  | EmptyString => true
  | String c s' => f c && str_forall f s'
  end.

(** Text all of whose characters are ASCII. *)
Definition is_ascii (s : string) : bool :=
  str_forall (fun c => (nat_of_ascii c <? 128)%nat) s.

(** The instance for the sample inputs.  On ASCII text its operations are
    what the interpreter computes.  Its [str_lower] is so as well on UTF-8
    text whose other characters have no lower-case form of their own (the
    bytes above 127 are left as they are), and its [strip_is_empty] on
    UTF-8 text without white space beyond ASCII. *)
Definition ascii_text : PyStr :=
  {| str_lower := str_map ascii_lower;
     str_upper := str_map ascii_upper;
     strip_is_empty := str_forall ascii_isspace |}.

(** An instance whose operations are those of [ascii_text] on ASCII text;
    the interpreter's is one. *)
Definition agrees_on_ascii (S : PyStr) : Prop :=
  forall s, is_ascii s = true ->
    @str_lower S s = str_map ascii_lower s /\
    @str_upper S s = str_map ascii_upper s /\
    @strip_is_empty S s = str_forall ascii_isspace s.

(** Two ASCII characters that are the same, or the same letter in the two
    cases; two strings that differ only in the case of ASCII letters. *)
Definition ascii_swapcase (c : ascii) : ascii :=
  let n := nat_of_ascii c in
  if (97 <=? n)%nat && (n <=? 122)%nat then ascii_of_nat (n - 32)
  else if (65 <=? n)%nat && (n <=? 90)%nat then ascii_of_nat (n + 32)
  else c.

Definition same_ascii_letter (a b : ascii) : bool :=
  Ascii.eqb a b || Ascii.eqb b (ascii_swapcase a).

Fixpoint differ_only_in_ascii_case (s1 s2 : string) : bool :=
  match s1, s2 with
  | EmptyString, EmptyString => true
  | String a s1', String b s2' =>
      same_ascii_letter a b && differ_only_in_ascii_case s1' s2'
  | _, _ => false
  end.

(** [sep.join(parts)]; a part that is not a [str] is a [TypeError]. *)
Definition as_str (v : pyval) : result string :=
  match v with
  | PStr s => Ok s
  | _ => Raise TypeError
  end.

Fixpoint all_str (parts : list pyval) : result (list string) :=
  match parts with
  | [] => Ok []
  | v :: parts' =>
      s ← as_str v;
      rest ← all_str parts';
      Ok (s :: rest)
  end.

Definition py_join (sep : string) (parts : list pyval) : result string :=
  strs ← all_str parts;
  Ok (String.concat sep strs).

(** [l[i]] *)
Definition py_getitem {A : Type} (l : list A) (i : Z) : result A :=
  let n := Z.of_nat (length l) in
  let j := if (i <? 0)%Z then (i + n)%Z else i in
  if (j <? 0)%Z then Raise IndexError
  else match nth_error l (Z.to_nat j) with
       | Some x => Ok x
       | None => Raise IndexError
       end.

(** [sorted(l, key=...)]: stable, [le a b] is [key(a) <= key(b)]. *)
Section Sorted.
Context {A : Type} (le : A -> A -> bool).

Fixpoint sorted_insert (x : A) (l : list A) : list A :=
  match l with
  | [] => [x]
  | y :: l' => if le x y then x :: y :: l' else y :: sorted_insert x l'
  end.

Definition py_sorted (l : list A) : list A := foldr sorted_insert [] l.

(** Adjacent elements are in order. *)
Fixpoint in_order (l : list A) : bool :=
  match l with
  | [] => true
  | x :: l' =>
      match l' with
      | [] => true
      | y :: _ => le x y && in_order l'
      end
  end.
End Sorted.

(** A [dict] whose iteration order matters: keys in insertion order,
    assignment to a present key keeps its place. *)
Section ODict.
Context {K V : Type} `{EqDecision K}.

Fixpoint od_lookup (k : K) (d : list (K * V)) : option V :=
  match d with
  | [] => None
  | (k', v) :: d' => if decide (k = k') then Some v else od_lookup k d'
  end.

(** [d[k] = v] *)
Fixpoint od_set (k : K) (v : V) (d : list (K * V)) : list (K * V) :=
  match d with
  | [] => [(k, v)]
  | (k', v') :: d' =>
      if decide (k = k') then (k, v) :: d' else (k', v') :: od_set k v d'
  end.

(** [list(d.values())] *)
Definition od_values (d : list (K * V)) : list V := map snd d.
End ODict.

(** A loop that files each item under a key: the item is skipped when it
    has no key, and otherwise the entry of its key is made or updated from
    the item.  The loops of [get_hosts] and [get_credentials] are of this
    shape whenever they do not raise. *)
Section GroupBy.
Context {K V A : Type} `{EqDecision K}.
Variable key : A -> option K.
Variable upd : K -> option V -> A -> V.

Definition group_step (d : list (K * V)) (x : A) : list (K * V) :=
  match key x with
  | None => d
  | Some k => od_set k (upd k (od_lookup k d) x) d
  end.

Definition group_by (xs : list A) (d : list (K * V)) : list (K * V) :=
  foldl group_step d xs.

(** The items filed under [k], in their order. *)
Definition group_of (k : K) (xs : list A) : list A :=
  filter (fun x => key x = Some k) xs.

(** The entry that the items of one group build. *)
Definition group_value (k : K) (g : list A) (o : option V) : option V :=
  foldl (fun o x => Some (upd k o x)) o g.
End GroupBy.

(** [s.add(x)] on a set kept as a duplicate-free list. *)
Definition set_add {A : Type} `{EqDecision A} (x : A) (s : list A) : list A :=
  if bool_decide (x ∈ s) then s else s ++ [x].

Fixpoint foldM {A S : Type} (f : S -> A -> result S) (l : list A) (s : S)
  : result S :=
  match l with
  | [] => Ok s
  | x :: l' => s' ← f s x; foldM f l' s'
  end.

(** [l[start:end]] for a list, with CPython's index normalisation. *)
Definition py_index_clip (n i : Z) : Z :=
  if (i <? 0)%Z then Z.max 0 (i + n) else Z.min i n.

Definition py_slice {A : Type} (l : list A) (start stop : Z) : list A :=
  let n := Z.of_nat (length l) in
  let s := py_index_clip n start in
  let e := py_index_clip n stop in
  firstn (Z.to_nat (e - s)) (skipn (Z.to_nat s) l).

(** ** components/paginator.py *)

Module Paginator.
Local Open Scope Z_scope.

Section Generic.
Context {T F : Type}.

Record PaginationResult : Type := mkResult {
  items : list T;
  page : Z;
  page_size : Z;
  total_items : Z;
  total_pages : Z;
  has_next : bool;
  has_prev : bool
}.

(** The paginator object; [F] is the type of the filter dict, which
    [get_page] only hands to the data source. *)
Record t : Type := mk {
  data_source : Z -> Z -> F -> list T * Z;
  self_page_size : Z;
  current_page : Z;
  filters : F
}.

Definition set_current_page (self : t) (p : Z) : t :=
  mk (data_source self) (self_page_size self) p (filters self).

(** [a // b] raises on a zero divisor and is floor division otherwise. *)
Definition floordiv (a b : Z) : result Z :=
  if b =? 0 then Raise ZeroDivisionError else Ok (a / b).

Definition get_page (self : t) (page : option Z) : result (t * PaginationResult) :=
  let self :=
    match page with
    | Some p => set_current_page self (Z.max 1 p)
    | None => self
    end in
  let '(items, total) :=
    data_source self (current_page self) (self_page_size self) (filters self) in
  q ← floordiv (total + self_page_size self - 1) (self_page_size self);
  let total_pages := Z.max 1 q in
  let self :=
    if current_page self >? total_pages
    then set_current_page self total_pages
    else self in
  Ok (self,
      mkResult items (current_page self) (self_page_size self) total total_pages
               (current_page self <? total_pages) (current_page self >? 1)).

Definition goto_page (self : t) (page : Z) : result (t * PaginationResult) :=
  get_page self (Some (Z.max 1 page)).

Definition last_page (self : t) : result (t * PaginationResult) :=
  let '(_, total) := data_source self 1 (self_page_size self) (filters self) in
  q ← floordiv (total + self_page_size self - 1) (self_page_size self);
  get_page (set_current_page self (Z.max 1 q)) None.

Definition init (ds : Z -> Z -> F -> list T * Z) (size : Z) (empty : F) : t :=
  mk ds size 1 empty.

Definition next_page (self : t) : result (t * PaginationResult) :=
  '(self, result) ← get_page self None;
  let self :=
    if has_next result then set_current_page self (current_page self + 1)
    else self in
  get_page self None.

Definition prev_page (self : t) : result (t * PaginationResult) :=
  let self :=
    if current_page self >? 1 then set_current_page self (current_page self - 1)
    else self in
  get_page self None.

Definition first_page (self : t) : result (t * PaginationResult) :=
  get_page (set_current_page self 1) None.

(** [max(1, (total + page_size - 1) // page_size)], as [get_page],
    [last_page] and the pages compute it, for a page size that is not 0. *)
Definition page_count (total size : Z) : Z :=
  Z.max 1 ((total + size - 1) / size).

(** The calls that move a paginator. *)
Inductive nav : Type :=
  | NavGet (page : option Z)
  | NavNext
  | NavPrev
  | NavFirst
  | NavLast
  | NavGoto (page : Z).

Definition run_nav (self : t) (op : nav) : result (t * PaginationResult) :=
  match op with
  | NavGet page => get_page self page
  | NavNext => next_page self
  | NavPrev => prev_page self
  | NavFirst => first_page self
  | NavLast => last_page self
  | NavGoto page => goto_page self page
  end.

(** A fetch operation whose total does not depend on the page asked for,
    as the fetches of [DashboardDB] are. *)
Definition steady (self : t) (total : Z) : Prop :=
  forall p, snd (data_source self p (self_page_size self) (filters self)) = total.

(** Two paginators over the same fetch, page size and filters. *)
Definition same_source (self' self : t) : Prop :=
  data_source self' = data_source self /\
  self_page_size self' = self_page_size self /\
  filters self' = filters self.

(** The window that the fetch gives for [page]. *)
Definition window (self : t) (page : Z) : list T :=
  fst (data_source self page (self_page_size self) (filters self)).

(** A run of calls, each on the paginator the one before left. *)
Fixpoint run_navs (self : t) (ops : list nav) : result t :=
  match ops with
  | [] => Ok self
  | op :: ops' =>
      '(self', _) ← run_nav self op;
      run_navs self' ops'
  end.
End Generic.

Arguments PaginationResult : clear implicits.
Arguments t : clear implicits.

(** A fetch operation of the shape every [DashboardDB.get_*] has: the whole
    list is built, then [lst[start:end], len(lst)] is returned. *)
Definition list_source {T : Type} (all : list T) (page size : Z) (_ : unit)
  : list T * Z :=
  let start := (page - 1) * size in
  (py_slice all start (start + size), Z.of_nat (length all)).

(** The filter dict of a paginator whose filters are a [dict] of values. *)
Definition set_filter {T : Type} (self : t T (gmap string pyval))
    (key : string) (value : pyval) : t T (gmap string pyval) :=
  mk (data_source self) (self_page_size self) 1 (<[key := value]> (filters self)).

Definition clear_filter {T : Type} (self : t T (gmap string pyval))
    (key : string) : t T (gmap string pyval) :=
  match filters self !! key with
  | Some _ =>
      mk (data_source self) (self_page_size self) 1 (delete key (filters self))
  | None => self
  end.

Definition clear_filters {T : Type} (self : t T (gmap string pyval))
  : t T (gmap string pyval) :=
  mk (data_source self) (self_page_size self) 1 ∅.

End Paginator.

(** ** components/responsive.py *)

Module Responsive.
Local Open Scope Z_scope.

Definition PRIORITY_CRITICAL : Z := 1.
Definition PRIORITY_HIGH : Z := 2.
Definition PRIORITY_MEDIUM : Z := 3.
Definition PRIORITY_LOW : Z := 4.

(** The attributes [get_visible_columns] reads, and the two that identify a
    column; [width] is [None] for an automatic width. *)
Record ResponsiveColumn : Type := Column {
  name : string;
  key : string;
  width : option Z;
  priority : Z
}.

#[global] Instance ResponsiveColumn_eq_dec : EqDecision ResponsiveColumn.
Proof. solve_decision. Defined.

Definition WIDTH_NARROW : Z := 80.
Definition WIDTH_MEDIUM : Z := 120.
Definition WIDTH_WIDE : Z := 160.

(** [c.width or 10] *)
Definition width_or_10 (c : ResponsiveColumn) : Z :=
  match width c with
  | Some w => if w =? 0 then 10 else w
  | None => 10
  end.

Definition sum_Z (l : list Z) : Z := foldr Z.add 0 l.

(** [sum(c.width or 10 for c in visible) + len(visible)] *)
Definition total_width (visible : list ResponsiveColumn) : Z :=
  sum_Z (map width_or_10 visible) + Z.of_nat (length visible).

Definition max_priority_for (terminal_width : Z) : Z :=
  if terminal_width <? WIDTH_NARROW then PRIORITY_CRITICAL
  else if terminal_width <? WIDTH_MEDIUM then PRIORITY_HIGH
  else if terminal_width <? WIDTH_WIDE then PRIORITY_MEDIUM
  else PRIORITY_LOW.

Definition priority_le (c d : ResponsiveColumn) : bool :=
  priority c <=? priority d.

(** One test and one body of the [while] loop. *)
Definition still_too_wide (terminal_width : Z) (visible : list ResponsiveColumn)
  : bool :=
  (total_width visible >? terminal_width - 6) && (Z.of_nat (length visible) >? 1).

Definition drop_lowest (visible : list ResponsiveColumn) : list ResponsiveColumn :=
  removelast (py_sorted priority_le visible).

(** The [while] loop; every turn shortens [visible], so [length visible]
    turns are enough (see [shrink_exits]). *)
Fixpoint shrink (fuel : nat) (terminal_width : Z) (visible : list ResponsiveColumn)
  : list ResponsiveColumn :=
  match fuel with
  | O => visible
  | S fuel' =>
      if still_too_wide terminal_width visible
      then shrink fuel' terminal_width (drop_lowest visible)
      else visible
  end.

Definition get_visible_columns (columns : list ResponsiveColumn) (terminal_width : Z)
  : list ResponsiveColumn :=
  let max_priority := max_priority_for terminal_width in
  let visible := filter (fun c => priority c <= max_priority) columns in
  shrink (length visible) terminal_width visible.

Definition HOSTS_COLUMNS : list ResponsiveColumn :=
  [ Column "ID" "id" (Some 4) PRIORITY_HIGH;
    Column "IP" "ip" (Some 15) PRIORITY_CRITICAL;
    Column "Hostname" "hostname" (Some 15) PRIORITY_CRITICAL;
    Column "Domain" "domain" (Some 15) PRIORITY_LOW;
    Column "OS" "os" (Some 20) PRIORITY_MEDIUM;
    Column "DC" "dc" (Some 3) PRIORITY_HIGH;
    Column "Proto" "protocols" (Some 8) PRIORITY_HIGH ].

End Responsive.

(** ** components/command_builder.py *)

Module CommandBuilder.
Local Open Scope Z_scope.

Record ProtoInfo : Type := Info { port : Z; needs_cred : bool }.

Definition PROTOCOLS : list (string * ProtoInfo) :=
  [ ("smb", Info 445 true);
    ("ldap", Info 389 true);
    ("winrm", Info 5985 true);
    ("ssh", Info 22 true);
    ("mssql", Info 1433 true);
    ("rdp", Info 3389 true);
    ("ftp", Info 21 true);
    ("wmi", Info 135 true);
    ("vnc", Info 5900 false);
    ("nfs", Info 2049 false) ].

Definition catalog_entry (protocol : string) : option ProtoInfo :=
  snd <$> List.find (fun e => String.eqb (fst e) protocol) PROTOCOLS.

(** [self.state], one of the five names the code uses. *)
Inductive state_t : Type :=
  | st_idle | st_select_host | st_select_user | st_select_protocol | st_done.

Record t : Type := mk {
  state : state_t;
  selected_host : option (gmap string pyval);
  selected_user : option (gmap string pyval);
  selected_protocol : option string;
  protocol_index : Z;
  available_protocols : list string;
  start_from : option string
}.

Definition reset (_ : t) : t :=
  mk st_idle None None None 0 (map fst PROTOCOLS) None.

Definition init : t := mk st_idle None None None 0 (map fst PROTOCOLS) None.

Definition start_selection (self : t) (origin : string) : t :=
  let self := reset self in
  mk (if String.eqb origin "hosts" then st_select_host else st_select_user)
     (selected_host self) (selected_user self) (selected_protocol self)
     (protocol_index self) (available_protocols self) (Some origin).

Definition set_host (self : t) (host_data : gmap string pyval) : t :=
  mk (if decide (start_from self = Some "hosts") then st_select_user else st_select_protocol)
     (Some host_data) (selected_user self) (selected_protocol self)
     (protocol_index self) (available_protocols self) (start_from self).

Definition set_user (self : t) (user_data : gmap string pyval) : t :=
  mk (if decide (start_from self = Some "users") then st_select_host else st_select_protocol)
     (selected_host self) (Some user_data) (selected_protocol self)
     (protocol_index self) (available_protocols self) (start_from self).

(** Truth value of an attribute that holds [None] or a dict. *)
Definition dict_truthy (d : option (gmap string pyval)) : bool :=
  match d with
  | Some m => negb (bool_decide (m = ∅))
  | None => false
  end.

Definition str_truthy (o : option string) : bool :=
  match o with
  | Some s => negb (String.eqb s "")
  | None => false
  end.

Definition proto_map : list (ascii * string) :=
  [ ("S"%char, "smb"); ("L"%char, "ldap"); ("W"%char, "winrm");
    ("M"%char, "mssql"); ("R"%char, "rdp"); ("F"%char, "ftp");
    ("V"%char, "vnc"); ("N"%char, "nfs") ].

(** [proto_map[letter.upper()]] for a letter of the host's protocols,
    which are the ASCII first letters of protocol names. *)
Definition proto_of_letter (c : ascii) : option string :=
  snd <$> List.find (fun e => Ascii.eqb (fst e) (ascii_upper c)) proto_map.

Definition get_available_protocols (self : t) : result (list string) :=
  if negb (dict_truthy (selected_host self)) then Ok (available_protocols self)
  else
    match selected_host self with
    | Some host =>
        match dict_get host "protocols" (PStr "") with
        | PStr host_protos =>
            let available :=
              omap proto_of_letter (list_ascii_of_string host_protos) in
            Ok (match available with
                | [] => available_protocols self
                | _ => available
                end)
        | _ => Raise TypeError
        end
    | None => Ok (available_protocols self)
    end.

Definition select_protocol (self : t) (protocol : string) : t :=
  mk st_done (selected_host self) (selected_user self) (Some protocol)
     (protocol_index self) (available_protocols self) (start_from self).

Definition set_protocol_index (self : t) (i : Z) : t :=
  mk (state self) (selected_host self) (selected_user self) (selected_protocol self)
     i (available_protocols self) (start_from self).

Definition CR : string := String "013"%char EmptyString.

Definition handle_protocol_key (self : t) (key : string) : result (t * bool) :=
  available ← get_available_protocols self;
  match available with
  | [] => Ok (self, false)
  | _ =>
      let n := Z.of_nat (length available) in
      if String.eqb key "up" || String.eqb key "w"
      then Ok (set_protocol_index self ((protocol_index self - 1) mod n), false)
      else if String.eqb key "down" || String.eqb key "s"
      then Ok (set_protocol_index self ((protocol_index self + 1) mod n), false)
      else if String.eqb key CR
      then p ← py_getitem available (protocol_index self);
           Ok (select_protocol self p, true)
      else Ok (self, false)
  end.

Definition dquote : string := String "034"%char EmptyString.

Definition build_command (self : t) : result string :=
  if negb (dict_truthy (selected_host self) && str_truthy (selected_protocol self))
  then Ok ""
  else
    match selected_host self, selected_protocol self with
    | Some host, Some protocol =>
        let parts := [PStr "nxc"; PStr protocol] in
        let target := dict_get host "ip" (PStr "") in
        let parts := if truthy target then parts ++ [target] else parts in
        let parts :=
          match selected_user self with
          | Some user =>
              if dict_truthy (Some user) then
                let domain := dict_get user "domain" (PStr "") in
                let username := dict_get user "username" (PStr "") in
                let password := dict_get user "password" (PStr "") in
                let credtype := dict_get user "credtype" (PStr "plaintext") in
                let parts :=
                  if truthy domain && truthy username
                  then parts ++ [PStr "-u";
                                 PStr (py_str domain ++ "\" ++ py_str username)]
                  else if truthy username
                  then parts ++ [PStr "-u"; username]
                  else parts in
                if truthy password then
                  if bool_decide (credtype = PStr "hash")
                  then parts ++ [PStr "-H"; password]
                  else parts ++ [PStr "-p";
                                 PStr (dquote ++ py_str password ++ dquote)]
                else parts
              else parts
          | None => parts
          end in
        py_join " " parts
    | _, _ => Ok ""
    end.

Definition is_active (self : t) : bool :=
  match state self with
  | st_idle | st_done => false
  | _ => true
  end.

Definition needs_protocol_selection (self : t) : bool :=
  match state self with
  | st_select_protocol => true
  | _ => false
  end.

Definition is_complete (self : t) : bool :=
  match state self with
  | st_done => true
  | _ => false
  end.

(** The command as the grammar words it, for a credential whose every
    field is present:
    [<tool> <protocol> <target> -u <domain>\<user>|<user> -p "<secret>"|-H <secret>]. *)
Definition grammar_command (protocol ip domain username secret credtype : string)
  : string :=
  ("nxc " ++ protocol ++ " " ++ ip ++ " -u "
   ++ (if String.eqb domain "" then username else domain ++ "\" ++ username)
   ++ (if String.eqb credtype "hash" then " -H " ++ secret
       else " -p " ++ dquote ++ secret ++ dquote))%string.

(** The text of a field that holds a [str]; [None] counts as empty. *)
Definition text_or_empty (v : pyval) : string :=
  match v with
  | PStr s => s
  | _ => ""
  end.

(** The credential flags of the grammar, each left out when its field is
    empty: [ -u <domain>\<user>] or [ -u <user>], and [ -H <secret>] or
    [ -p "<secret>"]. *)
Definition user_flag (domain username : string) : string :=
  (if String.eqb username "" then ""
   else " -u " ++ (if String.eqb domain "" then username
                   else domain ++ "\" ++ username))%string.

Definition secret_flag (secret : string) (credtype : pyval) : string :=
  (if String.eqb secret "" then ""
   else if bool_decide (credtype = PStr "hash") then " -H " ++ secret
        else " -p " ++ dquote ++ secret ++ dquote)%string.

End CommandBuilder.

(** ** db.py *)

Module DashboardDB.
Local Open Scope Z_scope.

Definition PROTOCOLS : list string :=
  ["smb"; "ldap"; "ssh"; "wmi"; "ftp"; "rdp"; "nfs"; "vnc"; "mssql"; "winrm"].

(** *** Connections *)

Record Connection : Type := {
  execute : string -> option (gmap string pyval) -> result (list (gmap string pyval))
}.

(** An engine is what [connect()] gives and what [dispose()] does; a
    session is what [close()] does. *)
Record Engine : Type := {
  connect : result Connection;
  dispose : result unit
}.

Record Session : Type := { session_close : result unit }.

Record t : Type := mk {
  engines : list (string * Engine);
  sessions : list (string * Session);
  _last_counts : gmap string Z
}.

Definition params_truthy (params : option (gmap string pyval)) : bool :=
  match params with
  | Some m => negb (bool_decide (m = ∅))
  | None => false
  end.

(** The rows returned, and the debug lines logged. *)
Definition _execute_query (self : t) (protocol : string) (query : string)
    (params : option (gmap string pyval))
  : result (list (gmap string pyval)) * list string :=
  match od_lookup protocol (engines self) with
  | None => (Ok [], [])
  | Some engine =>
      let body :=
        conn ← connect engine;
        if params_truthy params then execute conn query params
        else execute conn query None in
      (try_except body (fun _ => Ok []),
       match body with
       | Ok _ => []
       | Raise _ => [("Query failed on " +:+ protocol)%string]
       end)
  end.

(** *** Shutdown *)

Inductive handle : Type :=
  | SessionOf (protocol : string)
  | EngineOf (protocol : string).

(** Runs the calls in order; the first one that raises ends the loop.  The
    list holds the handles whose close was called. *)
Fixpoint call_each (calls : list (handle * result unit))
  : list handle * result unit :=
  match calls with
  | [] => ([], Ok tt)
  | (h, r) :: calls' =>
      match r with
      | Ok _ => let '(called, res) := call_each calls' in (h :: called, res)
      | Raise e => ([h], Raise e)
      end
  end.

Definition close_calls (self : t) : list (handle * result unit) :=
  map (fun '(p, s) => (SessionOf p, session_close s)) (sessions self)
  ++ map (fun '(p, e) => (EngineOf p, dispose e)) (engines self).

Definition close (self : t) : list handle * result unit :=
  call_each (close_calls self).

(** How the main loop of [DashboardApp.run] is left. *)
Inductive loop_exit : Type :=
  | NormalQuit
  | Interrupt
  | Uncaught (e : exn).

(** The [except KeyboardInterrupt] and [finally] clauses of [run], as far as
    the connections go: [self.db.close()] on every way out; an exception of
    [close] replaces the one in flight. *)
Definition run_finally (self : t) (exit : loop_exit) : list handle * result unit :=
  let '(called, res) := close self in
  match res, exit with
  | Raise e, _ => (called, Raise e)
  | Ok _, Uncaught e => (called, Raise e)
  | Ok _, _ => (called, Ok tt)
  end.

(** *** Deltas *)

(** [current] is what [get_counts()] returned. *)
Definition get_diff_counts (self : t) (current : gmap string Z)
  : t * gmap string Z :=
  let diff :=
    map_imap (fun key cur =>
                Some (cur - match _last_counts self !! key with
                            | Some prev => prev
                            | None => cur
                            end)) current in
  (mk (engines self) (sessions self) current, diff).

Definition init (engines : list (string * Engine))
    (sessions : list (string * Session)) : t :=
  mk engines sessions ∅.

(** *** Hosts *)

(** One store's answer to [SELECT * FROM hosts] (or [users]), under the
    name of its protocol, in the order of [self.engines]. *)
Definition tag_rows `{PyStr} (source : string * list (gmap string pyval))
  : list (gmap string pyval) :=
  map (fun row => <["_protocol" := PStr (str_upper (fst source))]> row) (snd source).

Definition collect `{PyStr} (sources : list (string * list (gmap string pyval)))
  : list (gmap string pyval) :=
  concat (map tag_rows sources).

(** A merged host; [protocols] is a set while the rows are read and the
    sorted string afterwards. *)
Record Host (P : Type) : Type := mkHost {
  h_id : pyval;
  h_ip : string;
  h_hostname : pyval;
  h_domain : pyval;
  h_os : pyval;
  h_protocols : P;
  h_dc : pyval;
  h_signing : pyval
}.

Arguments mkHost {P}.
Arguments h_id {P}.
Arguments h_ip {P}.
Arguments h_hostname {P}.
Arguments h_domain {P}.
Arguments h_os {P}.
Arguments h_protocols {P}.
Arguments h_dc {P}.
Arguments h_signing {P}.

(** [row["_protocol"]] as a [str]. *)
Definition tag_of (row : gmap string pyval) : result string :=
  match row !! "_protocol" with
  | None => Raise KeyError
  | Some (PStr s) => Ok s
  | Some _ => Raise TypeError
  end.

(** [host["_protocol"][0]] *)
Definition tag_letter (host : gmap string pyval) : result ascii :=
  s ← tag_of host;
  match s with
  | String c _ => Ok c
  | EmptyString => Raise IndexError
  end.

Definition new_host (ip : string) (host : gmap string pyval) : Host (list ascii) :=
  mkHost (dict_get host "id" (PInt 0)) ip
         (dict_get host "hostname" (PStr ""))
         (dict_get host "domain" (PStr ""))
         (dict_get host "os" (PStr ""))
         []
         (dict_get host "dc" (PBool false))
         (dict_get host "signing" PNone).

(** The three updates of [merged[ip]] that follow the insertion. *)
Definition absorb (host : gmap string pyval) (letter : ascii)
    (h : Host (list ascii)) : Host (list ascii) :=
  let protocols := set_add letter (h_protocols h) in
  let hostname :=
    if truthy (dict_get host "hostname" PNone) && negb (truthy (h_hostname h))
    then dict_get host "hostname" PNone else h_hostname h in
  let os :=
    if truthy (dict_get host "os" PNone) && negb (truthy (h_os h))
    then dict_get host "os" PNone else h_os h in
  mkHost (h_id h) (h_ip h) hostname (h_domain h) os protocols (h_dc h) (h_signing h).

(** The body of [for host in all_hosts]. *)
Definition merge_step `{PyStr} (merged : list (string * Host (list ascii)))
    (host : gmap string pyval) : result (list (string * Host (list ascii))) :=
  let ipv := dict_get host "ip" (PStr "") in
  if negb (truthy ipv) then Ok merged
  else
    match ipv with
    | PStr ip =>
        if strip_is_empty ip then Ok merged
        else
          let entry :=
            match od_lookup ip merged with
            | Some h => h
            | None => new_host ip host
            end in
          letter ← tag_letter host;
          Ok (od_set ip (absorb host letter entry) merged)
    | _ => Raise AttributeError
    end.

Definition ascii_le (a b : ascii) : bool := Ascii.leb a b.

(** [h["protocols"] = "".join(sorted(h["protocols"]))] *)
Definition join_protocols (h : Host (list ascii)) : Host string :=
  mkHost (h_id h) (h_ip h) (h_hostname h) (h_domain h) (h_os h)
         (string_of_list_ascii (py_sorted ascii_le (h_protocols h)))
         (h_dc h) (h_signing h).

(** [get_hosts] from the merge loop to [host_list], before the optional
    filters and the page slice. *)
Definition merge_hosts `{PyStr} (all_hosts : list (gmap string pyval))
  : result (list (Host string)) :=
  merged ← foldM merge_step all_hosts [];
  Ok (map join_protocols (od_values merged)).

(** The key under which the loop files a row: its address, when that is
    a [str] that is not empty and has more than white space in it. *)
Definition host_key `{PyStr} (host : gmap string pyval) : option string :=
  match dict_get host "ip" (PStr "") with
  | PStr ip => if String.eqb ip "" || strip_is_empty ip then None else Some ip
  | _ => None
  end.

Definition letter_of (host : gmap string pyval) : ascii :=
  match tag_letter host with
  | Ok c => c
  | Raise _ => "000"%char
  end.

Definition host_upd (ip : string) (o : option (Host (list ascii)))
    (host : gmap string pyval) : Host (list ascii) :=
  absorb host (letter_of host)
         (match o with Some h => h | None => new_host ip host end).

(** What a run of further rows does to an entry. *)
Definition absorb_all (ip : string) (h : Host (list ascii))
    (g : list (gmap string pyval)) : Host (list ascii) :=
  foldl (fun h row => host_upd ip (Some h) row) h g.

Definition str_or_none (v : pyval) : bool :=
  match v with
  | PNone | PStr _ => true
  | _ => false
  end.

(** A row as the collection loop leaves it, from a store whose [ip] column
    holds text or NULL: the address is a [str] or [None], and the row
    carries the upper-case name of a protocol, which is not empty and
    begins with an ASCII letter, as the names of [PROTOCOLS] do. *)
Definition host_row_wf (host : gmap string pyval) : bool :=
  str_or_none (dict_get host "ip" (PStr ""))
  && match tag_letter host with
     | Ok c => (nat_of_ascii c <? 128)%nat
     | Raise _ => false
     end.

(** The first value of [field] among [group] that counts as true, and the
    value of the first row when there is none. *)
Definition first_non_empty (field : string) (default : pyval)
    (group : list (gmap string pyval)) : pyval :=
  match List.find (fun row => truthy (dict_get row field PNone)) group with
  | Some row => dict_get row field PNone
  | None =>
      match group with
      | row :: _ => dict_get row field default
      | [] => default
      end
  end.

(** The rows that contribute to the host with address [ip]. *)
Definition rows_with_ip (ip : string) (rows : list (gmap string pyval))
  : list (gmap string pyval) :=
  filter (fun row => dict_get row "ip" (PStr "") = PStr ip) rows.

(** *** Credentials *)

(** [v.lower()] *)
Definition lower_of `{PyStr} (v : pyval) : result string :=
  match v with
  | PStr s => Ok (str_lower s)
  | _ => Raise AttributeError
  end.

Definition cred_key `{PyStr} (cred : gmap string pyval) : result (string * string * string) :=
  d ← lower_of (dict_get cred "domain" (PStr ""));
  u ← lower_of (dict_get cred "username" (PStr ""));
  c ← lower_of (dict_get cred "credtype" (PStr ""));
  Ok (d, u, c).

(** A deduplicated credential while the rows are read. *)
Record CredEntry : Type := mkEntry {
  e_id : pyval;
  e_domain : pyval;
  e_username : pyval;
  e_password : pyval;
  e_credtype : pyval;
  e_pillaged_from : pyval;
  e_reuse_count : Z;
  e_protocols : list string
}.

(** A deduplicated credential as returned. *)
Record Cred : Type := mkCred {
  c_id : pyval;
  c_domain : pyval;
  c_username : pyval;
  c_password : pyval;
  c_credtype : pyval;
  c_pillaged_from : pyval;
  c_reuse_count : Z;
  c_protocols : string;
  c_source : string
}.

(** The body of [for cred in all_creds]. *)
Definition dedup_step `{PyStr} (deduped : list (string * string * string * CredEntry))
    (cred : gmap string pyval)
  : result (list (string * string * string * CredEntry)) :=
  key ← cred_key cred;
  match od_lookup key deduped with
  | None =>
      tag ← tag_of cred;
      Ok (od_set key
            (mkEntry (dict_get cred "id" (PInt 0))
                     (dict_get cred "domain" (PStr ""))
                     (dict_get cred "username" (PStr ""))
                     (dict_get cred "password" (PStr ""))
                     (dict_get cred "credtype" (PStr "plaintext"))
                     (dict_get cred "pillaged_from_hostid" PNone)
                     1
                     [tag])
            deduped)
  | Some e =>
      tag ← tag_of cred;
      Ok (od_set key
            (mkEntry (e_id e) (e_domain e) (e_username e) (e_password e)
                     (e_credtype e) (e_pillaged_from e)
                     (e_reuse_count e + 1)
                     (set_add tag (e_protocols e)))
            deduped)
  end.

Definition string_le (a b : string) : bool := String.leb a b.

(** The loop over [cred_list] that joins the protocols and sets ["source"]. *)
Definition finish_cred (e : CredEntry) : Cred :=
  mkCred (e_id e) (e_domain e) (e_username e) (e_password e) (e_credtype e)
         (e_pillaged_from e) (e_reuse_count e)
         (String.concat ", " (py_sorted string_le (e_protocols e)))
         (if truthy (e_pillaged_from e) then "dumped" else "used").

(** [get_credentials] from the dedup loop to [cred_list], before the
    optional type filter and the page slice. *)
Definition dedup_credentials `{PyStr} (all_creds : list (gmap string pyval))
  : result (list Cred) :=
  deduped ← foldM dedup_step all_creds [];
  Ok (map finish_cred (od_values deduped)).


(** The loop of [get_credentials] as a grouping loop. *)
Definition cred_key_of `{PyStr} (cred : gmap string pyval)
  : option (string * string * string) :=
  match cred_key cred with
  | Ok k => Some k
  | Raise _ => None
  end.

Definition tag_str (row : gmap string pyval) : string :=
  match tag_of row with
  | Ok s => s
  | Raise _ => ""
  end.

Definition cred_upd (_ : string * string * string) (o : option CredEntry)
    (cred : gmap string pyval) : CredEntry :=
  match o with
  | None =>
      mkEntry (dict_get cred "id" (PInt 0))
              (dict_get cred "domain" (PStr ""))
              (dict_get cred "username" (PStr ""))
              (dict_get cred "password" (PStr ""))
              (dict_get cred "credtype" (PStr "plaintext"))
              (dict_get cred "pillaged_from_hostid" PNone)
              1
              [tag_str cred]
  | Some e =>
      mkEntry (e_id e) (e_domain e) (e_username e) (e_password e)
              (e_credtype e) (e_pillaged_from e)
              (e_reuse_count e + 1)
              (set_add (tag_str cred) (e_protocols e))
  end.

Definition count_all (k : string * string * string) (e : CredEntry)
    (g : list (gmap string pyval)) : CredEntry :=
  foldl (fun e row => cred_upd k (Some e) row) e g.

(** A credential row as the collection loop leaves it, from a store whose
    [domain], [username] and [credtype] hold text: the three are [str]
    (or missing), and the row carries the name of its protocol. *)
Definition cred_row_wf `{PyStr} (cred : gmap string pyval) : bool :=
  is_ok (cred_key cred) && is_ok (tag_of cred).

(** The rows of the group with key [k]. *)
Definition rows_with_key `{PyStr} (k : string * string * string)
    (rows : list (gmap string pyval)) : list (gmap string pyval) :=
  filter (fun row => cred_key row = Ok k) rows.

(** *** Listings *)

(** [a or b] *)
Definition py_or (a b : pyval) : pyval := if truthy a then a else b.

(** [needle in hay], for two [str]. *)
Fixpoint str_contains (needle hay : string) : bool :=
  String.prefix needle hay ||
  match hay with
  | EmptyString => false
  | String _ hay' => str_contains needle hay'
  end.

Definition _safe_get (row : gmap string pyval) (key : string) (default : pyval)
  : pyval :=
  match dict_get row key default with
  | PNone => default
  | val => val
  end.

Definition has_engine (self : t) (protocol : string) : bool :=
  match od_lookup protocol (engines self) with
  | Some _ => true
  | None => false
  end.

(** [get_table_names engine] is [inspect(engine).get_table_names()], which
    may fail. *)
Definition _table_exists (get_table_names : Engine -> result (list string))
    (self : t) (protocol table_name : string) : bool :=
  match od_lookup protocol (engines self) with
  | None => false
  | Some engine =>
      match get_table_names engine with
      | Ok names => bool_decide (table_name ∈ names)
      | Raise _ => false
      end
  end.

(** [filters or {}] *)
Definition filters_or_empty (filters : option (gmap string pyval))
  : gmap string pyval :=
  match filters with
  | Some f => f
  | None => ∅
  end.

(** [lst[start:end], len(lst)] with [start = (page - 1) * size]. *)
Definition page_of {A : Type} (lst : list A) (page size : Z) : list A * Z :=
  let total := Z.of_nat (length lst) in
  let start := (page - 1) * size in
  let end_ := start + size in
  (py_slice lst start end_, total).

(** **** Shares *)

Record Share : Type := mkShare {
  share_id : pyval;
  share_host : pyval;
  share_name : pyval;
  share_access : string;
  share_remark : pyval
}.

#[global] Instance Share_eq_dec : EqDecision Share.
Proof. solve_decision. Defined.

Definition access_of (s : gmap string pyval) : list string :=
  let access := [] in
  let access :=
    if truthy (dict_get s "read" PNone) then access ++ ["READ"] else access in
  let access :=
    if truthy (dict_get s "write" PNone) then access ++ ["WRITE"] else access in
  match access with
  | [] => access ++ ["NO ACCESS"]
  | _ => access
  end.

Definition share_of (s : gmap string pyval) : Share :=
  mkShare (dict_get s "id" (PInt 0))
          (py_or (dict_get s "ip" PNone) (dict_get s "hostname" (PStr "")))
          (dict_get s "name" (PStr ""))
          (String.concat ", " (access_of s))
          (dict_get s "remark" (PStr "")).

Definition filter_shares (filters : gmap string pyval) (share_list : list Share)
  : list Share :=
  if truthy (dict_get filters "read_only" PNone)
  then List.filter (fun s => str_contains "READ" (share_access s)
                             && negb (str_contains "WRITE" (share_access s)))
                   share_list
  else if truthy (dict_get filters "write" PNone)
  then List.filter (fun s => str_contains "WRITE" (share_access s)) share_list
  else if truthy (dict_get filters "no_access" PNone)
  then List.filter (fun s => String.eqb (share_access s) "NO ACCESS") share_list
  else share_list.

(** The statement of [get_shares], its line breaks left out. *)
Definition SHARES_QUERY : string :=
  "SELECT s.id, s.name, s.remark, s.read, s.write, h.ip, h.hostname FROM shares s LEFT JOIN hosts h ON s.hostid = h.id".

Definition get_shares (get_table_names : Engine -> result (list string))
    (self : t) (page size : Z) (filters : option (gmap string pyval))
  : result (list Share * Z) :=
  let filters := filters_or_empty filters in
  if negb (has_engine self "smb")
     || negb (_table_exists get_table_names self "smb" "shares")
  then Ok ([], 0)
  else
    shares ← fst (_execute_query self "smb" SHARES_QUERY None);
    let share_list := map share_of shares in
    let share_list := filter_shares filters share_list in
    Ok (page_of share_list page size).

(** The share tally of [get_analytics], on the rows of
    [SELECT read, write FROM shares]. *)
Record ShareAccess : Type := mkShareAccess {
  sa_read : Z;
  sa_write : Z;
  sa_none : Z
}.

Definition share_access_step (acc : ShareAccess) (s : gmap string pyval)
  : ShareAccess :=
  if truthy (dict_get s "write" PNone)
  then mkShareAccess (sa_read acc) (sa_write acc + 1) (sa_none acc)
  else if truthy (dict_get s "read" PNone)
  then mkShareAccess (sa_read acc + 1) (sa_write acc) (sa_none acc)
  else mkShareAccess (sa_read acc) (sa_write acc) (sa_none acc + 1).

Definition share_access_tally (shares : list (gmap string pyval)) : ShareAccess :=
  foldl share_access_step (mkShareAccess 0 0 0) shares.

(** **** Configuration checks *)

Record Check : Type := mkCheck {
  check_id : pyval;
  check_name : pyval;
  check_host : pyval;
  check_hostname : pyval;
  check_result : string;
  check_details : pyval
}.

Record Summary : Type := mkSummary {
  summary_pass : Z;
  summary_fail : Z;
  summary_warn : Z
}.

(** What [get_wcc_checks] returns: a pair on the early returns, a triple
    with the summary otherwise. *)
Inductive wcc_answer : Type :=
  | WccPair (checks : list Check) (total : Z)
  | WccTriple (checks : list Check) (total : Z) (summary : Summary).

Definition check_of (r : gmap string pyval) : Check :=
  let result := if truthy (dict_get r "secure" PNone) then "PASS" else "FAIL" in
  mkCheck (dict_get r "id" (PInt 0))
          (dict_get r "name" (PStr "Unknown"))
          (py_or (dict_get r "ip" PNone) (dict_get r "hostname" (PStr "")))
          (dict_get r "hostname" (PStr ""))
          result
          (py_or (dict_get r "reasons" PNone) (dict_get r "description" (PStr ""))).

Definition filter_checks (filters : gmap string pyval) (check_list : list Check)
  : list Check :=
  if truthy (dict_get filters "pass" PNone)
  then List.filter (fun c => String.eqb (check_result c) "PASS") check_list
  else if truthy (dict_get filters "fail" PNone)
  then List.filter (fun c => String.eqb (check_result c) "FAIL") check_list
  else check_list.

Definition summary_step (summary : Summary) (c : Check) : Summary :=
  if String.eqb (check_result c) "PASS"
  then mkSummary (summary_pass summary + 1) (summary_fail summary)
                 (summary_warn summary)
  else if String.eqb (check_result c) "FAIL"
  then mkSummary (summary_pass summary) (summary_fail summary + 1)
                 (summary_warn summary)
  else mkSummary (summary_pass summary) (summary_fail summary)
                 (summary_warn summary + 1).

Definition WCC_QUERY : string :=
  "SELECT r.id, r.secure, r.reasons, c.name, c.description, h.ip, h.hostname FROM conf_checks_results r LEFT JOIN conf_checks c ON r.check_id = c.id LEFT JOIN hosts h ON r.host_id = h.id".

Definition get_wcc_checks (get_table_names : Engine -> result (list string))
    (self : t) (page size : Z) (filters : option (gmap string pyval))
  : result wcc_answer :=
  let filters := filters_or_empty filters in
  if negb (has_engine self "smb") then Ok (WccPair [] 0)
  else if negb (_table_exists get_table_names self "smb" "conf_checks_results")
          || negb (_table_exists get_table_names self "smb" "conf_checks")
  then Ok (WccPair [] 0)
  else
    results ← fst (_execute_query self "smb" WCC_QUERY None);
    let check_list := map check_of results in
    let check_list := filter_checks filters check_list in
    let summary := foldl summary_step (mkSummary 0 0 0) check_list in
    let '(checks, total) := page_of check_list page size in
    Ok (WccTriple checks total summary).

(** **** Credential analysis of [get_analytics] *)

Record CredTypes : Type := mkCredTypes {
  ct_plaintext : Z;
  ct_hash : Z;
  ct_ticket : Z
}.

(** [(cred.get("credtype") or "plaintext").lower()] *)
Definition ctype_of `{PyStr} (cred : gmap string pyval) : result string :=
  match py_or (dict_get cred "credtype" PNone) (PStr "plaintext") with
  | PStr s => Ok (str_lower s)
  | _ => Raise AttributeError
  end.

Definition cred_types_step `{PyStr} (acc : CredTypes) (cred : gmap string pyval)
  : result CredTypes :=
  ctype ← ctype_of cred;
  if str_contains "hash" ctype
  then Ok (mkCredTypes (ct_plaintext acc) (ct_hash acc + 1) (ct_ticket acc))
  else if str_contains "ticket" ctype || str_contains "ccache" ctype
  then Ok (mkCredTypes (ct_plaintext acc) (ct_hash acc) (ct_ticket acc + 1))
  else Ok (mkCredTypes (ct_plaintext acc + 1) (ct_hash acc) (ct_ticket acc)).

Definition cred_types `{PyStr} (all_creds : list (gmap string pyval)) : result CredTypes :=
  foldM cred_types_step all_creds (mkCredTypes 0 0 0).

(** *** Logs *)

(** [path_exists] is [os.path.exists] and [readlines] opens the file and
    reads its lines, which may fail. *)
Definition get_log_entries (path_exists : string -> bool)
    (readlines : string -> result (list string))
    (log_file : option string) (count : Z) : result (list string) * list string :=
  match log_file with
  | None => (Ok [], [])
  | Some f =>
      if String.eqb f "" || negb (path_exists f) then (Ok [], [])
      else
        let body :=
          lines ← readlines f;
          Ok (if Z.of_nat (length lines) >? count
              then py_slice lines (- count) (Z.of_nat (length lines))
              else lines) in
        (try_except body (fun _ => Ok []),
         match body with
         | Ok _ => []
         | Raise _ => ["Failed to read log file"%string]
         end)
  end.

End DashboardDB.

(** ** Sample inputs *)

Module Samples.
Local Open Scope Z_scope.

(** Forty-five items, the numbers 0 to 44, in pages of 20. *)
Definition items45 : list nat := seq 0 45.

Definition pager45 : Paginator.t nat unit :=
  Paginator.init (Paginator.list_source items45) 20 tt.

(** Three medium-tier columns of 60 characters and a critical one. *)
Definition wide_columns : list Responsive.ResponsiveColumn :=
  [ Responsive.Column "Remark" "remark" (Some 60) Responsive.PRIORITY_MEDIUM;
    Responsive.Column "Host" "host" (Some 15) Responsive.PRIORITY_CRITICAL;
    Responsive.Column "Details" "details" (Some 60) Responsive.PRIORITY_MEDIUM;
    Responsive.Column "Path" "path" (Some 60) Responsive.PRIORITY_MEDIUM ].

(** Host A and credential B of the end-to-end example. *)
Definition hostA : gmap string pyval :=
  {[ "ip" := PStr "10.0.0.5"; "hostname" := PStr "DC01"; "protocols" := PStr "S" ]}.

Definition credB : gmap string pyval :=
  {[ "domain" := PStr "CORP"; "username" := PStr "alice";
     "password" := PStr "hunter2"; "credtype" := PStr "plaintext" ]}.

(** A credential row whose secret is the empty string. *)
Definition credB_no_secret : gmap string pyval :=
  {[ "domain" := PStr "CORP"; "username" := PStr "alice";
     "password" := PStr ""; "credtype" := PStr "plaintext" ]}.

Definition builder_with (host user : option (gmap string pyval))
    (protocol : option string) : CommandBuilder.t :=
  CommandBuilder.mk CommandBuilder.st_done host user protocol 0
    (map fst CommandBuilder.PROTOCOLS) (Some "hosts"%string).

(** Three stores: one whose file is locked, one that answers a statement
    about a missing column with an error, one that answers with a row. *)
Definition locked_engine : DashboardDB.Engine :=
  {| DashboardDB.connect := Raise (OperationalError "database is locked");
     DashboardDB.dispose := Ok tt |}.

Definition one_row : gmap string pyval := {[ "cnt" := PInt 3 ]}.

Definition answering (rows : result (list (gmap string pyval)))
  : DashboardDB.Engine :=
  {| DashboardDB.connect := Ok {| DashboardDB.execute := fun _ _ => rows |};
     DashboardDB.dispose := Ok tt |}.

Definition query_db : DashboardDB.t :=
  DashboardDB.init
    [ ("smb"%string, locked_engine);
      ("ldap"%string, answering (Raise (OperationalError "no such column: cnt")));
      ("ssh"%string, answering (Ok [one_row])) ]
    [].

(** Two open stores; closing the session of the first one fails. *)
Definition closing_db : DashboardDB.t :=
  DashboardDB.init
    [ ("smb"%string, answering (Ok [])); ("ldap"%string, answering (Ok [])) ]
    [ ("smb"%string,
       {| DashboardDB.session_close := Raise (OperationalError "database is locked") |});
      ("ldap"%string, {| DashboardDB.session_close := Ok tt |}) ].

(** A result of [get_counts()]. *)
Definition counts1 : gmap string Z :=
  {[ "hosts" := 10; "pwned_hosts" := 3; "creds" := 7; "shares" := 0;
     "groups" := 2; "dpapi" := 0; "wcc" := 0; "users_admin" := 1 ]}.

(** One host seen by two stores: the [wmi] store has no [dc] column, the
    [mssql] store has one; and a row without an address. *)
Definition wmi_row : gmap string pyval :=
  {[ "id" := PInt 1; "ip" := PStr "10.0.0.9"; "hostname" := PStr "SQL01";
     "port" := PInt 135 ]}.

Definition mssql_row : gmap string pyval :=
  {[ "id" := PInt 4; "ip" := PStr "10.0.0.9"; "hostname" := PStr "SQL01";
     "domain" := PStr "CORP"; "os" := PStr "Windows Server 2019";
     "dc" := PInt 1 ]}.

Definition no_ip_row : gmap string pyval :=
  {[ "id" := PInt 5; "ip" := PStr ""; "hostname" := PStr "GHOST" ]}.

Definition host_sources : list (string * list (gmap string pyval)) :=
  [ ("wmi"%string, [wmi_row]); ("mssql"%string, [no_ip_row; mssql_row]) ].

(** Two rows of one store for the same account, spelled in different
    case; the second was dumped from host 3. *)
Definition cred_used : gmap string pyval :=
  {[ "id" := PInt 1; "domain" := PStr "CORP"; "username" := PStr "Alice";
     "password" := PStr "hunter2"; "credtype" := PStr "plaintext";
     "pillaged_from_hostid" := PNone ]}.

Definition cred_dumped : gmap string pyval :=
  {[ "id" := PInt 7; "domain" := PStr "corp"; "username" := PStr "alice";
     "password" := PStr "hunter2"; "credtype" := PStr "Plaintext";
     "pillaged_from_hostid" := PInt 3 ]}.

Definition cred_sources : list (string * list (gmap string pyval)) :=
  [ ("smb"%string, [cred_used; cred_dumped]) ].

Definition cred_sources_swapped : list (string * list (gmap string pyval)) :=
  [ ("smb"%string, [cred_dumped; cred_used]) ].

(** The same account as two stores spell it. *)
Definition cred_ldap : gmap string pyval :=
  {[ "id" := PInt 2; "domain" := PStr "corp"; "username" := PStr "ALICE";
     "password" := PStr "hunter2"; "credtype" := PStr "plaintext" ]}.

Definition cred_two_stores : list (string * list (gmap string pyval)) :=
  [ ("smb"%string, [cred_used]); ("ldap"%string, [cred_ldap]) ].

(** The account ADMIN as two stores spell it, the second with a dotless
    ı (U+0131, the bytes 196 177) for the I. *)
Definition dotless_admin : string :=
  String "a" (String "d" (String "m"
    (String "196" (String "177" (String "n" EmptyString))))).

Definition cred_admin : gmap string pyval :=
  {[ "id" := PInt 1; "domain" := PStr "CORP"; "username" := PStr "ADMIN";
     "password" := PStr "hunter2"; "credtype" := PStr "plaintext" ]}.

Definition cred_admin_dotless : gmap string pyval :=
  {[ "id" := PInt 2; "domain" := PStr "corp"; "username" := PStr dotless_admin;
     "password" := PStr "hunter2"; "credtype" := PStr "plaintext" ]}.

Definition cred_dotless : list (string * list (gmap string pyval)) :=
  [ ("smb"%string, [cred_admin]); ("ldap"%string, [cred_admin_dotless]) ].

(** A paginator on page 2 of [items45], whose fetch ignores the filters. *)
Definition pager45_filtered : Paginator.t nat (gmap string pyval) :=
  Paginator.mk (fun page size _ => Paginator.list_source items45 page size tt)
               20 2 {[ "has_shares"%string := PBool true ]}.

(** The columns of the hosts page, as [HostsPage.__init__] declares them
    (most widths automatic). *)
Definition hosts_page_columns : list Responsive.ResponsiveColumn :=
  [ Responsive.Column "ID" "id" None Responsive.PRIORITY_MEDIUM;
    Responsive.Column "IP" "ip" None Responsive.PRIORITY_CRITICAL;
    Responsive.Column "Hostname" "hostname" None Responsive.PRIORITY_CRITICAL;
    Responsive.Column "Domain" "domain" None Responsive.PRIORITY_LOW;
    Responsive.Column "OS" "os" None Responsive.PRIORITY_MEDIUM;
    Responsive.Column "DC" "dc" (Some 3) Responsive.PRIORITY_HIGH;
    Responsive.Column "Protocols" "protocols" None Responsive.PRIORITY_HIGH ].

(** The table names every store reports. *)
Definition all_tables (_ : DashboardDB.Engine) : result (list string) :=
  Ok ["hosts"%string; "users"%string; "shares"%string;
      "conf_checks"%string; "conf_checks_results"%string].

(** Three check results: two that pass, one that fails. *)
Definition check_rows : list (gmap string pyval) :=
  [ {[ "id" := PInt 1; "secure" := PInt 1; "name" := PStr "LSA protection";
       "ip" := PStr "10.0.0.5" ]};
    {[ "id" := PInt 2; "secure" := PInt 0; "name" := PStr "SMB signing";
       "reasons" := PStr "not required"; "ip" := PStr "10.0.0.5" ]};
    {[ "id" := PInt 3; "secure" := PInt 1; "name" := PStr "UAC";
       "ip" := PStr "10.0.0.9" ]} ].

Definition checks_db : DashboardDB.t :=
  DashboardDB.init [ ("smb"%string, answering (Ok check_rows)) ] [].

(** Five credentials: one password used three times, one used twice, a
    hash and a row without a secret. *)
Definition analysis_creds : list (gmap string pyval) :=
  [ {[ "username" := PStr "alice"; "password" := PStr "Summer2024!";
       "credtype" := PStr "plaintext" ]};
    {[ "username" := PStr "bob"; "password" := PStr "Welcome1";
       "credtype" := PStr "plaintext" ]};
    {[ "username" := PStr "carol"; "password" := PStr "Summer2024!";
       "credtype" := PStr "plaintext" ]};
    {[ "username" := PStr "svc_sql";
       "password" := PStr "aad3b435b51404eeaad3b435b51404ee:31d6cfe0d16ae931b73c59d7e0c089c0";
       "credtype" := PStr "hash" ]};
    {[ "username" := PStr "dave"; "password" := PStr "Welcome1" ]};
    {[ "username" := PStr "erin"; "password" := PStr "Summer2024!";
       "credtype" := PStr "plaintext" ]};
    {[ "username" := PStr "krbtgt"; "password" := PNone;
       "credtype" := PStr "Kerberos Ticket" ]} ].

Definition log_lines : list string :=
  [ "[*] start"%string; "[+] 10.0.0.5 pwned"%string; "[-] 10.0.0.9 failed"%string ].



End Samples.

(** * Properties *)

(** ** Pagination *)

Section PaginatorFacts.
Import Paginator.
Local Open Scope Z_scope.
Context {T F : Type}.

(** [(total + size - 1) // size] is the ceiling of [total / size]: the
    least number of pages of [size] items that hold [total] items. *)
Lemma ceil_div_bounds (total size : Z) :
  0 < size ->
  let q := (total + size - 1) / size in
  (q - 1) * size < total <= q * size.
Proof.
  intros Hs q. subst q.
  pose proof (Z.div_mod (total + size - 1) size ltac:(lia)) as Hdm.
  pose proof (Z.mod_pos_bound (total + size - 1) size Hs) as Hm.
  nia.
Qed.

Lemma floordiv_ok (a b : Z) : b <> 0 -> @floordiv a b = Ok (a / b).
Proof.
  intros Hb. unfold floordiv.
  destruct (Z.eqb_spec b 0); [contradiction | reflexivity].
Qed.

(** With a non-zero page size [get_page] returns, whatever page is asked
    for; the page count is [max(1, ceil(total / size))] and the page
    number reported lies in [1, total_pages]. *)
Lemma get_page_clamps (self : t T F) (n : Z) :
  self_page_size self <> 0 ->
  exists self' r,
    get_page self (Some n) = Ok (self', r) /\
    total_items r =
      snd (data_source self (Z.max 1 n) (self_page_size self) (filters self)) /\
    total_pages r =
      Z.max 1 ((total_items r + self_page_size self - 1) / self_page_size self) /\
    1 <= page r <= total_pages r /\
    page r = Z.min (Z.max 1 n) (total_pages r) /\
    current_page self' = page r /\
    items r =
      fst (data_source self (Z.max 1 n) (self_page_size self) (filters self)).
Proof.
  intros Hps. unfold get_page. cbn [set_current_page current_page
    self_page_size data_source filters].
  destruct (data_source self (Z.max 1 n) (self_page_size self) (filters self))
    as [its total] eqn:Hds.
  rewrite floordiv_ok by assumption. cbn.
  set (tp := Z.max 1 ((total + self_page_size self - 1) / self_page_size self)).
  destruct (Z.gtb_spec (Z.max 1 n) tp) as [Hgt | Hle]; cbn;
    eexists _, _; (split; [reflexivity |]); cbn; repeat split; try lia.
Qed.
End PaginatorFacts.

Section PaginatorExamples.
Import Paginator.
Local Open Scope Z_scope.

Import Samples.

(** 45 items in pages of 20 make 3 pages, and page 0 is answered with
    page 1 and its window. *)
Example get_page_0_of_45 :
  exists self' r,
    get_page pager45 (Some 0) = Ok (self', r) /\
    total_pages r = 3 /\ page r = 1 /\ items r = seq 0 20.
Proof. eexists _, _. split; [reflexivity |]. repeat split. Qed.

(** [last_page] asks for the total first and then fetches the last page:
    its result holds the items of the page it names. *)
Example last_page_of_45 :
  exists self' r,
    last_page pager45 = Ok (self', r) /\
    page r = 3 /\ items r = [40; 41; 42; 43; 44]%nat.
Proof. eexists _, _. split; [reflexivity |]. repeat split. Qed.

(** C1: with 45 items in pages of 20 there are 3 pages and a request for
    page 5 is answered with page number 3; the items in that answer are
    the ones fetched for page 5 (none), not the window of page 3, because
    the fetch runs before the page number is clamped. *)
Theorem get_page_5_of_45_items_not_of_page_3 :
  exists self' r,
    get_page pager45 (Some 5) = Ok (self', r) /\
    total_pages r = 3 /\
    page r = 3 /\
    items r = [] /\
    fst (list_source items45 (page r) 20 tt) = [40; 41; 42; 43; 44]%nat /\
    items r <> fst (list_source items45 (page r) 20 tt).
Proof.
  eexists _, _. split; [reflexivity |]. cbn [total_pages page items].
  repeat split. discriminate.
Qed.
End PaginatorExamples.

(** ** Stable sorting by a key *)

Section SortedFacts.
Context {A : Type} (le : A -> A -> bool).

Hypothesis le_total : forall x y, le x y = false -> le y x = true.

Lemma length_sorted_insert x l : length (sorted_insert le x l) = S (length l).
Proof. induction l as [| y l IH]; cbn; [| destruct (le x y); cbn]; congruence. Qed.

Lemma length_py_sorted l : length (py_sorted le l) = length l.
Proof.
  induction l as [| x l IH]; cbn; [reflexivity |].
  fold (py_sorted le l). rewrite length_sorted_insert. congruence.
Qed.

Lemma sorted_insert_in_order x l :
  in_order le l = true -> in_order le (sorted_insert le x l) = true.
Proof.
  induction l as [| y l IH]; intros Hl; [reflexivity |].
  cbn [sorted_insert]. destruct (le x y) eqn:Hxy.
  - cbn [in_order]. rewrite Hxy. exact Hl.
  - assert (Hl' : in_order le l = true).
    { destruct l; [reflexivity |]. cbn [in_order] in Hl.
      apply andb_true_iff in Hl. tauto. }
    specialize (IH Hl'). destruct l as [| z l].
    + cbn. rewrite (le_total _ _ Hxy). reflexivity.
    + cbn [sorted_insert] in *. cbn [in_order] in Hl.
      apply andb_true_iff in Hl. destruct Hl as [Hyz _].
      destruct (le x z) eqn:Hxz.
      * change (le y x && in_order le (x :: z :: l) = true).
        rewrite (le_total _ _ Hxy). exact IH.
      * change (le y z && in_order le (z :: sorted_insert le x l) = true).
        rewrite Hyz. exact IH.
Qed.

Lemma py_sorted_in_order l : in_order le (py_sorted le l) = true.
Proof.
  induction l as [| x l IH]; [reflexivity |].
  cbn. fold (py_sorted le l). apply sorted_insert_in_order, IH.
Qed.

Lemma in_order_tail x l : in_order le (x :: l) = true -> in_order le l = true.
Proof.
  destruct l; [reflexivity |]. cbn [in_order]. intros H.
  apply andb_true_iff in H. tauto.
Qed.

(** Sorting a list that is in order changes nothing. *)
Lemma py_sorted_in_order_id l : in_order le l = true -> py_sorted le l = l.
Proof.
  induction l as [| x l IH]; intros Hl; [reflexivity |].
  cbn. fold (py_sorted le l). rewrite (IH (in_order_tail _ _ Hl)).
  destruct l as [| y l]; [reflexivity |].
  cbn [in_order] in Hl. apply andb_true_iff in Hl. destruct Hl as [Hxy _].
  cbn. rewrite Hxy. reflexivity.
Qed.

Lemma in_order_take k l : in_order le l = true -> in_order le (take k l) = true.
Proof.
  revert l. induction k as [| k IH]; intros l Hl; [reflexivity |].
  destruct l as [| x l]; [reflexivity |].
  specialize (IH l (in_order_tail _ _ Hl)).
  cbn [take]. destruct l as [| y l]; [destruct k; reflexivity |].
  destruct k; [reflexivity |].
  cbn [in_order] in Hl. apply andb_true_iff in Hl. destruct Hl as [Hxy _].
  cbn [take in_order] in *. rewrite Hxy. exact IH.
Qed.
End SortedFacts.

Section SortedPerm.
Context {A : Type} (le : A -> A -> bool).

Lemma sorted_insert_perm x l : sorted_insert le x l ≡ₚ x :: l.
Proof.
  induction l as [| y l IH]; cbn; [reflexivity |].
  destruct (le x y); [reflexivity |].
  rewrite IH. apply Permutation_swap.
Qed.

Lemma py_sorted_perm l : py_sorted le l ≡ₚ l.
Proof.
  induction l as [| x l IH]; cbn; [reflexivity |].
  fold (py_sorted le l). rewrite sorted_insert_perm, IH. reflexivity.
Qed.
End SortedPerm.

(** ** Column visibility *)

Section ResponsiveFacts.
Import Responsive.
Local Open Scope Z_scope.

Lemma priority_le_total c d : priority_le c d = false -> priority_le d c = true.
Proof. unfold priority_le. intros H. apply Z.leb_le. apply Z.leb_gt in H. lia. Qed.

Lemma sum_Z_perm l1 l2 : l1 ≡ₚ l2 -> sum_Z l1 = sum_Z l2.
Proof. unfold sum_Z. induction 1; cbn in *; lia. Qed.

Lemma total_width_perm l1 l2 : l1 ≡ₚ l2 -> total_width l1 = total_width l2.
Proof.
  intros H. unfold total_width.
  rewrite (sum_Z_perm _ _ (Permutation_map width_or_10 H)).
  rewrite (Permutation_length H). reflexivity.
Qed.

(** One turn of the loop on a list that is already ranked removes its
    last column. *)
Lemma drop_lowest_ranked ranked j :
  in_order priority_le ranked = true ->
  (j <= length ranked)%nat ->
  drop_lowest (take j ranked) = take (j - 1) ranked.
Proof.
  intros Hs Hj. unfold drop_lowest.
  rewrite (py_sorted_in_order_id _ _ (in_order_take _ j _ Hs)).
  rewrite removelast_firstn_len, length_take, take_take.
  f_equal. lia.
Qed.

Lemma drop_lowest_subset l c : c ∈ drop_lowest l -> c ∈ l.
Proof.
  unfold drop_lowest. rewrite removelast_firstn_len. intros H.
  apply (elem_of_take _ _ _) in H as (i & H & _).
  rewrite <- (py_sorted_perm priority_le l).
  eapply list_elem_of_lookup_2, H.
Qed.

Lemma shrink_subset fuel w l c : c ∈ shrink fuel w l -> c ∈ l.
Proof.
  revert l. induction fuel as [| fuel IH]; intros l; cbn; [tauto |].
  destruct (still_too_wide w l); [| tauto].
  intros H. apply drop_lowest_subset, IH, H.
Qed.

(** The loop on a ranked prefix: it stops at the longest shorter prefix
    for which the loop test fails. *)
Lemma shrink_ranked w ranked :
  in_order priority_le ranked = true ->
  forall fuel j,
    (j <= length ranked)%nat -> (j <= fuel)%nat ->
    exists k,
      (k <= j)%nat /\ (1 <= j -> 1 <= k)%nat /\
      shrink fuel w (take j ranked) = take k ranked /\
      still_too_wide w (take k ranked) = false /\
      forall i, (k < i <= j)%nat -> still_too_wide w (take i ranked) = true.
Proof.
  intros Hs. induction fuel as [| fuel IH]; intros j Hj Hf.
  - assert (j = 0%nat) by lia. subst j. exists 0%nat. cbn.
    repeat split; try lia. unfold still_too_wide. cbn. apply andb_false_r.
  - cbn [shrink]. destruct (still_too_wide w (take j ranked)) eqn:Hw.
    + assert (2 <= j)%nat as Hj2.
      { unfold still_too_wide in Hw. apply andb_true_iff in Hw as [_ Hw].
        rewrite length_take in Hw. apply Z.gtb_lt in Hw. lia. }
      rewrite drop_lowest_ranked by assumption.
      destruct (IH (j - 1)%nat ltac:(lia) ltac:(lia)) as (k & Hk & Hk1 & Heq & Hstop & Hall).
      exists k. repeat split; try lia; try assumption.
      intros i Hi. destruct (decide (i = j)) as [-> | Hne]; [assumption |].
      apply Hall. lia.
    + exists j. repeat split; first [lia | assumption | (intros; lia)].
Qed.

(** The test that ends the loop: the columns fit, or at most one is left. *)
Lemma still_too_wide_false w l :
  still_too_wide w l = false <-> total_width l <= w - 6 \/ (length l <= 1)%nat.
Proof.
  unfold still_too_wide. rewrite andb_false_iff.
  rewrite !Z.gtb_ltb, !Z.ltb_ge. lia.
Qed.

(** [get_visible_columns] leaves its loop because the test fails and not
    because the turns ran out. *)
Lemma shrink_exits w l :
  still_too_wide w (shrink (length l) w l) = false.
Proof.
  destruct l as [| c l'] eqn:El; [cbn; unfold still_too_wide; cbn; apply andb_false_r |].
  rewrite <- El. cbn [length shrink].
  assert (length l = S (length l')) as Hlen by (subst l; reflexivity).
  rewrite Hlen. cbn [shrink].
  destruct (still_too_wide w l) eqn:Hw; [| assumption].
  pose proof (py_sorted_in_order priority_le priority_le_total l) as Hs.
  unfold drop_lowest. rewrite removelast_firstn_len, length_py_sorted, Hlen.
  cbn [Nat.pred].
  destruct (shrink_ranked w _ Hs (length l') (length l'))
    as (k & _ & _ & Heq & Hstop & _);
    [rewrite length_py_sorted; lia | lia |].
  rewrite Heq. exact Hstop.
Qed.

Lemma shrink_fits w l : still_too_wide w l = false -> shrink (length l) w l = l.
Proof. intros H. destruct l; cbn [length shrink]; [reflexivity |]. rewrite H. reflexivity. Qed.

(** What the loop returns when the admitted columns are too wide. *)
Lemma shrink_too_wide w l :
  6 <= w ->
  w - 6 < total_width l ->
  exists k,
    (1 <= k <= length l)%nat /\
    shrink (length l) w l = take k (py_sorted priority_le l) /\
    (total_width (take k (py_sorted priority_le l)) <= w - 6 \/ k = 1%nat) /\
    forall i, (k < i <= length l)%nat ->
              w - 6 < total_width (take i (py_sorted priority_le l)).
Proof.
  intros Hw6 Hwide.
  pose proof (py_sorted_in_order priority_le priority_le_total l) as Hs.
  pose proof (length_py_sorted priority_le l) as Hlen.
  pose proof (total_width_perm _ _ (py_sorted_perm priority_le l)) as Htw.
  destruct (still_too_wide w l) eqn:Hw.
  - assert (2 <= length l)%nat as Hn.
    { unfold still_too_wide in Hw. apply andb_true_iff in Hw as [_ Hw].
      apply Z.gtb_lt in Hw. lia. }
    destruct (length l) as [| n] eqn:En; [lia |].
    cbn [shrink]. rewrite Hw. unfold drop_lowest.
    rewrite removelast_firstn_len, Hlen. cbn [Nat.pred].
    destruct (shrink_ranked w _ Hs n n ltac:(lia) ltac:(lia))
      as (k & Hk & Hk1 & Heq & Hstop & Hall).
    exists k. split; [lia |]. split; [exact Heq |]. split.
    + apply still_too_wide_false in Hstop. rewrite length_take in Hstop. lia.
    + intros i Hi. destruct (decide (i = S n)) as [-> | Hne].
      * rewrite firstn_all2 by lia. lia.
      * specialize (Hall i ltac:(lia)). unfold still_too_wide in Hall.
        apply andb_true_iff in Hall as [Hall _]. apply Z.gtb_lt in Hall. lia.
  - rewrite (shrink_fits _ _ Hw).
    apply still_too_wide_false in Hw.
    destruct Hw as [Hw | Hw]; [lia |].
    destruct l as [| c [| d l]]; cbn in Hw; try lia.
    + unfold total_width in Hwide. cbn in Hwide. lia.
    + exists 1%nat. cbn. repeat split; try lia; auto.
Qed.

(** C5 (amended): at width 70 only critical-tier columns are shown.  At
    width 150 the admitted tiers are critical, high and medium, never low;
    the admitted columns are all shown when their widths plus one per
    column are at most 150 - 6, and otherwise they are ranked by priority
    (stable) and the last is removed, one at a time, until the rest fits or
    one column is left. *)
Theorem get_visible_columns_70_and_150 (columns : list ResponsiveColumn) :
  let admitted := filter (fun c => priority c <= PRIORITY_MEDIUM) columns in
  let ranked := py_sorted priority_le admitted in
  (forall c, c ∈ get_visible_columns columns 70 ->
             c ∈ columns /\ priority c <= PRIORITY_CRITICAL) /\
  (forall c, c ∈ get_visible_columns columns 150 ->
             c ∈ columns /\ priority c <= PRIORITY_MEDIUM) /\
  (total_width admitted <= 150 - 6 ->
     get_visible_columns columns 150 = admitted) /\
  (150 - 6 < total_width admitted ->
     exists k,
       (1 <= k <= length admitted)%nat /\
       get_visible_columns columns 150 = take k ranked /\
       (total_width (take k ranked) <= 150 - 6 \/ k = 1%nat) /\
       forall i, (k < i <= length admitted)%nat ->
                 150 - 6 < total_width (take i ranked)).
Proof.
  intros admitted ranked. unfold get_visible_columns.
  change (max_priority_for 70) with PRIORITY_CRITICAL.
  change (max_priority_for 150) with PRIORITY_MEDIUM.
  fold admitted. repeat split.
  - apply shrink_subset in H. apply list_elem_of_filter in H. tauto.
  - apply shrink_subset in H. apply list_elem_of_filter in H. tauto.
  - apply shrink_subset in H. apply list_elem_of_filter in H. tauto.
  - apply shrink_subset in H. apply list_elem_of_filter in H. tauto.
  - intros Hfit. apply shrink_fits, still_too_wide_false. lia.
  - intros Hwide. apply shrink_too_wide; [lia | exact Hwide].
Qed.

(** Three medium columns of 60 characters and a critical one do not fit
    in width 150, so the ranked columns lose their last ones. *)
Lemma get_visible_columns_wide_sample :
  let admitted :=
    filter (fun c => priority c <= PRIORITY_MEDIUM) Samples.wide_columns in
  let ranked := py_sorted priority_le admitted in
  150 - 6 < total_width admitted /\
  exists k,
    (1 <= k <= length admitted)%nat /\
    get_visible_columns Samples.wide_columns 150 = take k ranked /\
    (total_width (take k ranked) <= 150 - 6 \/ k = 1%nat) /\
    forall i, (k < i <= length admitted)%nat ->
              150 - 6 < total_width (take i ranked).
Proof.
  intros admitted ranked. split; [reflexivity |].
  destruct (get_visible_columns_70_and_150 Samples.wide_columns)
    as (_ & _ & _ & Hwide).
  apply Hwide. reflexivity.
Defined.

(** The claim as worded fails for the hosts table: at width 150 all seven
    columns would fit in 150 - 6, yet the low-tier column is not shown. *)
Lemma width_150_hides_low_tier :
  total_width HOSTS_COLUMNS = 87 /\
  get_visible_columns HOSTS_COLUMNS 150 =
    [ Column "ID" "id" (Some 4) PRIORITY_HIGH;
      Column "IP" "ip" (Some 15) PRIORITY_CRITICAL;
      Column "Hostname" "hostname" (Some 15) PRIORITY_CRITICAL;
      Column "OS" "os" (Some 20) PRIORITY_MEDIUM;
      Column "DC" "dc" (Some 3) PRIORITY_HIGH;
      Column "Proto" "protocols" (Some 8) PRIORITY_HIGH ] /\
  get_visible_columns HOSTS_COLUMNS 150 <> HOSTS_COLUMNS.
Proof. repeat split. discriminate. Qed.
End ResponsiveFacts.

(** ** Command synthesis *)

Section CommandBuilderFacts.
Import CommandBuilder.
Local Open Scope string_scope.

Lemma string_app_empty_r (s : string) : (s ++ "")%string = s.
Proof.
  induction s as [| c s IH]; [reflexivity |].
  change (String c (s ++ "") = String c s)%string. rewrite IH. reflexivity.
Qed.

Lemma str_truthy_true (s : string) : s <> "" -> negb (String.eqb s "") = true.
Proof. intros H. apply negb_true_iff, String.eqb_neq, H. Qed.

Lemma dict_truthy_lookup (d : gmap string pyval) k v :
  d !! k = Some v -> dict_truthy (Some d) = true.
Proof.
  intros H. cbn. apply negb_true_iff, bool_decide_eq_false.
  intros ->. rewrite lookup_empty in H. discriminate.
Qed.

(** Without a host, or without a protocol, the command is empty. *)
Lemma build_command_empty (self : t) :
  dict_truthy (selected_host self) = false \/
  str_truthy (selected_protocol self) = false ->
  build_command self = Ok "".
Proof.
  unfold build_command.
  intros [H | H]; rewrite H; [reflexivity |].
  rewrite andb_false_r. reflexivity.
Qed.

(** With a host and a protocol the command starts with the tool name. *)
Lemma build_command_not_empty_without_user (self : t) :
  dict_truthy (selected_host self) = true ->
  str_truthy (selected_protocol self) = true ->
  selected_user self = None ->
  build_command self <> Ok "".
Proof.
  unfold build_command. intros Hh Hp Hu. rewrite Hh, Hp, Hu. cbn [andb negb].
  destruct (selected_host self) as [host |]; [| discriminate].
  destruct (selected_protocol self) as [p |]; [| discriminate].
  destruct (truthy (dict_get host "ip" (PStr ""))); cbn;
    [destruct (dict_get host "ip" (PStr "")); cbn |]; discriminate.
Qed.

(** With a host and a protocol and no credential (none chosen, or an
    empty one) the command is the tool name, the protocol and the address
    of the host, and the first two when the host has no address. *)
Lemma build_command_without_credential (self : t) (host : gmap string pyval)
    (protocol : string) :
  selected_host self = Some host ->
  dict_truthy (Some host) = true ->
  selected_protocol self = Some protocol ->
  protocol <> "" ->
  dict_truthy (selected_user self) = false ->
  (forall ip, dict_get host "ip" (PStr "") = PStr ip -> ip <> "" ->
     build_command self = Ok ("nxc " ++ protocol ++ " " ++ ip)) /\
  (truthy (dict_get host "ip" (PStr "")) = false ->
     build_command self = Ok ("nxc " ++ protocol)).
Proof.
  intros Hh Hht Hp Hpne Hu.
  unfold build_command. rewrite Hh, Hp, Hht. cbn [str_truthy].
  rewrite (str_truthy_true _ Hpne). cbn [andb negb].
  split.
  - intros ip Hip Hipne. rewrite Hip. cbn [truthy].
    rewrite (str_truthy_true _ Hipne).
    destruct (selected_user self) as [user |]; [rewrite Hu |]; reflexivity.
  - intros Hip. rewrite Hip.
    destruct (selected_user self) as [user |]; [rewrite Hu |]; reflexivity.
Qed.

(** C6 (amended): when no host has been chosen, or no protocol has been
    chosen, [build_command] returns the empty string.  A missing credential
    does not empty the command: the catalog's [needs_cred] is not read, and
    with a host and a protocol but no credential the command is the tool
    name, the protocol and the address of the host (the first two when the
    host has no address), with no credential flag. *)
Theorem build_command_incomplete_selection :
  (forall self,
      dict_truthy (selected_host self) = false \/
      str_truthy (selected_protocol self) = false ->
      build_command self = Ok "") /\
  (forall self,
      dict_truthy (selected_host self) = true ->
      str_truthy (selected_protocol self) = true ->
      selected_user self = None ->
      build_command self <> Ok "") /\
  (forall self host protocol,
      selected_host self = Some host ->
      dict_truthy (Some host) = true ->
      selected_protocol self = Some protocol ->
      protocol <> "" ->
      dict_truthy (selected_user self) = false ->
      (forall ip, dict_get host "ip" (PStr "") = PStr ip -> ip <> "" ->
         build_command self = Ok ("nxc " ++ protocol ++ " " ++ ip)) /\
      (truthy (dict_get host "ip" (PStr "")) = false ->
         build_command self = Ok ("nxc " ++ protocol))).
Proof.
  split; [| split].
  - apply build_command_empty.
  - apply build_command_not_empty_without_user.
  - apply build_command_without_credential.
Qed.

Lemma build_command_incomplete_selection_sample :
  build_command (Samples.builder_with None (Some Samples.credB) (Some "smb"))
    = Ok "" /\
  build_command (Samples.builder_with (Some Samples.hostA) None (Some "nfs"))
    <> Ok "" /\
  build_command (Samples.builder_with (Some Samples.hostA) None (Some "nfs"))
    = Ok ("nxc " ++ "nfs" ++ " " ++ "10.0.0.5").
Proof.
  split; [| split].
  - apply (proj1 build_command_incomplete_selection). left. reflexivity.
  - apply (proj1 (proj2 build_command_incomplete_selection)); reflexivity.
  - apply (proj1 (proj2 (proj2 build_command_incomplete_selection)
                    (Samples.builder_with (Some Samples.hostA) None (Some "nfs"))
                    Samples.hostA "nfs" eq_refl eq_refl eq_refl
                    ltac:(discriminate) eq_refl));
      [reflexivity | discriminate].
Defined.

(** The claim as worded fails: [smb] requires a credential in the
    catalog, none is chosen, and the command is not empty. *)
Lemma smb_without_credential_not_empty :
  let self := Samples.builder_with (Some Samples.hostA) None (Some "smb") in
  (needs_cred <$> catalog_entry "smb") = Some true /\
  selected_user self = None /\
  build_command self = Ok "nxc smb 10.0.0.5" /\
  build_command self <> Ok "".
Proof. repeat split. discriminate. Qed.

(** The command for a host with an address and a credential with a user
    name and a secret. *)
Lemma build_command_full (self : t) (host user : gmap string pyval)
    (protocol ip domain username secret credtype : string) :
  selected_host self = Some host ->
  selected_user self = Some user ->
  selected_protocol self = Some protocol ->
  protocol <> "" ->
  host !! "ip" = Some (PStr ip) -> ip <> "" ->
  dict_get user "domain" (PStr "") = PStr domain ->
  user !! "username" = Some (PStr username) -> username <> "" ->
  user !! "password" = Some (PStr secret) -> secret <> "" ->
  dict_get user "credtype" (PStr "plaintext") = PStr credtype ->
  build_command self = Ok (grammar_command protocol ip domain username secret credtype).
Proof.
  intros Hh Hu Hp Hpne Hip Hipne Hdom Hun Hunne Hpw Hpwne Hct.
  assert (dict_get host "ip" (PStr "") = PStr ip) as Gip
    by (unfold dict_get; rewrite Hip; reflexivity).
  assert (dict_get user "username" (PStr "") = PStr username) as Gun
    by (unfold dict_get; rewrite Hun; reflexivity).
  assert (dict_get user "password" (PStr "") = PStr secret) as Gpw
    by (unfold dict_get; rewrite Hpw; reflexivity).
  unfold build_command. rewrite Hh, Hu, Hp.
  rewrite (dict_truthy_lookup _ _ _ Hip), (dict_truthy_lookup _ _ _ Hun).
  rewrite Gip, Gun, Gpw, Hdom, Hct. cbn [truthy str_truthy py_str].
  rewrite (str_truthy_true _ Hpne), (str_truthy_true _ Hipne),
          (str_truthy_true _ Hunne), (str_truthy_true _ Hpwne).
  cbn [andb negb]. unfold grammar_command.
  destruct (String.eqb_spec domain "") as [-> | Hd];
    destruct (String.eqb_spec credtype "hash") as [-> | Hc];
    cbn [negb andb];
    rewrite ?bool_decide_eq_true_2 by reflexivity;
    rewrite ?bool_decide_eq_false_2 by congruence;
    reflexivity.
Qed.

(** The command when no credential was chosen. *)
Lemma build_command_no_credential (self : t) (host : gmap string pyval)
    (protocol ip : string) :
  selected_host self = Some host ->
  selected_user self = None ->
  selected_protocol self = Some protocol ->
  protocol <> "" ->
  host !! "ip" = Some (PStr ip) -> ip <> "" ->
  build_command self = Ok ("nxc " ++ protocol ++ " " ++ ip).
Proof.
  intros Hh Hu Hp Hpne Hip Hipne.
  unfold build_command. rewrite Hh, Hu, Hp.
  rewrite (dict_truthy_lookup _ _ _ Hip).
  unfold dict_get. rewrite Hip. cbn [truthy str_truthy].
  rewrite (str_truthy_true _ Hpne), (str_truthy_true _ Hipne).
  reflexivity.
Qed.

(** The command for a host with an address and any credential whose
    domain, user name and secret are text or [None]: each flag is there
    when its field is not empty. *)
Lemma build_command_optional_fields (self : t) (host user : gmap string pyval)
    (protocol ip : string) :
  selected_host self = Some host ->
  selected_user self = Some user ->
  selected_protocol self = Some protocol ->
  protocol <> "" ->
  dict_get host "ip" (PStr "") = PStr ip -> ip <> "" ->
  DashboardDB.str_or_none (dict_get user "domain" (PStr "")) = true ->
  DashboardDB.str_or_none (dict_get user "username" (PStr "")) = true ->
  DashboardDB.str_or_none (dict_get user "password" (PStr "")) = true ->
  build_command self =
    Ok ("nxc " ++ protocol ++ " " ++ ip
        ++ user_flag (text_or_empty (dict_get user "domain" (PStr "")))
                     (text_or_empty (dict_get user "username" (PStr "")))
        ++ secret_flag (text_or_empty (dict_get user "password" (PStr "")))
                       (dict_get user "credtype" (PStr "plaintext"))).
Proof.
  intros Hh Hu Hp Hpne Hip Hipne Hd Hn Hs.
  assert (dict_truthy (Some host) = true) as Hht.
  { cbn. apply negb_true_iff, bool_decide_eq_false. intros ->.
    unfold dict_get in Hip. rewrite lookup_empty in Hip. congruence. }
  unfold build_command. rewrite Hh, Hu, Hp, Hht. cbn [str_truthy].
  rewrite (str_truthy_true _ Hpne). cbn [andb negb]. rewrite Hip.
  cbn [truthy]. rewrite (str_truthy_true _ Hipne).
  destruct (dict_truthy (Some user)) eqn:Hut.
  - destruct (dict_get user "domain" (PStr "")) as [| d | |]; try discriminate Hd;
      destruct (dict_get user "username" (PStr "")) as [| n | |];
      try discriminate Hn;
      destruct (dict_get user "password" (PStr "")) as [| w | |];
      try discriminate Hs;
      cbn [truthy text_or_empty py_str]; unfold user_flag, secret_flag;
      try destruct (String.eqb_spec d "") as [-> | Hdne];
      try destruct (String.eqb_spec n "") as [-> | Hnne];
      try destruct (String.eqb_spec w "") as [-> | Hwne];
      cbn [negb andb String.eqb];
      destruct (bool_decide (dict_get user "credtype" (PStr "plaintext")
                             = PStr "hash"));
      cbn; rewrite ?string_app_empty_r; reflexivity.
  - assert (user = ∅) as ->.
    { cbn in Hut. apply negb_false_iff, bool_decide_eq_true in Hut. exact Hut. }
    unfold dict_get. rewrite !lookup_empty. cbn.
    rewrite !string_app_empty_r. reflexivity.
Qed.

(** C7 (amended): for a host with a non-empty address, a protocol and a
    credential with a non-empty user name and a non-empty secret, the
    command is [nxc <protocol> <ip> -u <domain>\<user>] (the bare user
    name when the domain is empty) followed by [-H <secret>] for the type
    [hash] and by the quoted [-p] form otherwise; without a credential the
    command ends after the address; for any credential whose fields are
    text or [None], the flag of the user name and the flag of the secret
    are each left out when the field is empty; and the selection started
    from the host list with host 10.0.0.5, credential CORP\alice with
    secret hunter2 and protocol smb gives the command of the example. *)
Theorem build_command_grammar :
  (forall self host user protocol ip domain username secret credtype,
      selected_host self = Some host ->
      selected_user self = Some user ->
      selected_protocol self = Some protocol ->
      protocol <> "" ->
      host !! "ip" = Some (PStr ip) -> ip <> "" ->
      dict_get user "domain" (PStr "") = PStr domain ->
      user !! "username" = Some (PStr username) -> username <> "" ->
      user !! "password" = Some (PStr secret) -> secret <> "" ->
      dict_get user "credtype" (PStr "plaintext") = PStr credtype ->
      build_command self =
        Ok (grammar_command protocol ip domain username secret credtype)) /\
  (forall self host protocol ip,
      selected_host self = Some host ->
      selected_user self = None ->
      selected_protocol self = Some protocol ->
      protocol <> "" ->
      host !! "ip" = Some (PStr ip) -> ip <> "" ->
      build_command self = Ok ("nxc " ++ protocol ++ " " ++ ip)) /\
  (forall self host user protocol ip,
      selected_host self = Some host ->
      selected_user self = Some user ->
      selected_protocol self = Some protocol ->
      protocol <> "" ->
      dict_get host "ip" (PStr "") = PStr ip -> ip <> "" ->
      DashboardDB.str_or_none (dict_get user "domain" (PStr "")) = true ->
      DashboardDB.str_or_none (dict_get user "username" (PStr "")) = true ->
      DashboardDB.str_or_none (dict_get user "password" (PStr "")) = true ->
      build_command self =
        Ok ("nxc " ++ protocol ++ " " ++ ip
            ++ user_flag (text_or_empty (dict_get user "domain" (PStr "")))
                         (text_or_empty (dict_get user "username" (PStr "")))
            ++ secret_flag (text_or_empty (dict_get user "password" (PStr "")))
                           (dict_get user "credtype" (PStr "plaintext")))) /\
  (forall domain username secret credtype,
      user_flag domain "" = "" /\ secret_flag "" credtype = "" /\
      (username <> "" ->
       user_flag "" username = " -u " ++ username /\
       (domain <> "" ->
        user_flag domain username = " -u " ++ domain ++ "\" ++ username)) /\
      (secret <> "" ->
       secret_flag secret (PStr "hash") = " -H " ++ secret /\
       (credtype <> PStr "hash" ->
        secret_flag secret credtype = " -p " ++ dquote ++ secret ++ dquote))) /\
  (let s1 := set_host (start_selection init "hosts") Samples.hostA in
   let s2 := set_user s1 Samples.credB in
   state s1 = st_select_user /\ state s2 = st_select_protocol /\
   exists s3,
     handle_protocol_key s2 CR = Ok (s3, true) /\
     state s3 = st_done /\
     selected_protocol s3 = Some "smb" /\
     build_command s3 =
       Ok ("nxc smb 10.0.0.5 -u CORP\alice -p " ++ dquote ++ "hunter2" ++ dquote)).
Proof.
  split; [| split; [| split; [| split]]].
  - intros. eapply build_command_full; eassumption.
  - intros. eapply build_command_no_credential; eassumption.
  - intros. eapply build_command_optional_fields; eassumption.
  - intros domain username secret credtype. unfold user_flag, secret_flag.
    split; [reflexivity |]. split; [reflexivity |]. split.
    + intros Hn.
      destruct (String.eqb_spec username "") as [? | _]; [contradiction |].
      split; [reflexivity |]. intros Hd.
      destruct (String.eqb_spec domain "") as [? | _]; [contradiction |].
      reflexivity.
    + intros Hs.
      destruct (String.eqb_spec secret "") as [? | _]; [contradiction |].
      split; [reflexivity |]. intros Hc.
      rewrite bool_decide_eq_false_2 by exact Hc. reflexivity.
  - cbn zeta. split; [reflexivity |]. split; [reflexivity |].
    eexists. split; [vm_compute; reflexivity |]. repeat split.
Qed.

Lemma build_command_grammar_sample :
  build_command
    (Samples.builder_with (Some Samples.hostA) (Some Samples.credB) (Some "smb"))
    = Ok (grammar_command "smb" "10.0.0.5" "CORP" "alice" "hunter2" "plaintext") /\
  build_command (Samples.builder_with (Some Samples.hostA) None (Some "smb"))
    = Ok ("nxc " ++ "smb" ++ " " ++ "10.0.0.5") /\
  build_command
    (Samples.builder_with (Some Samples.hostA) (Some Samples.credB_no_secret)
       (Some "smb"))
    = Ok ("nxc " ++ "smb" ++ " " ++ "10.0.0.5"
          ++ user_flag "CORP" "alice" ++ secret_flag "" (PStr "plaintext")).
Proof.
  split; [| split].
  - apply (proj1 build_command_grammar _ Samples.hostA Samples.credB);
      first [reflexivity | discriminate].
  - apply (proj1 (proj2 build_command_grammar) _ Samples.hostA);
      first [reflexivity | discriminate].
  - apply (proj1 (proj2 (proj2 build_command_grammar))
             (Samples.builder_with (Some Samples.hostA)
                (Some Samples.credB_no_secret) (Some "smb"))
             Samples.hostA Samples.credB_no_secret "smb" "10.0.0.5");
      first [reflexivity | discriminate].
Defined.

(** The claim as worded fails for a credential whose secret is empty: the
    secret flag is left out, where the wording gives [-p] with an empty
    quoted value. *)
Lemma empty_secret_has_no_flag :
  let self :=
    Samples.builder_with (Some Samples.hostA) (Some Samples.credB_no_secret)
      (Some "smb") in
  build_command self = Ok "nxc smb 10.0.0.5 -u CORP\alice" /\
  grammar_command "smb" "10.0.0.5" "CORP" "alice" "" "plaintext" =
    "nxc smb 10.0.0.5 -u CORP\alice -p " ++ dquote ++ dquote /\
  build_command self <>
    Ok (grammar_command "smb" "10.0.0.5" "CORP" "alice" "" "plaintext").
Proof. repeat split. discriminate. Qed.
End CommandBuilderFacts.

(** ** The query primitive, shutdown and deltas *)

Section RegistryFacts.
Import DashboardDB.
Local Open Scope Z_scope.

(** When no close fails, every session and every engine is closed, on
    every way out of the main loop. *)
Lemma call_each_all_ok (calls : list (handle * result unit)) :
  Forall (fun c => snd c = Ok tt) calls ->
  call_each calls = (map fst calls, Ok tt).
Proof.
  induction 1 as [| [h r] calls Hr _ IH]; [reflexivity |].
  cbn in *. subst r. rewrite IH. reflexivity.
Qed.

Lemma run_finally_closes_all (self : t) (exit : loop_exit) :
  Forall (fun c => snd c = Ok tt) (close_calls self) ->
  fst (run_finally self exit) = map fst (close_calls self).
Proof.
  intros H. unfold run_finally, close. rewrite (call_each_all_ok _ H).
  destruct exit; reflexivity.
Qed.

(** C8: for every protocol, statement and parameters [_execute_query]
    returns a list of rows and never an exception; the list is empty when
    the protocol has no engine, when connecting fails and when the
    execution fails, and it is the rows of the execution otherwise. *)
Theorem execute_query_never_raises (self : t) (protocol query : string)
    (params : option (gmap string pyval)) :
  exists rows,
    fst (_execute_query self protocol query params) = Ok rows /\
    (od_lookup protocol (engines self) = None -> rows = []) /\
    (forall engine e,
        od_lookup protocol (engines self) = Some engine ->
        connect engine = Raise e -> rows = []) /\
    (forall engine conn e,
        od_lookup protocol (engines self) = Some engine ->
        connect engine = Ok conn ->
        execute conn query (if params_truthy params then params else None) = Raise e ->
        rows = []) /\
    (forall engine conn answer,
        od_lookup protocol (engines self) = Some engine ->
        connect engine = Ok conn ->
        execute conn query (if params_truthy params then params else None) = Ok answer ->
        rows = answer).
Proof.
  unfold _execute_query.
  destruct (od_lookup protocol (engines self)) as [engine |] eqn:He.
  - destruct (connect engine) as [conn | e] eqn:Hc.
    + cbn. destruct (params_truthy params);
        (destruct (execute conn query _) as [answer | e] eqn:Hx; cbn;
         eexists; (split; [reflexivity |]); repeat split; intros; congruence).
    + cbn. eexists. split; [reflexivity |]. repeat split; intros; congruence.
  - cbn. eexists. split; [reflexivity |]. repeat split; intros; congruence.
Qed.

Lemma execute_query_samples :
  fst (_execute_query Samples.query_db "winrm" "SELECT COUNT(*) as cnt FROM hosts" None)
    = Ok [] /\
  fst (_execute_query Samples.query_db "smb" "SELECT COUNT(*) as cnt FROM hosts" None)
    = Ok [] /\
  fst (_execute_query Samples.query_db "ldap" "SELECT cnt FROM hosts" None)
    = Ok [] /\
  fst (_execute_query Samples.query_db "ssh" "SELECT COUNT(*) as cnt FROM hosts" None)
    = Ok [Samples.one_row].
Proof.
  split; [| split; [| split]].
  - destruct (execute_query_never_raises Samples.query_db "winrm"
                "SELECT COUNT(*) as cnt FROM hosts" None)
      as (rows & Hok & Hnone & _).
    rewrite Hok. f_equal. apply Hnone. reflexivity.
  - destruct (execute_query_never_raises Samples.query_db "smb"
                "SELECT COUNT(*) as cnt FROM hosts" None)
      as (rows & Hok & _ & Hconn & _).
    rewrite Hok. f_equal. eapply Hconn; reflexivity.
  - destruct (execute_query_never_raises Samples.query_db "ldap"
                "SELECT cnt FROM hosts" None)
      as (rows & Hok & _ & _ & Hexec & _).
    rewrite Hok. f_equal. eapply Hexec; reflexivity.
  - destruct (execute_query_never_raises Samples.query_db "ssh"
                "SELECT COUNT(*) as cnt FROM hosts" None)
      as (rows & Hok & _ & _ & _ & Hrows).
    rewrite Hok. f_equal. eapply Hrows; reflexivity.
Defined.

(** A failed query leaves one debug line. *)
Lemma execute_query_logs_failure (self : t) protocol query params engine e :
  od_lookup protocol (engines self) = Some engine ->
  connect engine = Raise e ->
  snd (_execute_query self protocol query params)
    = [("Query failed on " +:+ protocol)%string].
Proof. intros He Hc. unfold _execute_query. rewrite He, Hc. reflexivity. Qed.


(** C9: two stores are open and closing the first session fails.  [close]
    is called on every way out of the main loop, but it calls the close of
    the first session only: the second session is not closed, no engine is
    disposed of, and the exception leaves [close]. *)
Theorem close_stops_at_first_failure :
  map fst (close_calls Samples.closing_db)
    = [SessionOf "smb"; SessionOf "ldap"; EngineOf "smb"; EngineOf "ldap"] /\
  close Samples.closing_db
    = ([SessionOf "smb"], Raise (OperationalError "database is locked")) /\
  forall exit,
    run_finally Samples.closing_db exit
      = ([SessionOf "smb"], Raise (OperationalError "database is locked")).
Proof.
  split; [reflexivity |]. split; [reflexivity |].
  intros exit. reflexivity.
Qed.

(** C10: on the first request, with an empty baseline, the delta of every
    category of the current counts is 0 and the delta has no other key;
    after any request the baseline is the counts just computed. *)
Theorem get_diff_counts_first_and_baseline :
  (forall (self : t) (current : gmap string Z) (key : string),
      _last_counts self = ∅ ->
      snd (get_diff_counts self current) !! key
        = (fun _ => 0) <$> current !! key) /\
  (forall (self : t) (current : gmap string Z),
      _last_counts (fst (get_diff_counts self current)) = current) /\
  (forall engines sessions (current : gmap string Z) (key : string) (n : Z),
      current !! key = Some n ->
      snd (get_diff_counts (init engines sessions) current) !! key = Some 0).
Proof.
  assert (forall (self : t) (current : gmap string Z) (key : string),
      _last_counts self = ∅ ->
      snd (get_diff_counts self current) !! key
        = (fun _ => 0) <$> current !! key) as Hfirst.
  { intros self current key Hempty. unfold get_diff_counts. cbn [snd].
    rewrite map_lookup_imap, Hempty.
    destruct (current !! key) as [n |]; cbn; [| reflexivity].
    rewrite lookup_empty. f_equal. lia. }
  split; [exact Hfirst |]. split; [reflexivity |].
  intros engines sessions current key n Hn.
  rewrite Hfirst by reflexivity. rewrite Hn. reflexivity.
Qed.

Lemma get_diff_counts_sample :
  snd (get_diff_counts (init [] []) Samples.counts1) !! "hosts"%string = Some 0 /\
  snd (get_diff_counts (init [] []) Samples.counts1) !! "tickets"%string = None.
Proof.
  split.
  - apply (proj2 (proj2 get_diff_counts_first_and_baseline) [] [] _ _ 10).
    reflexivity.
  - rewrite (proj1 get_diff_counts_first_and_baseline) by reflexivity.
    reflexivity.
Defined.

(** On a later request the delta is the difference to the stored count. *)
Lemma get_diff_counts_later (self : t) (current : gmap string Z) key n m :
  current !! key = Some n ->
  _last_counts self !! key = Some m ->
  snd (get_diff_counts self current) !! key = Some (n - m).
Proof.
  intros Hn Hm. unfold get_diff_counts. cbn [snd].
  rewrite map_lookup_imap, Hn. cbn. rewrite Hm. reflexivity.
Qed.
End RegistryFacts.

(** ** Ordered dicts and grouping loops *)

Section ODictFacts.
Context {K V : Type} `{EqDecision K}.
Implicit Types (d : list (K * V)) (k : K) (v : V).

Lemma od_lookup_set_eq k v d : od_lookup k (od_set k v d) = Some v.
Proof.
  induction d as [| [k' v'] d IH]; cbn.
  - rewrite decide_True by reflexivity. reflexivity.
  - destruct (decide (k = k')) as [-> | Hne]; cbn.
    + rewrite decide_True by reflexivity. reflexivity.
    + rewrite decide_False by assumption. exact IH.
Qed.

Lemma od_lookup_set_ne k k' v d :
  k <> k' -> od_lookup k' (od_set k v d) = od_lookup k' d.
Proof.
  intros Hne. induction d as [| [k0 v0] d IH]; cbn.
  - rewrite decide_False by congruence. reflexivity.
  - destruct (decide (k = k0)) as [-> | Hk]; cbn.
    + rewrite !decide_False by congruence. reflexivity.
    + rewrite IH. reflexivity.
Qed.

Lemma od_lookup_None k d : od_lookup k d = None <-> k ∉ map fst d.
Proof.
  induction d as [| [k' v'] d IH]; cbn.
  - split; [intros _; apply not_elem_of_nil | reflexivity].
  - rewrite not_elem_of_cons. destruct (decide (k = k')) as [-> | Hne].
    + split; [discriminate | intros [? _]; congruence].
    + rewrite IH. tauto.
Qed.

Lemma od_lookup_Some_elem k v d : od_lookup k d = Some v -> (k, v) ∈ d.
Proof.
  induction d as [| [k' v'] d IH]; cbn; [discriminate |].
  destruct (decide (k = k')) as [-> | Hne].
  - intros [= ->]. apply list_elem_of_here.
  - intros H. apply list_elem_of_further, IH, H.
Qed.

Lemma od_elem_lookup k v d :
  NoDup (map fst d) -> (k, v) ∈ d -> od_lookup k d = Some v.
Proof.
  induction d as [| [k' v'] d IH]; cbn; intros Hnd Hin.
  - apply elem_of_nil in Hin. contradiction.
  - apply NoDup_cons in Hnd as [Hk' Hnd].
    apply elem_of_cons in Hin as [[= -> ->] | Hin].
    + rewrite decide_True by reflexivity. reflexivity.
    + destruct (decide (k = k')) as [-> | Hne]; [| apply IH; assumption].
      exfalso. apply Hk'. apply (list_elem_of_fmap_2 fst _ _ Hin).
Qed.

Lemma od_set_keys k v d :
  map fst (od_set k v d) =
    match od_lookup k d with
    | Some _ => map fst d
    | None => map fst d ++ [k]
    end.
Proof.
  induction d as [| [k' v'] d IH]; cbn; [reflexivity |].
  destruct (decide (k = k')) as [-> | Hne]; cbn; [reflexivity |].
  rewrite IH. destruct (od_lookup k d); reflexivity.
Qed.

Lemma od_set_keys_NoDup k v d :
  NoDup (map fst d) -> NoDup (map fst (od_set k v d)).
Proof.
  intros Hnd. rewrite od_set_keys.
  destruct (od_lookup k d) eqn:Hl; [assumption |].
  apply NoDup_app. split; [assumption |]. split; [| apply NoDup_singleton].
  intros x Hx Hx'. apply list_elem_of_singleton in Hx'. subst x.
  apply od_lookup_None in Hl. contradiction.
Qed.

Lemma od_set_keys_elem k k' v d :
  k' ∈ map fst (od_set k v d) <-> k' ∈ map fst d \/ k' = k.
Proof.
  rewrite od_set_keys. destruct (od_lookup k d) eqn:Hl.
  - split; [tauto |]. intros [? | ->]; [assumption |].
    apply od_lookup_Some_elem in Hl.
    apply (list_elem_of_fmap_2 fst _ _ Hl).
  - rewrite elem_of_app, list_elem_of_singleton. tauto.
Qed.
End ODictFacts.

Section GroupOfFacts.
Context {K A : Type} `{EqDecision K}.
Variable key : A -> option K.

Lemma group_of_cons k x xs :
  group_of key k (x :: xs) =
    if decide (key x = Some k) then x :: group_of key k xs else group_of key k xs.
Proof. unfold group_of. rewrite filter_cons. reflexivity. Qed.

Lemma group_of_elem k x xs : x ∈ group_of key k xs <-> x ∈ xs /\ key x = Some k.
Proof. unfold group_of. rewrite list_elem_of_filter. tauto. Qed.
End GroupOfFacts.

Section GroupByFacts.
Context {K V A : Type} `{EqDecision K}.
Variable key : A -> option K.
Variable upd : K -> option V -> A -> V.

Lemma lookup_group_step k d x :
  od_lookup k (group_step key upd d x) =
    if decide (key x = Some k) then Some (upd k (od_lookup k d) x)
    else od_lookup k d.
Proof.
  unfold group_step. destruct (key x) as [k' |] eqn:Hk.
  - destruct (decide (k' = k)) as [-> | Hne].
    + rewrite decide_True by reflexivity. apply od_lookup_set_eq.
    + rewrite decide_False by congruence. apply od_lookup_set_ne, Hne.
  - rewrite decide_False by discriminate. reflexivity.
Qed.

(** The entry of a key after the loop is built from the items of its group
    alone. *)
Lemma lookup_group_by k xs d :
  od_lookup k (group_by key upd xs d) =
    group_value upd k (group_of key k xs) (od_lookup k d).
Proof.
  revert d. induction xs as [| x xs IH]; intros d; [reflexivity |].
  unfold group_by in *. cbn [foldl]. rewrite IH, lookup_group_step, group_of_cons.
  destruct (decide (key x = Some k)); reflexivity.
Qed.

Lemma group_by_keys_NoDup xs d :
  NoDup (map fst d) -> NoDup (map fst (group_by key upd xs d)).
Proof.
  revert d. induction xs as [| x xs IH]; intros d Hnd; [assumption |].
  unfold group_by in *. cbn [foldl]. apply IH. unfold group_step.
  destruct (key x); [apply od_set_keys_NoDup |]; assumption.
Qed.

Lemma group_by_keys_elem k xs d :
  k ∈ map fst (group_by key upd xs d) <->
  k ∈ map fst d \/ exists x, x ∈ xs /\ key x = Some k.
Proof.
  revert d. induction xs as [| x xs IH]; intros d.
  - cbn. split; [tauto |]. intros [? | (x & Hx & _)]; [assumption |].
    apply elem_of_nil in Hx. contradiction.
  - unfold group_by in *. cbn [foldl]. rewrite IH. unfold group_step.
    split.
    + intros [Hk | (y & Hy & Hky)].
      * destruct (key x) as [k' |] eqn:Hkx; [| tauto].
        apply od_set_keys_elem in Hk as [Hk | ->]; [tauto |].
        right. exists x. split; [apply list_elem_of_here | assumption].
      * right. exists y. split; [apply list_elem_of_further |]; assumption.
    + intros [Hk | (y & Hy & Hky)].
      * left. destruct (key x); [apply od_set_keys_elem |]; tauto.
      * apply elem_of_cons in Hy as [-> | Hy].
        -- left. rewrite Hky. apply od_set_keys_elem. tauto.
        -- right. exists y. tauto.
Qed.

Lemma group_value_Some k g v :
  group_value upd k g (Some v) =
    Some (foldl (fun v x => upd k (Some v) x) v g).
Proof.
  revert v. induction g as [| x g IH]; intros v; [reflexivity |].
  unfold group_value in *. cbn [foldl]. apply IH.
Qed.

Lemma group_value_cons k x g :
  group_value upd k (x :: g) None =
    Some (foldl (fun v x => upd k (Some v) x) (upd k None x) g).
Proof. unfold group_value. cbn [foldl]. apply group_value_Some. Qed.
End GroupByFacts.

(** ** Host merge *)

Section SetAddFacts.
Context {A : Type} `{EqDecision A}.

Lemma elem_of_set_add (x y : A) (s : list A) : y ∈ set_add x s <-> y ∈ s \/ y = x.
Proof.
  unfold set_add. case_bool_decide as Hx.
  - split; [tauto |]. intros [? | ->]; assumption.
  - rewrite elem_of_app, list_elem_of_singleton. reflexivity.
Qed.

Lemma NoDup_set_add (x : A) (s : list A) : NoDup s -> NoDup (set_add x s).
Proof.
  intros Hnd. unfold set_add. case_bool_decide as Hx; [assumption |].
  apply NoDup_app. split; [assumption |]. split; [| apply NoDup_singleton].
  intros y Hy Hy'. apply list_elem_of_singleton in Hy'. subst y. contradiction.
Qed.
End SetAddFacts.

Lemma Forall_forallb {A : Type} (f : A -> bool) (l : list A) :
  forallb f l = true -> Forall (fun x => f x = true) l.
Proof.
  induction l as [| x l IH]; cbn; intros Hl; constructor;
    apply andb_true_iff in Hl; [apply Hl | apply IH, Hl].
Qed.

Section HostMergeFacts.
Import DashboardDB.
Context {text : PyStr}.

Lemma host_key_Some (row : gmap string pyval) (ip : string) :
  host_key row = Some ip <->
  dict_get row "ip" (PStr "") = PStr ip /\ ip <> ""%string /\
  strip_is_empty ip = false.
Proof.
  unfold host_key. destruct (dict_get row "ip" (PStr "")) as [| s | z | b];
    try (split; [discriminate | intros [[=] _]]).
  destruct (String.eqb_spec s "") as [-> | Hne]; cbn [orb].
  - split; [discriminate |]. intros [[= <-] [? _]]. congruence.
  - destruct (strip_is_empty s) eqn:Hs.
    + split; [discriminate |]. intros [[= ->] [_ ?]]. congruence.
    + split; [intros [= ->]; tauto | intros [[= ->] _]; reflexivity].
Qed.

Lemma group_of_rows_with_ip (ip : string) (rows : list (gmap string pyval)) :
  ip <> ""%string ->
  strip_is_empty ip = false ->
  group_of host_key ip rows = rows_with_ip ip rows.
Proof.
  intros Hne Hip. unfold group_of, rows_with_ip.
  apply list_filter_iff. intros row. rewrite host_key_Some. tauto.
Qed.

(** On a well-formed row the loop body does not raise and is the grouping
    step. *)
Lemma merge_step_pure (d : list (string * Host (list ascii)))
    (host : gmap string pyval) :
  host_row_wf host = true ->
  merge_step d host = Ok (group_step host_key host_upd d host).
Proof.
  unfold host_row_wf, merge_step, group_step, host_key, host_upd, letter_of.
  intros Hwf. apply andb_true_iff in Hwf as [Hip Htag].
  destruct (dict_get host "ip" (PStr "")) as [| ip | z | b]; try discriminate.
  - reflexivity.
  - cbn [truthy]. destruct (String.eqb_spec ip "") as [-> | Hne]; [reflexivity |].
    cbn [negb orb]. destruct (strip_is_empty ip); [reflexivity |].
    destruct (tag_letter host) as [c | e]; [reflexivity | discriminate].
Qed.

Lemma foldM_merge_pure (all_hosts : list (gmap string pyval))
    (d : list (string * Host (list ascii))) :
  Forall (fun row => host_row_wf row = true) all_hosts ->
  foldM merge_step all_hosts d = Ok (group_by host_key host_upd all_hosts d).
Proof.
  intros Hwf. revert d. induction Hwf as [| row rows Hrow _ IH]; intros d.
  - reflexivity.
  - cbn [foldM]. rewrite (merge_step_pure _ _ Hrow). cbn. apply IH.
Qed.

Lemma absorb_all_fixed ip h g :
  h_id (absorb_all ip h g) = h_id h /\
  h_ip (absorb_all ip h g) = h_ip h /\
  h_domain (absorb_all ip h g) = h_domain h /\
  h_dc (absorb_all ip h g) = h_dc h /\
  h_signing (absorb_all ip h g) = h_signing h.
Proof.
  revert h. induction g as [| row g IH]; intros h; [repeat split |].
  unfold absorb_all in *. cbn [foldl]. exact (IH _).
Qed.

Lemma absorb_all_protocols ip h g c :
  c ∈ h_protocols (absorb_all ip h g) <->
  c ∈ h_protocols h \/ exists row, row ∈ g /\ letter_of row = c.
Proof.
  revert h. induction g as [| row g IH]; intros h.
  - cbn. split; [tauto |]. intros [? | (r & Hr & _)]; [assumption |].
    apply elem_of_nil in Hr. contradiction.
  - unfold absorb_all in *. cbn [foldl]. rewrite IH.
    cbn [host_upd absorb h_protocols]. rewrite elem_of_set_add. split.
    + intros [[? | ->] | (r & Hr & Hc)]; [tauto | |].
      * right. exists row. split; [apply list_elem_of_here | reflexivity].
      * right. exists r. split; [apply list_elem_of_further |]; assumption.
    + intros [? | (r & Hr & Hc)]; [tauto |].
      apply elem_of_cons in Hr as [-> | Hr];
        [left; right; symmetry; exact Hc |].
      right. exists r. tauto.
Qed.

Lemma absorb_all_protocols_NoDup ip h g :
  NoDup (h_protocols h) -> NoDup (h_protocols (absorb_all ip h g)).
Proof.
  revert h. induction g as [| row g IH]; intros h Hnd; [assumption |].
  unfold absorb_all in *. cbn [foldl]. apply IH.
  cbn [host_upd absorb h_protocols]. apply NoDup_set_add, Hnd.
Qed.

(** A value that counts as true is kept; an empty one is replaced by the
    first later value that counts as true. *)
Lemma absorb_all_hostname ip h g :
  h_hostname (absorb_all ip h g) =
    if truthy (h_hostname h) then h_hostname h
    else match List.find (fun row => truthy (dict_get row "hostname" PNone)) g with
         | Some row => dict_get row "hostname" PNone
         | None => h_hostname h
         end.
Proof.
  revert h. induction g as [| row g IH]; intros h.
  - cbn. destruct (truthy (h_hostname h)); reflexivity.
  - unfold absorb_all in *. cbn [foldl List.find]. rewrite IH.
    cbn [host_upd absorb h_hostname].
    destruct (truthy (dict_get row "hostname" PNone)) eqn:Hrow;
      destruct (truthy (h_hostname h)) eqn:Hh; cbn [andb negb];
      rewrite ?Hrow, ?Hh; reflexivity.
Qed.

Lemma absorb_all_os ip h g :
  h_os (absorb_all ip h g) =
    if truthy (h_os h) then h_os h
    else match List.find (fun row => truthy (dict_get row "os" PNone)) g with
         | Some row => dict_get row "os" PNone
         | None => h_os h
         end.
Proof.
  revert h. induction g as [| row g IH]; intros h.
  - cbn. destruct (truthy (h_os h)); reflexivity.
  - unfold absorb_all in *. cbn [foldl List.find]. rewrite IH.
    cbn [host_upd absorb h_os].
    destruct (truthy (dict_get row "os" PNone)) eqn:Hrow;
      destruct (truthy (h_os h)) eqn:Hh; cbn [andb negb];
      rewrite ?Hrow, ?Hh; reflexivity.
Qed.

(** [d.get(k)] and [d.get(k, default)] agree on a value that counts as
    true. *)
Lemma dict_get_truthy (row : gmap string pyval) k default :
  truthy (dict_get row k PNone) = true ->
  dict_get row k default = dict_get row k PNone.
Proof. unfold dict_get. destruct (row !! k); [reflexivity | discriminate]. Qed.

Lemma dict_get_falsy (row : gmap string pyval) k :
  truthy (dict_get row k PNone) = false ->
  truthy (dict_get row k (PStr "")) = false.
Proof. unfold dict_get. destruct (row !! k); [tauto | reflexivity]. Qed.

(** The entry built by [first] and the rows after it takes the first value
    that counts as true among all of them. *)
Lemma first_non_empty_cons field first rest (cur : pyval) :
  cur = dict_get first field (PStr "") ->
  (if truthy cur then cur
   else match List.find (fun row => truthy (dict_get row field PNone)) rest with
        | Some row => dict_get row field PNone
        | None => cur
        end)
  = first_non_empty field (PStr "") (first :: rest).
Proof.
  intros ->. unfold first_non_empty. cbn [List.find].
  destruct (truthy (dict_get first field PNone)) eqn:Hf.
  - rewrite (dict_get_truthy _ _ (PStr "") Hf), Hf. reflexivity.
  - rewrite (dict_get_falsy _ _ Hf). reflexivity.
Qed.

Lemma host_upd_None_hostname ip first :
  h_hostname (host_upd ip None first) = dict_get first "hostname" (PStr "").
Proof.
  cbn [host_upd absorb new_host h_hostname].
  destruct (truthy (dict_get first "hostname" PNone)) eqn:Hf; [| reflexivity].
  rewrite (dict_get_truthy _ _ (PStr "") Hf), Hf. reflexivity.
Qed.

Lemma host_upd_None_os ip first :
  h_os (host_upd ip None first) = dict_get first "os" (PStr "").
Proof.
  cbn [host_upd absorb new_host h_os].
  destruct (truthy (dict_get first "os" PNone)) eqn:Hf; [| reflexivity].
  rewrite (dict_get_truthy _ _ (PStr "") Hf), Hf. reflexivity.
Qed.

(** The entry of one address, from the rows of its group. *)
Lemma host_group_entry ip first rest :
  let h := absorb_all ip (host_upd ip None first) rest in
  h_ip h = ip /\
  h_dc h = dict_get first "dc" (PBool false) /\
  h_signing h = dict_get first "signing" PNone /\
  NoDup (h_protocols h) /\
  (forall c, c ∈ h_protocols h <->
             exists row, row ∈ first :: rest /\ letter_of row = c) /\
  h_hostname h = first_non_empty "hostname" (PStr "") (first :: rest) /\
  h_os h = first_non_empty "os" (PStr "") (first :: rest).
Proof.
  intros h. subst h.
  destruct (absorb_all_fixed ip (host_upd ip None first) rest)
    as (_ & Hip & _ & Hdc & Hsg).
  split; [rewrite Hip; reflexivity |].
  split; [rewrite Hdc; reflexivity |].
  split; [rewrite Hsg; reflexivity |].
  split.
  { apply absorb_all_protocols_NoDup. cbn [host_upd absorb new_host h_protocols].
    apply NoDup_set_add, NoDup_nil_2. }
  split.
  { intros c. rewrite absorb_all_protocols.
    cbn [host_upd absorb new_host h_protocols].
    rewrite elem_of_set_add. split.
    - intros [[Hnil | ->] | (row & Hrow & Hc)].
      + apply elem_of_nil in Hnil. contradiction.
      + exists first. split; [apply list_elem_of_here | reflexivity].
      + exists row. split; [apply list_elem_of_further |]; assumption.
    - intros (row & Hrow & Hc). apply elem_of_cons in Hrow as [-> | Hrow].
      + left. right. symmetry. exact Hc.
      + right. exists row. tauto. }
  split.
  - rewrite absorb_all_hostname. apply first_non_empty_cons, host_upd_None_hostname.
  - rewrite absorb_all_os. apply first_non_empty_cons, host_upd_None_os.
Qed.

(** Every entry of the merged dict is the entry of its group, and the
    group is not empty. *)
Lemma merged_entry (all_hosts : list (gmap string pyval)) ip h :
  (ip, h) ∈ group_by host_key host_upd all_hosts [] ->
  exists first rest,
    group_of host_key ip all_hosts = first :: rest /\
    h = absorb_all ip (host_upd ip None first) rest.
Proof.
  intros Hin.
  apply od_elem_lookup in Hin; [| apply group_by_keys_NoDup, NoDup_nil_2].
  rewrite lookup_group_by in Hin. cbn [od_lookup] in Hin.
  destruct (group_of host_key ip all_hosts) as [| first rest]; [discriminate |].
  rewrite group_value_cons in Hin. injection Hin as <-.
  exists first, rest. split; reflexivity.
Qed.

Lemma letter_of_tag_letter row c :
  host_row_wf row = true -> (letter_of row = c <-> tag_letter row = Ok c).
Proof.
  unfold host_row_wf, letter_of. intros H. apply andb_true_iff in H as [_ H].
  destruct (tag_letter row); [| discriminate]. split; congruence.
Qed.

(** C2 (amended): rows without an address (none, empty, or white space
    only, by whatever [strip] takes for white space) are discarded and the
    others are grouped by address; each group gives exactly one merged
    record, whose protocols are the first letters of the tags of the rows
    of the group, each once, whose hostname and OS are the first non-empty
    value among the rows of the group, and whose dc and signing flags are
    those of the first row of the group (the default when that row has
    none). *)
Theorem merge_hosts_by_ip (all_hosts : list (gmap string pyval)) :
  Forall (fun row => host_row_wf row = true) all_hosts ->
  exists host_list,
    merge_hosts all_hosts = Ok host_list /\
    NoDup (map h_ip host_list) /\
    (forall ip,
        ip ∈ map h_ip host_list <->
        exists row, row ∈ all_hosts /\
                    dict_get row "ip" (PStr "") = PStr ip /\
                    ip <> ""%string /\
                    strip_is_empty ip = false) /\
    (forall h, h ∈ host_list ->
       h_ip h <> ""%string /\
       strip_is_empty (h_ip h) = false /\
       exists first rest,
         rows_with_ip (h_ip h) all_hosts = first :: rest /\
         NoDup (list_ascii_of_string (h_protocols h)) /\
         (forall c, c ∈ list_ascii_of_string (h_protocols h) <->
                    exists row, row ∈ first :: rest /\ tag_letter row = Ok c) /\
         h_hostname h = first_non_empty "hostname" (PStr "") (first :: rest) /\
         h_os h = first_non_empty "os" (PStr "") (first :: rest) /\
         h_dc h = dict_get first "dc" (PBool false) /\
         h_signing h = dict_get first "signing" PNone).
Proof.
  intros Hwf. unfold merge_hosts. rewrite (foldM_merge_pure _ _ Hwf). cbn.
  set (merged := group_by host_key host_upd all_hosts []).
  assert (forall ip h, (ip, h) ∈ merged -> h_ip h = ip) as Hkey.
  { intros ip h Hin. destruct (merged_entry _ _ _ Hin) as (first & rest & _ & ->).
    apply host_group_entry. }
  assert (map h_ip (map join_protocols (od_values merged)) = map fst merged)
    as Hips.
  { unfold od_values. rewrite !map_map. apply map_ext_in.
    intros [ip h] Hin. cbn. apply Hkey, list_elem_of_In, Hin. }
  eexists. split; [reflexivity |]. rewrite Hips. split; [| split].
  - apply group_by_keys_NoDup, NoDup_nil_2.
  - intros ip. unfold merged. rewrite group_by_keys_elem. split.
    + intros [Hnil | (row & Hrow & Hk)]; [apply elem_of_nil in Hnil; contradiction |].
      exists row. split; [assumption |]. apply host_key_Some, Hk.
    + intros (row & Hrow & Hk). right. exists row. split; [assumption |].
      apply host_key_Some, Hk.
  - intros h0 Hh0. unfold od_values in Hh0.
    apply list_elem_of_fmap in Hh0 as (h & -> & Hh).
    apply list_elem_of_fmap in Hh as ([ip h'] & Heq & Hin). cbn in Heq. subst h'.
    destruct (merged_entry _ _ _ Hin) as (first & rest & Hgroup & Hh).
    destruct (host_group_entry ip first rest)
      as (Hip & Hdc & Hsg & Hnd & Hprot & Hname & Hos).
    rewrite <- Hh in Hip, Hdc, Hsg, Hnd, Hprot, Hname, Hos.
    assert (ip <> ""%string /\ strip_is_empty ip = false) as [Hne Hblank].
    { assert (first ∈ group_of host_key ip all_hosts) as Hf
        by (rewrite Hgroup; apply list_elem_of_here).
      apply group_of_elem in Hf as [_ Hf]. apply host_key_Some in Hf. tauto. }
    cbn [join_protocols h_ip h_hostname h_os h_dc h_signing h_protocols].
    rewrite Hip. split; [exact Hne |]. split; [exact Hblank |].
    exists first, rest.
    rewrite <- (group_of_rows_with_ip _ _ Hne Hblank).
    split; [exact Hgroup |].
    rewrite list_ascii_of_string_of_list_ascii.
    split; [rewrite (py_sorted_perm ascii_le); exact Hnd |].
    split; [| tauto].
    intros c. rewrite (py_sorted_perm ascii_le), Hprot.
    split; intros (row & Hrow & Hc); exists row; (split; [assumption |]).
    + apply letter_of_tag_letter; [| assumption].
      rewrite <- Hgroup in Hrow. apply group_of_elem in Hrow as [Hrow _].
      rewrite Forall_forall in Hwf. apply Hwf, Hrow.
    + apply letter_of_tag_letter; [| assumption].
      rewrite <- Hgroup in Hrow. apply group_of_elem in Hrow as [Hrow _].
      rewrite Forall_forall in Hwf. apply Hwf, Hrow.
Qed.

(** The rows that the collection loop tags are well formed when the
    address column holds text or NULL and the upper-case names of the
    protocols begin with an ASCII character. *)

Lemma collect_host_rows_wf (sources : list (string * list (gmap string pyval))) :
  Forall (fun source =>
            (exists c rest, str_upper (fst source) = String c rest /\
                            (nat_of_ascii c < 128)%nat) /\
            Forall (fun row => str_or_none (dict_get row "ip" (PStr "")) = true)
                   (snd source)) sources ->
  Forall (fun row => host_row_wf row = true) (collect sources).
Proof.
  intros Hs. unfold collect. induction Hs as [| [name rows] sources [Hn Hrows] _ IH].
  - constructor.
  - cbn [map concat]. apply Forall_app. split; [| exact IH].
    unfold tag_rows. cbn [fst snd] in *. clear IH.
    induction Hrows as [| row rows Hrow _ IH]; cbn [map]; constructor; [| exact IH].
    unfold host_row_wf, tag_letter, tag_of, dict_get in *.
    rewrite lookup_insert_ne by discriminate. rewrite Hrow.
    rewrite lookup_insert_eq. cbn.
    destruct Hn as (c & upper & -> & Hc). apply Nat.leb_le. lia.
Qed.

(** On such rows [merge_hosts] returns. *)
Lemma merge_hosts_returns (sources : list (string * list (gmap string pyval))) :
  Forall (fun source =>
            (exists c rest, str_upper (fst source) = String c rest /\
                            (nat_of_ascii c < 128)%nat) /\
            Forall (fun row => str_or_none (dict_get row "ip" (PStr "")) = true)
                   (snd source)) sources ->
  exists host_list, merge_hosts (collect sources) = Ok host_list.
Proof.
  intros Hs. unfold merge_hosts.
  rewrite (foldM_merge_pure _ _ (collect_host_rows_wf _ Hs)).
  eexists. reflexivity.
Qed.
End HostMergeFacts.

Section HostMergeSamples.
Import DashboardDB.
#[local] Existing Instance ascii_text.

Lemma merge_hosts_sample :
  Forall (fun row => host_row_wf row = true) (collect Samples.host_sources) /\
  exists host_list,
    merge_hosts (collect Samples.host_sources) = Ok host_list /\
    NoDup (map h_ip host_list) /\
    forall h, h ∈ host_list ->
      h_ip h <> ""%string /\ strip_is_empty (h_ip h) = false.
Proof.
  assert (Forall (fun row => host_row_wf row = true)
            (collect Samples.host_sources)) as Hwf
    by (apply Forall_forallb; vm_compute; reflexivity).
  split; [exact Hwf |].
  destruct (merge_hosts_by_ip (collect Samples.host_sources) Hwf)
    as (host_list & Hok & Hnd & _ & Hall).
  exists host_list. split; [exact Hok |]. split; [exact Hnd |].
  intros h Hh. destruct (Hall h Hh) as (Hne & Hblank & _).
  split; assumption.
Defined.

(** The claim as worded fails where it speaks of the flags: the second row
    of the group carries [dc], the first does not, and the merged record
    has the default. *)
Lemma dc_of_later_row_is_lost :
  merge_hosts (collect Samples.host_sources)
    = Ok [ mkHost (PInt 1) "10.0.0.9" (PStr "SQL01") (PStr "")
                  (PStr "Windows Server 2019") "MW" (PBool false) PNone ] /\
  (exists row,
      row ∈ rows_with_ip "10.0.0.9" (collect Samples.host_sources) /\
      row !! "dc" = Some (PInt 1)).
Proof.
  split; [vm_compute; reflexivity |].
  exists (<["_protocol" := PStr "MSSQL"]> Samples.mssql_row).
  split; [| reflexivity].
  unfold rows_with_ip. apply list_elem_of_filter. split; [reflexivity |].
  do 2 apply list_elem_of_further. apply list_elem_of_here.
Qed.
End HostMergeSamples.

(** ** Credential deduplication *)

Section CaseFacts.

Lemma lower_swapcase (a : ascii) : ascii_lower (ascii_swapcase a) = ascii_lower a.
Proof. destruct a as [[] [] [] [] [] [] [] []]; vm_compute; reflexivity. Qed.

Lemma same_ascii_letter_lower (a b : ascii) :
  same_ascii_letter a b = true -> ascii_lower a = ascii_lower b.
Proof.
  unfold same_ascii_letter. intros H. apply orb_true_iff in H as [H | H].
  - apply Ascii.eqb_eq in H. congruence.
  - apply Ascii.eqb_eq in H. subst b. symmetry. apply lower_swapcase.
Qed.

(** Strings that differ only in the case of ASCII letters have the same
    ASCII lower-case form, and both are ASCII when one is. *)
Lemma differ_only_in_ascii_case_lower (s1 s2 : string) :
  differ_only_in_ascii_case s1 s2 = true ->
  str_map ascii_lower s1 = str_map ascii_lower s2.
Proof.
  revert s2. induction s1 as [| a s1 IH]; intros [| b s2] H;
    try discriminate; [reflexivity |].
  cbn in H. apply andb_true_iff in H as [Hab Hs].
  cbn. rewrite (same_ascii_letter_lower _ _ Hab). f_equal. apply IH, Hs.
Qed.
End CaseFacts.

Section DedupFacts.
Import DashboardDB.
Local Open Scope Z_scope.
Context {text : PyStr}.

Lemma cred_key_of_Some (row : gmap string pyval) k :
  cred_key_of row = Some k <-> cred_key row = Ok k.
Proof.
  unfold cred_key_of. destruct (cred_key row); split; congruence.
Qed.

Lemma group_of_rows_with_key k (rows : list (gmap string pyval)) :
  group_of cred_key_of k rows = rows_with_key k rows.
Proof.
  unfold group_of, rows_with_key. apply list_filter_iff.
  intros row. apply cred_key_of_Some.
Qed.

(** On a well-formed row the loop body does not raise and is the grouping
    step. *)
Lemma dedup_step_pure (d : list (string * string * string * CredEntry))
    (cred : gmap string pyval) :
  cred_row_wf cred = true ->
  dedup_step d cred = Ok (group_step cred_key_of cred_upd d cred).
Proof.
  unfold cred_row_wf, dedup_step, group_step, cred_key_of, cred_upd, tag_str.
  intros Hwf. apply andb_true_iff in Hwf as [Hkey Htag].
  destruct (cred_key cred) as [k | e]; [| discriminate].
  destruct (tag_of cred) as [t | e]; [| discriminate].
  cbn. destruct (od_lookup k d); reflexivity.
Qed.

Lemma foldM_dedup_pure (all_creds : list (gmap string pyval))
    (d : list (string * string * string * CredEntry)) :
  Forall (fun row => cred_row_wf row = true) all_creds ->
  foldM dedup_step all_creds d = Ok (group_by cred_key_of cred_upd all_creds d).
Proof.
  intros Hwf. revert d. induction Hwf as [| row rows Hrow _ IH]; intros d.
  - reflexivity.
  - cbn [foldM]. rewrite (dedup_step_pure _ _ Hrow). cbn. apply IH.
Qed.

Lemma count_all_fixed k e g :
  e_id (count_all k e g) = e_id e /\
  e_domain (count_all k e g) = e_domain e /\
  e_username (count_all k e g) = e_username e /\
  e_password (count_all k e g) = e_password e /\
  e_credtype (count_all k e g) = e_credtype e /\
  e_pillaged_from (count_all k e g) = e_pillaged_from e.
Proof.
  revert e. induction g as [| row g IH]; intros e; [repeat split |].
  unfold count_all in *. cbn [foldl]. exact (IH _).
Qed.

(** Every further row of the group adds one to the count. *)
Lemma count_all_reuse_count k e g :
  e_reuse_count (count_all k e g) = e_reuse_count e + Z.of_nat (length g).
Proof.
  revert e. induction g as [| row g IH]; intros e.
  - cbn. lia.
  - unfold count_all in *. cbn [foldl]. rewrite IH. cbn [cred_upd e_reuse_count length].
    lia.
Qed.

Lemma count_all_protocols k e g t :
  t ∈ e_protocols (count_all k e g) <->
  t ∈ e_protocols e \/ exists row, row ∈ g /\ tag_str row = t.
Proof.
  revert e. induction g as [| row g IH]; intros e.
  - cbn. split; [tauto |]. intros [? | (r & Hr & _)]; [assumption |].
    apply elem_of_nil in Hr. contradiction.
  - unfold count_all in *. cbn [foldl]. rewrite IH.
    cbn [cred_upd e_protocols]. rewrite elem_of_set_add. split.
    + intros [[? | ->] | (r & Hr & Hc)]; [tauto | |].
      * right. exists row. split; [apply list_elem_of_here | reflexivity].
      * right. exists r. split; [apply list_elem_of_further |]; assumption.
    + intros [? | (r & Hr & Hc)]; [tauto |].
      apply elem_of_cons in Hr as [-> | Hr];
        [left; right; symmetry; exact Hc |].
      right. exists r. tauto.
Qed.

Lemma count_all_protocols_NoDup k e g :
  NoDup (e_protocols e) -> NoDup (e_protocols (count_all k e g)).
Proof.
  revert e. induction g as [| row g IH]; intros e Hnd; [assumption |].
  unfold count_all in *. cbn [foldl]. apply IH.
  cbn [cred_upd e_protocols]. apply NoDup_set_add, Hnd.
Qed.

(** The entry of one key, from the rows of its group. *)
Lemma cred_group_entry k first rest :
  let e := count_all k (cred_upd k None first) rest in
  e_reuse_count e = Z.of_nat (length (first :: rest)) /\
  e_pillaged_from e = dict_get first "pillaged_from_hostid" PNone /\
  e_domain e = dict_get first "domain" (PStr "") /\
  e_username e = dict_get first "username" (PStr "") /\
  e_password e = dict_get first "password" (PStr "") /\
  e_credtype e = dict_get first "credtype" (PStr "plaintext") /\
  NoDup (e_protocols e) /\
  (forall t, t ∈ e_protocols e <->
             exists row, row ∈ first :: rest /\ tag_str row = t).
Proof.
  intros e. subst e.
  destruct (count_all_fixed k (cred_upd k None first) rest)
    as (_ & Hd & Hu & Hp & Hc & Hpf).
  split; [rewrite count_all_reuse_count; cbn [cred_upd e_reuse_count length]; lia |].
  split; [rewrite Hpf; reflexivity |].
  split; [rewrite Hd; reflexivity |].
  split; [rewrite Hu; reflexivity |].
  split; [rewrite Hp; reflexivity |].
  split; [rewrite Hc; reflexivity |].
  split.
  { apply count_all_protocols_NoDup. cbn [cred_upd e_protocols].
    apply NoDup_singleton. }
  intros t. rewrite count_all_protocols. cbn [cred_upd e_protocols].
  rewrite list_elem_of_singleton. split.
  - intros [-> | (row & Hrow & Ht)].
    + exists first. split; [apply list_elem_of_here | reflexivity].
    + exists row. split; [apply list_elem_of_further |]; assumption.
  - intros (row & Hrow & Ht). apply elem_of_cons in Hrow as [-> | Hrow].
    + left. symmetry. exact Ht.
    + right. exists row. tauto.
Qed.

Lemma deduped_entry (all_creds : list (gmap string pyval)) k e :
  (k, e) ∈ group_by cred_key_of cred_upd all_creds [] ->
  exists first rest,
    rows_with_key k all_creds = first :: rest /\
    e = count_all k (cred_upd k None first) rest.
Proof.
  intros Hin.
  apply od_elem_lookup in Hin; [| apply group_by_keys_NoDup, NoDup_nil_2].
  rewrite lookup_group_by, group_of_rows_with_key in Hin. cbn [od_lookup] in Hin.
  destruct (rows_with_key k all_creds) as [| first rest]; [discriminate |].
  rewrite group_value_cons in Hin. injection Hin as <-.
  exists first, rest. split; reflexivity.
Qed.

Lemma tag_str_tag_of row t :
  cred_row_wf row = true -> (tag_str row = t <-> tag_of row = Ok t).
Proof.
  unfold cred_row_wf, tag_str. intros H. apply andb_true_iff in H as [_ H].
  destruct (tag_of row); [| discriminate]. split; congruence.
Qed.

Lemma Forall2_map_same {X Y Z' : Type} (P : Y -> Z' -> Prop)
    (f : X -> Y) (g : X -> Z') (l : list X) :
  (forall x, x ∈ l -> P (f x) (g x)) -> Forall2 P (map f l) (map g l).
Proof.
  induction l as [| x l IH]; intros H; cbn; constructor.
  - apply H, list_elem_of_here.
  - apply IH. intros y Hy. apply H, list_elem_of_further, Hy.
Qed.

(** The deduplicated list, record by record, against the groups of the raw
    rows: [keys] are the keys of the groups in the order of the records. *)
Lemma dedup_credentials_groups (all_creds : list (gmap string pyval)) :
  Forall (fun row => cred_row_wf row = true) all_creds ->
  exists keys cred_list,
    dedup_credentials all_creds = Ok cred_list /\
    NoDup keys /\
    (forall k, k ∈ keys <-> exists row, row ∈ all_creds /\ cred_key row = Ok k) /\
    Forall2
      (fun k c =>
         exists first rest,
           rows_with_key k all_creds = first :: rest /\
           c_domain c = dict_get first "domain" (PStr "") /\
           c_username c = dict_get first "username" (PStr "") /\
           c_credtype c = dict_get first "credtype" (PStr "plaintext") /\
           c_reuse_count c = Z.of_nat (length (first :: rest)) /\
           c_pillaged_from c = dict_get first "pillaged_from_hostid" PNone /\
           c_source c =
             (if truthy (dict_get first "pillaged_from_hostid" PNone)
              then "dumped" else "used")%string /\
           exists tags,
             NoDup tags /\
             (forall t, t ∈ tags <->
                        exists row, row ∈ first :: rest /\ tag_of row = Ok t) /\
             c_protocols c = String.concat ", " (py_sorted string_le tags))
      keys cred_list.
Proof.
  intros Hwf. unfold dedup_credentials. rewrite (foldM_dedup_pure _ _ Hwf). cbn.
  set (deduped := group_by cred_key_of cred_upd all_creds []).
  exists (map fst deduped), (map finish_cred (od_values deduped)).
  split; [reflexivity |]. split; [apply group_by_keys_NoDup, NoDup_nil_2 |].
  split.
  - intros k. unfold deduped. rewrite group_by_keys_elem. split.
    + intros [Hnil | (row & Hrow & Hk)]; [apply elem_of_nil in Hnil; contradiction |].
      exists row. split; [assumption |]. apply cred_key_of_Some, Hk.
    + intros (row & Hrow & Hk). right. exists row. split; [assumption |].
      apply cred_key_of_Some, Hk.
  - unfold od_values. rewrite map_map. apply Forall2_map_same.
    intros [k e] Hin. cbn [fst snd].
    destruct (deduped_entry _ _ _ Hin) as (first & rest & Hgroup & He).
    destruct (cred_group_entry k first rest)
      as (Hcount & Hpf & Hdom & Husr & _ & Htyp & Hnd & Htags).
    rewrite <- He in Hcount, Hpf, Hdom, Husr, Htyp, Hnd, Htags.
    exists first, rest.
    cbn [finish_cred c_reuse_count c_pillaged_from c_source c_protocols
         c_domain c_username c_credtype].
    split; [exact Hgroup |]. split; [exact Hdom |]. split; [exact Husr |].
    split; [exact Htyp |]. split; [exact Hcount |]. split; [exact Hpf |].
    split; [rewrite Hpf; reflexivity |].
    exists (e_protocols e). split; [exact Hnd |]. split; [| reflexivity].
    intros t. rewrite Htags.
    assert (forall row, row ∈ first :: rest -> cred_row_wf row = true) as Hrows.
    { intros row Hrow. rewrite <- Hgroup in Hrow.
      apply list_elem_of_filter in Hrow as [_ Hrow].
      rewrite Forall_forall in Hwf. apply Hwf, Hrow. }
    split; intros (row & Hrow & Ht); exists row; (split; [assumption |]);
      apply (tag_str_tag_of _ _ (Hrows _ Hrow)), Ht.
Qed.

(** Two rows with the same key give one record that counts both. *)
Lemma dedup_two_rows (r1 r2 : gmap string pyval) (k : string * string * string)
    (p1 p2 : string) :
  cred_key r1 = Ok k -> cred_key r2 = Ok k ->
  tag_of r1 = Ok p1 -> tag_of r2 = Ok p2 ->
  exists c,
    dedup_credentials [r1; r2] = Ok [c] /\
    c_reuse_count c = 2 /\
    c_protocols c = String.concat ", " (py_sorted string_le (set_add p2 [p1])).
Proof.
  intros Hk1 Hk2 Ht1 Ht2. unfold dedup_credentials.
  rewrite foldM_dedup_pure
    by (repeat constructor; unfold cred_row_wf;
        rewrite ?Hk1, ?Hk2, ?Ht1, ?Ht2; reflexivity).
  unfold group_by. cbn [foldl]. unfold group_step, cred_key_of.
  rewrite Hk1, Hk2. cbn [od_lookup od_set].
  rewrite !decide_True by reflexivity.
  unfold cred_upd, tag_str. rewrite Ht1, Ht2.
  eexists. split; [reflexivity |]. split; reflexivity.
Qed.

Lemma cred_key_strings (r : gmap string pyval) (d u t : string) :
  dict_get r "domain" (PStr "") = PStr d ->
  dict_get r "username" (PStr "") = PStr u ->
  dict_get r "credtype" (PStr "") = PStr t ->
  cred_key r = Ok (str_lower d, str_lower u, str_lower t).
Proof. intros Hd Hu Ht. unfold cred_key. rewrite Hd, Hu, Ht. reflexivity. Qed.

(** Two rows with different keys give two records, each counted once. *)
Lemma dedup_two_rows_apart (r1 r2 : gmap string pyval)
    (k1 k2 : string * string * string) (p1 p2 : string) :
  cred_key r1 = Ok k1 -> cred_key r2 = Ok k2 -> k1 <> k2 ->
  tag_of r1 = Ok p1 -> tag_of r2 = Ok p2 ->
  exists c1 c2,
    dedup_credentials [r1; r2] = Ok [c1; c2] /\
    c_reuse_count c1 = 1 /\ c_reuse_count c2 = 1 /\
    c_protocols c1 = p1 /\ c_protocols c2 = p2.
Proof.
  intros Hk1 Hk2 Hne Ht1 Ht2. unfold dedup_credentials.
  rewrite foldM_dedup_pure
    by (repeat constructor; unfold cred_row_wf;
        rewrite ?Hk1, ?Hk2, ?Ht1, ?Ht2; reflexivity).
  unfold group_by. cbn [foldl]. unfold group_step, cred_key_of.
  rewrite Hk1, Hk2. cbn [od_lookup od_set].
  rewrite !decide_False by congruence. cbn [od_lookup od_set].
  unfold cred_upd, tag_str. rewrite Ht1, Ht2.
  eexists _, _. split; [reflexivity |]. repeat split.
Qed.

(** C3 (amended): two rows whose domain, user name and credential type
    have the same lower-case forms give exactly one record, with reuse
    count 2 and with the protocols of both rows, each once; two rows for
    which one of the three lower-case forms differs give two records, each
    with reuse count 1; and in general there is one record per group of
    rows with the same lower-case (domain, user name, type), whose reuse
    count is the number of rows of the group. *)
Theorem dedup_credentials_reuse_count :
  (forall (r1 r2 : gmap string pyval) (d1 d2 u1 u2 t1 t2 p1 p2 : string),
      dict_get r1 "domain" (PStr "") = PStr d1 ->
      dict_get r2 "domain" (PStr "") = PStr d2 ->
      dict_get r1 "username" (PStr "") = PStr u1 ->
      dict_get r2 "username" (PStr "") = PStr u2 ->
      dict_get r1 "credtype" (PStr "") = PStr t1 ->
      dict_get r2 "credtype" (PStr "") = PStr t2 ->
      r1 !! "_protocol" = Some (PStr p1) ->
      r2 !! "_protocol" = Some (PStr p2) ->
      (str_lower d1 = str_lower d2 ->
       str_lower u1 = str_lower u2 ->
       str_lower t1 = str_lower t2 ->
       exists c tags,
         dedup_credentials [r1; r2] = Ok [c] /\
         c_reuse_count c = 2 /\
         NoDup tags /\
         (forall t, t ∈ tags <-> t = p1 \/ t = p2) /\
         c_protocols c = String.concat ", " (py_sorted string_le tags)) /\
      (~ (str_lower d1 = str_lower d2 /\
          str_lower u1 = str_lower u2 /\
          str_lower t1 = str_lower t2) ->
       exists c1 c2,
         dedup_credentials [r1; r2] = Ok [c1; c2] /\
         c_reuse_count c1 = 1 /\ c_reuse_count c2 = 1 /\
         c_protocols c1 = p1 /\ c_protocols c2 = p2)) /\
  (forall all_creds : list (gmap string pyval),
      Forall (fun row => cred_row_wf row = true) all_creds ->
      exists keys cred_list,
        dedup_credentials all_creds = Ok cred_list /\
        NoDup keys /\
        (forall k, k ∈ keys <->
                   exists row, row ∈ all_creds /\ cred_key row = Ok k) /\
        Forall2
          (fun k c =>
             exists first rest,
               rows_with_key k all_creds = first :: rest /\
               c_domain c = dict_get first "domain" (PStr "") /\
               c_username c = dict_get first "username" (PStr "") /\
               c_credtype c = dict_get first "credtype" (PStr "plaintext") /\
               c_reuse_count c = Z.of_nat (length (first :: rest)) /\
               exists tags,
                 NoDup tags /\
                 (forall t, t ∈ tags <->
                            exists row, row ∈ first :: rest /\ tag_of row = Ok t) /\
                 c_protocols c = String.concat ", " (py_sorted string_le tags))
          keys cred_list).
Proof.
  split.
  - intros r1 r2 d1 d2 u1 u2 t1 t2 p1 p2 Hd1 Hd2 Hu1 Hu2 Ht1 Ht2 Hp1 Hp2.
    pose proof (cred_key_strings _ _ _ _ Hd1 Hu1 Ht1) as Hk1.
    pose proof (cred_key_strings _ _ _ _ Hd2 Hu2 Ht2) as Hk2.
    assert (tag_of r1 = Ok p1) as Htag1 by (unfold tag_of; rewrite Hp1; reflexivity).
    assert (tag_of r2 = Ok p2) as Htag2 by (unfold tag_of; rewrite Hp2; reflexivity).
    split.
    + intros Hd Hu Ht. rewrite <- Hd, <- Hu, <- Ht in Hk2.
      destruct (dedup_two_rows r1 r2 _ p1 p2 Hk1 Hk2 Htag1 Htag2)
        as (c & Hc & Hn & Hp).
      exists c, (set_add p2 [p1]). split; [exact Hc |]. split; [exact Hn |].
      split; [apply NoDup_set_add, NoDup_singleton |]. split; [| exact Hp].
      intros t. rewrite elem_of_set_add, list_elem_of_singleton. reflexivity.
    + intros Hne.
      apply (dedup_two_rows_apart r1 r2 _ _ p1 p2 Hk1 Hk2); [| assumption ..].
      intros [= Hd Hu Ht]. apply Hne. repeat split; assumption.
  - intros all_creds Hwf.
    destruct (dedup_credentials_groups all_creds Hwf)
      as (keys & cred_list & Hok & Hnd & Hkeys & Hall).
    exists keys, cred_list. split; [exact Hok |]. split; [exact Hnd |].
    split; [exact Hkeys |].
    eapply Forall2_impl; [exact Hall |].
    intros k c (first & rest & Hgroup & Hdom & Husr & Htyp & Hcount & _ & _
                & tags & Htnd & Htags & Hp).
    exists first, rest. split; [exact Hgroup |]. split; [exact Hdom |].
    split; [exact Husr |]. split; [exact Htyp |]. split; [exact Hcount |].
    exists tags. split; [exact Htnd |]. split; [exact Htags | exact Hp].
Qed.

(** For an instance that agrees with [ascii_text] on ASCII text, as the
    interpreter's does: two rows whose ASCII domain, user name and type
    differ only in the case of letters give one record. *)
Lemma ascii_case_pairs_are_merged :
  agrees_on_ascii text ->
  forall (r1 r2 : gmap string pyval) (d1 d2 u1 u2 t1 t2 p1 p2 : string),
    dict_get r1 "domain" (PStr "") = PStr d1 ->
    dict_get r2 "domain" (PStr "") = PStr d2 ->
    dict_get r1 "username" (PStr "") = PStr u1 ->
    dict_get r2 "username" (PStr "") = PStr u2 ->
    dict_get r1 "credtype" (PStr "") = PStr t1 ->
    dict_get r2 "credtype" (PStr "") = PStr t2 ->
    tag_of r1 = Ok p1 -> tag_of r2 = Ok p2 ->
    is_ascii (d1 ++ d2 ++ u1 ++ u2 ++ t1 ++ t2)%string = true ->
    differ_only_in_ascii_case d1 d2 = true ->
    differ_only_in_ascii_case u1 u2 = true ->
    differ_only_in_ascii_case t1 t2 = true ->
    exists c,
      dedup_credentials [r1; r2] = Ok [c] /\
      c_reuse_count c = 2 /\
      c_protocols c = String.concat ", " (py_sorted string_le (set_add p2 [p1])).
Proof.
  intros Hagree r1 r2 d1 d2 u1 u2 t1 t2 p1 p2 Hd1 Hd2 Hu1 Hu2 Ht1 Ht2 Hp1 Hp2
         Hascii Hd Hu Ht.
  assert (forall a b, is_ascii (a ++ b)%string = true ->
            is_ascii a = true /\ is_ascii b = true) as Happ.
  { intros a b. unfold is_ascii. induction a as [| c a IH]; [cbn; tauto |].
    change (String c a ++ b)%string with (String c (a ++ b)%string).
    cbn [str_forall]. rewrite !andb_true_iff. intros [Hc Hab].
    destruct (IH Hab). tauto. }
  apply Happ in Hascii as [Ad1 Hascii]. apply Happ in Hascii as [Ad2 Hascii].
  apply Happ in Hascii as [Au1 Hascii]. apply Happ in Hascii as [Au2 Hascii].
  apply Happ in Hascii as [At1 At2].
  pose proof (cred_key_strings _ _ _ _ Hd1 Hu1 Ht1) as Hk1.
  pose proof (cred_key_strings _ _ _ _ Hd2 Hu2 Ht2) as Hk2.
  rewrite (proj1 (Hagree d1 Ad1)), (proj1 (Hagree u1 Au1)),
          (proj1 (Hagree t1 At1)) in Hk1.
  rewrite (proj1 (Hagree d2 Ad2)), (proj1 (Hagree u2 Au2)),
          (proj1 (Hagree t2 At2)) in Hk2.
  rewrite <- (differ_only_in_ascii_case_lower _ _ Hd),
          <- (differ_only_in_ascii_case_lower _ _ Hu),
          <- (differ_only_in_ascii_case_lower _ _ Ht) in Hk2.
  apply (dedup_two_rows r1 r2 _ p1 p2 Hk1 Hk2 Hp1 Hp2).
Qed.

(** C4 (amended): the record of a group is "dumped" when the first row of
    the group carries a pillage-origin reference and "used" otherwise;
    references on later rows of the group are not looked at. *)
Theorem credential_source_of_first_row (all_creds : list (gmap string pyval)) :
  Forall (fun row => cred_row_wf row = true) all_creds ->
  exists keys cred_list,
    dedup_credentials all_creds = Ok cred_list /\
    NoDup keys /\
    (forall k, k ∈ keys <-> exists row, row ∈ all_creds /\ cred_key row = Ok k) /\
    Forall2
      (fun k c =>
         exists first rest,
           rows_with_key k all_creds = first :: rest /\
           c_source c =
             (if truthy (dict_get first "pillaged_from_hostid" PNone)
              then "dumped" else "used")%string)
      keys cred_list.
Proof.
  intros Hwf.
  destruct (dedup_credentials_groups all_creds Hwf)
    as (keys & cred_list & Hok & Hnd & Hkeys & Hall).
  exists keys, cred_list. split; [exact Hok |]. split; [exact Hnd |].
  split; [exact Hkeys |].
  eapply Forall2_impl; [exact Hall |].
  intros k c (first & rest & Hgroup & _ & _ & _ & _ & _ & Hsrc & _).
  exists first, rest. split; assumption.
Qed.

(** The rows that the collection loop tags are well formed when the three
    key columns hold text; on such rows [dedup_credentials] returns. *)
Lemma collect_cred_rows_wf (sources : list (string * list (gmap string pyval))) :
  Forall (fun source =>
            Forall (fun row =>
                      exists d u t,
                        dict_get row "domain" (PStr "") = PStr d /\
                        dict_get row "username" (PStr "") = PStr u /\
                        dict_get row "credtype" (PStr "") = PStr t)
                   (snd source)) sources ->
  Forall (fun row => cred_row_wf row = true) (collect sources).
Proof.
  intros Hs. unfold collect. induction Hs as [| [name rows] sources Hrows _ IH].
  - constructor.
  - cbn [map concat]. apply Forall_app. split; [| exact IH].
    unfold tag_rows. cbn [fst snd] in *. clear IH.
    induction Hrows as [| row rows (d & u & t & Hd & Hu & Ht) _ IH];
      cbn [map]; constructor; [| exact IH].
    unfold cred_row_wf, cred_key, tag_of, dict_get in *.
    rewrite !lookup_insert_ne by discriminate. rewrite Hd, Hu, Ht.
    rewrite lookup_insert_eq. reflexivity.
Qed.

Lemma dedup_credentials_returns
    (sources : list (string * list (gmap string pyval))) :
  Forall (fun source =>
            Forall (fun row =>
                      exists d u t,
                        dict_get row "domain" (PStr "") = PStr d /\
                        dict_get row "username" (PStr "") = PStr u /\
                        dict_get row "credtype" (PStr "") = PStr t)
                   (snd source)) sources ->
  exists cred_list, dedup_credentials (collect sources) = Ok cred_list.
Proof.
  intros Hs. unfold dedup_credentials.
  rewrite (foldM_dedup_pure _ _ (collect_cred_rows_wf _ Hs)).
  eexists. reflexivity.
Qed.
End DedupFacts.

Section DedupSamples.
Import DashboardDB.
Local Open Scope Z_scope.
#[local] Existing Instance ascii_text.

Lemma dedup_credentials_sample :
  (exists c tags,
      dedup_credentials (collect Samples.cred_two_stores) = Ok [c] /\
      c_reuse_count c = 2 /\
      NoDup tags /\
      (forall t, t ∈ tags <-> t = "SMB"%string \/ t = "LDAP"%string) /\
      c_protocols c = String.concat ", " (py_sorted string_le tags)) /\
  (exists c1 c2,
      dedup_credentials (collect Samples.cred_dotless) = Ok [c1; c2] /\
      c_reuse_count c1 = 1 /\ c_reuse_count c2 = 1) /\
  Forall (fun row => cred_row_wf row = true) (collect Samples.cred_two_stores) /\
  (exists (keys : list (string * string * string)) cred_list,
      dedup_credentials (collect Samples.cred_two_stores) = Ok cred_list /\
      NoDup keys /\
      Forall2
        (fun k c =>
           c_reuse_count c =
             Z.of_nat (length (rows_with_key k (collect Samples.cred_two_stores))))
        keys cred_list).
Proof.
  assert (Forall (fun row => cred_row_wf row = true)
            (collect Samples.cred_two_stores)) as Hwf
    by (apply Forall_forallb; vm_compute; reflexivity).
  split; [| split; [| split; [exact Hwf |]]].
  - destruct (proj1 dedup_credentials_reuse_count
                (<["_protocol" := PStr "SMB"]> Samples.cred_used)
                (<["_protocol" := PStr "LDAP"]> Samples.cred_ldap)
                "CORP" "corp" "Alice" "ALICE" "plaintext" "plaintext"
                "SMB" "LDAP")%string as [Hsame _]; try reflexivity.
    apply Hsame; reflexivity.
  - destruct (proj1 dedup_credentials_reuse_count
                (<["_protocol" := PStr "SMB"]> Samples.cred_admin)
                (<["_protocol" := PStr "LDAP"]> Samples.cred_admin_dotless)
                "CORP" "corp" "ADMIN" Samples.dotless_admin
                "plaintext" "plaintext" "SMB" "LDAP")%string
      as [_ Happart]; try reflexivity.
    destruct Happart as (c1 & c2 & Hok & H1 & H2 & _).
    + intros (_ & Hu & _). vm_compute in Hu. discriminate Hu.
    + exists c1, c2. split; [exact Hok |]. split; assumption.
  - destruct (proj2 dedup_credentials_reuse_count
                (collect Samples.cred_two_stores) Hwf)
      as (keys & cred_list & Hok & Hnd & _ & Hall).
    exists keys, cred_list. split; [exact Hok |]. split; [exact Hnd |].
    eapply Forall2_impl; [exact Hall |].
    intros k c (first & rest & Hgroup & _ & _ & _ & Hcount & _).
    rewrite Hgroup. exact Hcount.
Defined.

(** The claim as worded fails: the user names ADMIN and admın (with a
    dotless ı, whose upper-case form is I) differ only in letter case;
    their lower-case forms differ, admin and admın, and the two rows give
    two records, each with reuse count 1.  On these strings [ascii_text]
    computes the lower-case forms of the interpreter. *)
Lemma dotless_i_rows_are_not_merged :
  str_lower "ADMIN" = "admin"%string /\
  str_lower Samples.dotless_admin = Samples.dotless_admin /\
  exists c1 c2,
    dedup_credentials (collect Samples.cred_dotless) = Ok [c1; c2] /\
    c_username c1 = PStr "ADMIN" /\ c_reuse_count c1 = 1 /\
    c_username c2 = PStr Samples.dotless_admin /\ c_reuse_count c2 = 1.
Proof.
  split; [reflexivity |]. split; [reflexivity |].
  eexists _, _. split; [vm_compute; reflexivity |]. repeat split.
Qed.

Lemma credential_source_sample :
  Forall (fun row => cred_row_wf row = true) (collect Samples.cred_sources) /\
  exists (keys : list (string * string * string)) cred_list,
    dedup_credentials (collect Samples.cred_sources) = Ok cred_list /\
    NoDup keys /\
    Forall2
      (fun k c =>
         exists first rest,
           rows_with_key k (collect Samples.cred_sources) = first :: rest /\
           c_source c =
             (if truthy (dict_get first "pillaged_from_hostid" PNone)
              then "dumped" else "used")%string)
      keys cred_list.
Proof.
  assert (Forall (fun row => cred_row_wf row = true)
            (collect Samples.cred_sources)) as Hwf
    by (apply Forall_forallb; vm_compute; reflexivity).
  split; [exact Hwf |].
  destruct (credential_source_of_first_row (collect Samples.cred_sources) Hwf)
    as (keys & cred_list & Hok & Hnd & _ & Hall).
  exists keys, cred_list. split; [exact Hok |]. split; assumption.
Defined.

(** The claim as worded fails: a row of the group carries a pillage-origin
    reference, it is not the first, and the record is "used"; with the two
    rows in the other order the record is "dumped". *)
Lemma later_pillage_reference_is_used :
  (exists c,
      dedup_credentials (collect Samples.cred_sources) = Ok [c] /\
      c_reuse_count c = 2 /\
      c_source c = "used"%string) /\
  truthy (dict_get Samples.cred_dumped "pillaged_from_hostid" PNone) = true /\
  (exists c,
      dedup_credentials (collect Samples.cred_sources_swapped) = Ok [c] /\
      c_reuse_count c = 2 /\
      c_source c = "dumped"%string).
Proof.
  split; [| split].
  - eexists. split; [vm_compute; reflexivity |]. split; reflexivity.
  - reflexivity.
  - eexists. split; [vm_compute; reflexivity |]. split; reflexivity.
Qed.
End DedupSamples.

(** * Further properties *)

(** ** Navigation of the paginator *)

Section PaginatorNavFacts.
Import Paginator.
Local Open Scope Z_scope.
Context {T F : Type}.

(** [get_page()] on a paginator whose page size is not 0: the fetch is for
    the current page, which is then lowered to the page count. *)
Lemma get_page_None_eq (self : t T F) :
  self_page_size self <> 0 ->
  let fetched :=
    data_source self (current_page self) (self_page_size self) (filters self) in
  let tp := page_count (snd fetched) (self_page_size self) in
  let cur := if current_page self >? tp then tp else current_page self in
  get_page self None =
    Ok (if current_page self >? tp then set_current_page self tp else self,
        mkResult (fst fetched) cur (self_page_size self) (snd fetched) tp
                 (cur <? tp) (cur >? 1)).
Proof.
  intros Hps fetched tp cur. unfold get_page. fold fetched.
  destruct fetched as [its total] eqn:Hf. cbn [fst snd] in *.
  unfold floordiv. destruct (Z.eqb_spec (self_page_size self) 0); [contradiction |].
  cbn. fold (page_count total (self_page_size self)). fold tp. subst cur.
  destruct (current_page self >? tp); reflexivity.
Qed.

Lemma same_source_refl (self : t T F) : same_source self self.
Proof. repeat split. Qed.

Lemma same_source_trans (a b c : t T F) :
  same_source a b -> same_source b c -> same_source a c.
Proof. intros (? & ? & ?) (? & ? & ?). repeat split; congruence. Qed.

Lemma same_source_set_page (self : t T F) p :
  same_source (set_current_page self p) self.
Proof. repeat split. Qed.

Lemma steady_same_source (self' self : t T F) total :
  same_source self' self -> steady self total -> steady self' total.
Proof. intros (Hd & Hs & Hf) H p. unfold steady in *. rewrite Hd, Hs, Hf. apply H. Qed.

Lemma window_same_source (self' self : t T F) p :
  same_source self' self -> window self' p = window self p.
Proof. intros (Hd & Hs & Hf). unfold window. rewrite Hd, Hs, Hf. reflexivity. Qed.

(** [get_page()] over a steady fetch. *)
Lemma get_page_None_steady (self : t T F) (total : Z) :
  self_page_size self <> 0 ->
  steady self total ->
  let tp := page_count total (self_page_size self) in
  exists self' r,
    get_page self None = Ok (self', r) /\
    same_source self' self /\
    current_page self' = Z.min (current_page self) tp /\
    page r = Z.min (current_page self) tp /\
    items r = window self (current_page self) /\
    total_items r = total /\
    total_pages r = tp /\
    has_next r = (page r <? tp) /\
    has_prev r = (page r >? 1).
Proof.
  intros Hps Hst tp. rewrite (get_page_None_eq self Hps). cbn zeta.
  rewrite (Hst (current_page self)). fold tp.
  destruct (Z.gtb_spec (current_page self) tp) as [Hgt | Hle];
    eexists _, _; (split; [reflexivity |]); cbn;
    repeat split; try lia; try reflexivity.
Qed.

Lemma get_page_Some_eq (self : t T F) (n : Z) :
  get_page self (Some n) = get_page (set_current_page self (Z.max 1 n)) None.
Proof. reflexivity. Qed.

Lemma next_page_steady (self : t T F) (total : Z) :
  self_page_size self <> 0 ->
  steady self total ->
  let tp := page_count total (self_page_size self) in
  exists self' r,
    next_page self = Ok (self', r) /\
    same_source self' self /\
    page r = Z.min (current_page self + 1) tp /\
    current_page self' = page r /\
    items r = window self (page r) /\
    total_pages r = tp.
Proof.
  intros Hps Hst tp. unfold next_page.
  destruct (get_page_None_steady self total Hps Hst)
    as (s1 & r1 & Heq & Hsrc & Hcur & Hpage & _ & _ & _ & Hnext & _).
  rewrite Heq. cbn. fold tp in Hcur, Hpage, Hnext.
  set (s2 := if has_next r1 then set_current_page s1 (current_page s1 + 1) else s1).
  assert (same_source s2 self) as Hsrc2.
  { subst s2. destruct (has_next r1); [| exact Hsrc].
    eapply same_source_trans; [apply same_source_set_page | exact Hsrc]. }
  assert (self_page_size s2 <> 0) as Hps2 by (destruct Hsrc2 as (_ & -> & _); exact Hps).
  destruct (get_page_None_steady s2 total Hps2 (steady_same_source _ _ _ Hsrc2 Hst))
    as (s3 & r3 & Heq3 & Hsrc3 & Hcur3 & Hpage3 & Hitems3 & _ & Htp3 & _).
  assert (self_page_size s2 = self_page_size self) as Hsz by (apply Hsrc2).
  rewrite Hsz in Hcur3, Hpage3, Htp3. fold tp in Hcur3, Hpage3, Htp3.
  assert (current_page s2 = Z.min (current_page self + 1) tp) as Hc2.
  { subst s2. rewrite Hnext, Hpage.
    destruct (Z.ltb_spec (Z.min (current_page self) tp) tp); cbn; lia. }
  exists s3, r3. split; [exact Heq3 |].
  split; [eapply same_source_trans; eassumption |].
  assert (page r3 = Z.min (current_page self + 1) tp) as Hp3 by lia.
  split; [exact Hp3 |]. split; [lia |].
  split; [| exact Htp3].
  rewrite Hitems3, Hp3, <- Hc2. apply window_same_source, Hsrc2.
Qed.

(** [next_page] over a steady fetch goes one page on, stays on the last
    page, and returns the window of the page it reports. *)
Theorem next_page_moves_forward (self : t T F) (total : Z) :
  self_page_size self <> 0 ->
  steady self total ->
  let tp := page_count total (self_page_size self) in
  exists self' r,
    next_page self = Ok (self', r) /\
    same_source self' self /\
    page r = Z.min (current_page self + 1) tp /\
    current_page self' = page r /\
    items r = window self (page r) /\
    total_pages r = tp.
Proof. exact (next_page_steady self total). Qed.

(** [prev_page] from a page within the page count goes one page back,
    stays on page 1, and returns the window of the page it reports. *)
Theorem prev_page_moves_back (self : t T F) (total : Z) :
  self_page_size self <> 0 ->
  steady self total ->
  let tp := page_count total (self_page_size self) in
  1 <= current_page self <= tp ->
  exists self' r,
    prev_page self = Ok (self', r) /\
    same_source self' self /\
    page r = Z.max 1 (current_page self - 1) /\
    current_page self' = page r /\
    items r = window self (page r) /\
    total_pages r = tp.
Proof.
  intros Hps Hst tp Hcur. unfold prev_page.
  set (s1 := if current_page self >? 1
             then set_current_page self (current_page self - 1) else self).
  assert (same_source s1 self) as Hsrc1.
  { subst s1. destruct (current_page self >? 1);
      [apply same_source_set_page | apply same_source_refl]. }
  assert (current_page s1 = Z.max 1 (current_page self - 1)) as Hc1.
  { subst s1. destruct (Z.gtb_spec (current_page self) 1); cbn; lia. }
  assert (self_page_size s1 = self_page_size self) as Hsz by (apply Hsrc1).
  assert (self_page_size s1 <> 0) as Hps1 by (rewrite Hsz; exact Hps).
  destruct (get_page_None_steady s1 total Hps1 (steady_same_source _ _ _ Hsrc1 Hst))
    as (s2 & r2 & Heq & Hsrc2 & Hcur2 & Hpage2 & Hitems2 & _ & Htp2 & _).
  rewrite Hsz in Hcur2, Hpage2, Htp2. fold tp in Hcur2, Hpage2, Htp2.
  exists s2, r2. split; [exact Heq |].
  split; [eapply same_source_trans; eassumption |].
  assert (page r2 = Z.max 1 (current_page self - 1)) as Hp2 by lia.
  split; [exact Hp2 |]. split; [lia |]. split; [| exact Htp2].
  rewrite Hitems2, Hp2, <- Hc1. apply window_same_source, Hsrc1.
Qed.

Lemma first_last_steady (self : t T F) (total : Z) :
  self_page_size self <> 0 ->
  steady self total ->
  let tp := page_count total (self_page_size self) in
  (exists self' r,
      first_page self = Ok (self', r) /\
      same_source self' self /\
      page r = 1 /\ current_page self' = 1 /\
      items r = window self 1 /\
      has_prev r = false) /\
  (exists self' r,
      last_page self = Ok (self', r) /\
      same_source self' self /\
      page r = tp /\ current_page self' = tp /\
      items r = window self tp /\
      has_next r = false).
Proof.
  intros Hps Hst tp.
  assert (1 <= tp) as Htp1 by (subst tp; unfold page_count; lia).
  split.
  - unfold first_page.
    pose proof (same_source_set_page self 1) as Hsrc1.
    destruct (get_page_None_steady (set_current_page self 1) total Hps
                (steady_same_source _ _ _ Hsrc1 Hst))
      as (s2 & r2 & Heq & Hsrc2 & Hcur2 & Hpage2 & Hitems2 & _ & _ & _ & Hprev).
    cbn [set_current_page current_page self_page_size] in Hcur2, Hpage2, Hitems2.
    fold tp in Hcur2, Hpage2.
    exists s2, r2. split; [exact Heq |].
    split; [eapply same_source_trans; eassumption |].
    split; [lia |]. split; [lia |].
    split; [rewrite Hitems2; apply window_same_source, Hsrc1 |].
    rewrite Hprev, Z.gtb_ltb. apply Z.ltb_ge. lia.
  - unfold last_page.
    destruct (data_source self 1 (self_page_size self) (filters self))
      as [its tot] eqn:Hds.
    assert (tot = total) as -> by (rewrite <- (Hst 1), Hds; reflexivity).
    unfold floordiv. destruct (Z.eqb_spec (self_page_size self) 0); [contradiction |].
    cbn. fold (page_count total (self_page_size self)). fold tp.
    pose proof (same_source_set_page self tp) as Hsrc1.
    destruct (get_page_None_steady (set_current_page self tp) total Hps
                (steady_same_source _ _ _ Hsrc1 Hst))
      as (s2 & r2 & Heq & Hsrc2 & Hcur2 & Hpage2 & Hitems2 & _ & _ & Hnext & _).
    cbn [set_current_page current_page self_page_size] in Hcur2, Hpage2, Hitems2, Hnext.
    fold tp in Hcur2, Hpage2, Hnext.
    exists s2, r2. split; [exact Heq |].
    split; [eapply same_source_trans; eassumption |].
    split; [lia |]. split; [lia |].
    split; [rewrite Hitems2; apply window_same_source, Hsrc1 |].
    rewrite Hnext. apply Z.ltb_ge. lia.
Qed.

(** [first_page] and [last_page] over a steady fetch, from any current
    page: page 1 and the last page, each with its own window; after
    [last_page] there is no next page. *)
Theorem first_and_last_page (self : t T F) (total : Z) :
  self_page_size self <> 0 ->
  steady self total ->
  let tp := page_count total (self_page_size self) in
  (exists self' r,
      first_page self = Ok (self', r) /\
      same_source self' self /\
      page r = 1 /\ current_page self' = 1 /\
      items r = window self 1 /\
      has_prev r = false) /\
  (exists self' r,
      last_page self = Ok (self', r) /\
      same_source self' self /\
      page r = tp /\ current_page self' = tp /\
      items r = window self tp /\
      has_next r = false).
Proof. exact (first_last_steady self total). Qed.

(** One call, from a current page that is at least 1. *)
Lemma run_nav_in_range (self : t T F) (op : nav) (total : Z) :
  self_page_size self <> 0 ->
  steady self total ->
  1 <= current_page self ->
  let tp := page_count total (self_page_size self) in
  exists self' r,
    run_nav self op = Ok (self', r) /\
    same_source self' self /\
    1 <= current_page self' <= tp /\
    page r = current_page self' /\
    total_pages r = tp.
Proof.
  intros Hps Hst Hcur tp.
  assert (1 <= tp) as Htp1 by (subst tp; unfold page_count; lia).
  assert (forall p, 1 <= p ->
            exists self' r,
              get_page (set_current_page self p) None = Ok (self', r) /\
              same_source self' self /\
              1 <= current_page self' <= tp /\
              page r = current_page self' /\
              total_pages r = tp) as Hat.
  { intros p Hp. pose proof (same_source_set_page self p) as Hsrc1.
    destruct (get_page_None_steady (set_current_page self p) total Hps
                (steady_same_source _ _ _ Hsrc1 Hst))
      as (s2 & r2 & Heq & Hsrc2 & Hcur2 & Hpage2 & _ & _ & Htp2 & _).
    cbn [set_current_page current_page self_page_size] in Hcur2, Hpage2, Htp2.
    fold tp in Hcur2, Hpage2, Htp2.
    exists s2, r2. split; [exact Heq |].
    split; [eapply same_source_trans; eassumption |].
    split; [lia |]. split; [lia | exact Htp2]. }
  destruct op as [[n |] | | | | | n]; cbn [run_nav].
  - rewrite get_page_Some_eq. apply Hat. lia.
  - destruct (get_page_None_steady self total Hps Hst)
      as (s2 & r2 & Heq & Hsrc2 & Hcur2 & Hpage2 & _ & _ & Htp2 & _).
    fold tp in Hcur2, Hpage2, Htp2.
    exists s2, r2. split; [exact Heq |]. split; [exact Hsrc2 |].
    split; [lia |]. split; [lia | exact Htp2].
  - destruct (next_page_steady self total Hps Hst)
      as (s2 & r2 & Heq & Hsrc2 & Hpage2 & Hcur2 & _ & Htp2).
    fold tp in Hpage2, Htp2.
    exists s2, r2. split; [exact Heq |]. split; [exact Hsrc2 |].
    split; [lia |]. split; [lia | exact Htp2].
  - unfold prev_page.
    destruct (Z.gtb_spec (current_page self) 1) as [Hgt | Hle].
    + apply Hat. lia.
    + destruct (get_page_None_steady self total Hps Hst)
        as (s2 & r2 & Heq & Hsrc2 & Hcur2 & Hpage2 & _ & _ & Htp2 & _).
      fold tp in Hcur2, Hpage2, Htp2.
      exists s2, r2. split; [exact Heq |]. split; [exact Hsrc2 |].
      split; [lia |]. split; [lia | exact Htp2].
  - unfold first_page. apply Hat. lia.
  - destruct (first_last_steady self total Hps Hst)
      as (_ & s2 & r2 & Heq & Hsrc2 & Hpage2 & Hcur2 & _).
    fold tp in Hpage2, Hcur2.
    exists s2, r2. split; [exact Heq |]. split; [exact Hsrc2 |].
    split; [lia |]. split; [lia |].
    unfold last_page in Heq.
    destruct (data_source self 1 (self_page_size self) (filters self))
      as [its tot] eqn:Hds.
    assert (tot = total) as -> by (rewrite <- (Hst 1), Hds; reflexivity).
    unfold floordiv in Heq.
    destruct (Z.eqb_spec (self_page_size self) 0); [contradiction |].
    cbn in Heq. fold (page_count total (self_page_size self)) in Heq. fold tp in Heq.
    pose proof (same_source_set_page self tp) as Hsrc1.
    destruct (get_page_None_steady (set_current_page self tp) total Hps
                (steady_same_source _ _ _ Hsrc1 Hst))
      as (s3 & r3 & Heq3 & _ & _ & _ & _ & _ & Htp3 & _).
    rewrite Heq3 in Heq. injection Heq as <- <-. exact Htp3.
  - unfold goto_page. rewrite get_page_Some_eq. apply Hat. lia.
Qed.

(** Whatever calls are made on a paginator over a steady fetch, none
    raises and the current page stays within 1 and the page count. *)
Theorem navigation_keeps_page_in_range (ops : list nav) (self : t T F) (total : Z) :
  self_page_size self <> 0 ->
  steady self total ->
  1 <= current_page self ->
  exists self',
    run_navs self ops = Ok self' /\
    same_source self' self /\
    1 <= current_page self' /\
    (ops <> [] ->
     current_page self' <= page_count total (self_page_size self)).
Proof.
  revert self. induction ops as [| op ops IH]; intros self Hps Hst Hcur.
  - exists self. split; [reflexivity |]. split; [apply same_source_refl |].
    split; [exact Hcur | congruence].
  - cbn [run_navs].
    destruct (run_nav_in_range self op total Hps Hst Hcur)
      as (s1 & r1 & Heq & Hsrc1 & Hcur1 & _).
    rewrite Heq. cbn.
    assert (self_page_size s1 = self_page_size self) as Hsz by (apply Hsrc1).
    destruct (IH s1) as (s2 & Heq2 & Hsrc2 & Hcur2 & Hle2);
      [rewrite Hsz; exact Hps | eapply steady_same_source; eassumption | lia |].
    exists s2. split; [exact Heq2 |].
    split; [eapply same_source_trans; eassumption |].
    split; [exact Hcur2 |]. intros _.
    destruct ops as [| op' ops'].
    + cbn in Heq2. injection Heq2 as <-. lia.
    + rewrite <- Hsz. apply Hle2. discriminate.
Qed.

(** With a page size of 0 every call raises [ZeroDivisionError]. *)
Theorem navigation_with_page_size_0 (self : t T F) (op : nav) :
  self_page_size self = 0 ->
  run_nav self op = Raise ZeroDivisionError.
Proof.
  intros Hz.
  assert (forall s page, self_page_size s = 0 ->
            get_page (T:=T) (F:=F) s page = Raise ZeroDivisionError) as Hget.
  { intros s page Hs. unfold get_page.
    destruct page as [n |]; cbn [set_current_page current_page self_page_size
                                  data_source filters];
      destruct (data_source s _ _ _) as [its tot]; unfold floordiv;
      rewrite Hs; reflexivity. }
  destruct op as [page | | | | | n]; cbn [run_nav].
  - apply Hget, Hz.
  - unfold next_page. rewrite (Hget self None Hz). reflexivity.
  - unfold prev_page. apply Hget.
    destruct (current_page self >? 1); exact Hz.
  - unfold first_page. apply Hget. exact Hz.
  - unfold last_page.
    destruct (data_source self 1 (self_page_size self) (filters self)) as [its tot].
    unfold floordiv. rewrite Hz. reflexivity.
  - unfold goto_page. apply Hget, Hz.
Qed.
End PaginatorNavFacts.


Section PaginatorNavSamples.
Import Paginator.
Local Open Scope Z_scope.

Lemma steady_pager45 : steady Samples.pager45 45.
Proof. intros p. reflexivity. Qed.

Lemma next_page_sample :
  self_page_size Samples.pager45 <> 0 /\
  steady Samples.pager45 45 /\
  exists self' r,
    next_page Samples.pager45 = Ok (self', r) /\
    page r = Z.min (current_page Samples.pager45 + 1) (page_count 45 20) /\
    items r = window Samples.pager45 (page r).
Proof.
  assert (self_page_size Samples.pager45 <> 0) as Hps by discriminate.
  split; [exact Hps |]. split; [exact steady_pager45 |].
  destruct (next_page_moves_forward Samples.pager45 45 Hps steady_pager45)
    as (self' & r & Heq & _ & Hpage & _ & Hitems & _).
  exists self', r. split; [exact Heq |]. split; [exact Hpage | exact Hitems].
Defined.

Lemma prev_page_sample :
  self_page_size Samples.pager45 <> 0 /\
  steady Samples.pager45 45 /\
  1 <= current_page Samples.pager45 <= page_count 45 20 /\
  exists self' r,
    prev_page Samples.pager45 = Ok (self', r) /\
    page r = Z.max 1 (current_page Samples.pager45 - 1) /\
    items r = window Samples.pager45 (page r).
Proof.
  assert (self_page_size Samples.pager45 <> 0) as Hps by discriminate.
  assert (1 <= current_page Samples.pager45 <= page_count 45 20) as Hcur
    by (vm_compute; split; discriminate).
  split; [exact Hps |]. split; [exact steady_pager45 |]. split; [exact Hcur |].
  destruct (prev_page_moves_back Samples.pager45 45 Hps steady_pager45 Hcur)
    as (self' & r & Heq & _ & Hpage & _ & Hitems & _).
  exists self', r. split; [exact Heq |]. split; [exact Hpage | exact Hitems].
Defined.

Lemma first_and_last_page_sample :
  self_page_size Samples.pager45 <> 0 /\
  steady Samples.pager45 45 /\
  (exists self' r, first_page Samples.pager45 = Ok (self', r) /\ page r = 1) /\
  (exists self' r,
      last_page Samples.pager45 = Ok (self', r) /\ page r = page_count 45 20).
Proof.
  assert (self_page_size Samples.pager45 <> 0) as Hps by discriminate.
  split; [exact Hps |]. split; [exact steady_pager45 |].
  destruct (first_and_last_page Samples.pager45 45 Hps steady_pager45)
    as ((s1 & r1 & Heq1 & _ & Hp1 & _) & (s2 & r2 & Heq2 & _ & Hp2 & _)).
  split; [exists s1, r1 | exists s2, r2]; split; assumption.
Defined.

Lemma navigation_sample :
  self_page_size Samples.pager45 <> 0 /\
  steady Samples.pager45 45 /\
  1 <= current_page Samples.pager45 /\
  exists self',
    run_navs Samples.pager45 [NavGet (Some 7); NavPrev; NavNext; NavNext] = Ok self' /\
    1 <= current_page self'.
Proof.
  assert (self_page_size Samples.pager45 <> 0) as Hps by discriminate.
  assert (1 <= current_page Samples.pager45) as Hcur by (vm_compute; discriminate).
  split; [exact Hps |]. split; [exact steady_pager45 |]. split; [exact Hcur |].
  destruct (navigation_keeps_page_in_range
              [NavGet (Some 7); NavPrev; NavNext; NavNext]
              Samples.pager45 45 Hps steady_pager45 Hcur)
    as (self' & Heq & _ & Hge & _).
  exists self'. split; assumption.
Defined.

Lemma navigation_with_page_size_0_sample :
  run_nav (Paginator.init (list_source Samples.items45) 0 tt) NavLast
    = Raise ZeroDivisionError.
Proof. apply navigation_with_page_size_0. reflexivity. Defined.
End PaginatorNavSamples.

(** ** Windows of a list and the filters of a paginator *)

Section WindowFacts.
Import Paginator.
Local Open Scope Z_scope.
Context {T : Type}.

(** The window of page [p] of a list-backed fetch: at most [size] items
    after the first [(p - 1) * size]. *)
Lemma list_source_window (all : list T) (p size : Z) :
  1 <= p -> 0 < size ->
  fst (list_source all p size tt) =
    take (Z.to_nat size) (drop (Z.to_nat ((p - 1) * size)) all).
Proof.
  intros Hp Hs. unfold list_source, py_slice, py_index_clip. cbn [fst].
  set (start := (p - 1) * size). set (n := Z.of_nat (length all)).
  assert (0 <= start) as Hstart by (subst start; nia).
  destruct (Z.ltb_spec start 0) as [? | _]; [lia |].
  destruct (Z.ltb_spec (start + size) 0) as [? | _]; [lia |].
  destruct (Z_lt_le_dec start n) as [Hlt | Hge].
  - rewrite (Z.min_l start n) by lia.
    destruct (Z_le_gt_dec (start + size) n) as [Hle | Hgt].
    + rewrite Z.min_l by lia. f_equal. f_equal. lia.
    + rewrite Z.min_r by lia.
      rewrite !take_ge; [reflexivity | |]; rewrite length_drop; subst n; lia.
  - rewrite !Z.min_r by lia. rewrite Z.sub_diag. cbn [Z.to_nat take].
    rewrite (drop_ge all (Z.to_nat start)) by (subst n; lia).
    rewrite take_nil. reflexivity.
Qed.

Lemma windows_concat (all : list T) (size k : nat) :
  concat (map (fun p => take size (drop ((p - 1) * size) all)) (seq 1 k))
    = take (k * size) all.
Proof.
  induction k as [| k IH]; [reflexivity |].
  rewrite seq_S, map_app, concat_app, IH. cbn [map concat].
  rewrite app_nil_r. replace (1 + k - 1)%nat with k by lia.
  rewrite take_take_drop. f_equal. lia.
Qed.

(** The windows of pages 1 to the page count, one after the other, are the
    whole list: every item is on exactly one page, in order. *)
Theorem list_source_pages_tile (all : list T) (size : Z) :
  0 < size ->
  concat (map (fun p => fst (list_source all (Z.of_nat p) size tt))
              (seq 1 (Z.to_nat (page_count (Z.of_nat (length all)) size))))
    = all.
Proof.
  intros Hs.
  set (k := Z.to_nat (page_count (Z.of_nat (length all)) size)).
  rewrite (map_ext_in _ (fun p => take (Z.to_nat size)
                                    (drop ((p - 1) * Z.to_nat size) all))).
  - rewrite windows_concat. apply take_ge.
    pose proof (ceil_div_bounds (Z.of_nat (length all)) size Hs) as Hb.
    cbn zeta in Hb. subst k. unfold page_count. nia.
  - intros p Hp. apply in_seq in Hp.
    rewrite list_source_window by lia. do 2 f_equal. nia.
Qed.

(** Setting a filter, clearing a filter that is set, and clearing all
    filters put the paginator on page 1, and [get_page()] then reports page
    1 with the window fetched for it under the new filters; clearing a
    filter that is not set changes nothing, the page included; a filter
    that was not set is gone again after set and clear. *)
Theorem filters_reset_to_first_page (self : t T (gmap string pyval))
    (key : string) (value : pyval) :
  (current_page (set_filter self key value) = 1 /\
   filters (set_filter self key value) !! key = Some value /\
   forall k, k <> key ->
             filters (set_filter self key value) !! k = filters self !! k) /\
  (filters self !! key = None -> clear_filter self key = self) /\
  (is_Some (filters self !! key) ->
     current_page (clear_filter self key) = 1 /\
     filters (clear_filter self key) = delete key (filters self)) /\
  (filters self !! key = None ->
     filters (clear_filter (set_filter self key value) key) = filters self) /\
  (current_page (clear_filters self) = 1 /\ filters (clear_filters self) = ∅) /\
  (self_page_size self <> 0 ->
     forall self1,
       self1 = set_filter self key value \/
       self1 = clear_filters self \/
       (is_Some (filters self !! key) /\ self1 = clear_filter self key) ->
       exists self' r,
         get_page self1 None = Ok (self', r) /\
         page r = 1 /\ items r = window self1 1).
Proof.
  split; [| split; [| split; [| split; [| split]]]].
  - split; [reflexivity |]. cbn. split; [apply lookup_insert_eq |].
    intros k Hk. apply lookup_insert_ne. congruence.
  - intros Hnone. unfold clear_filter. rewrite Hnone. reflexivity.
  - intros [v Hv]. unfold clear_filter. rewrite Hv. split; reflexivity.
  - intros Hnone. unfold clear_filter, set_filter. cbn [filters].
    rewrite lookup_insert_eq. cbn [filters].
    rewrite delete_insert_eq. apply delete_id, Hnone.
  - split; reflexivity.
  - intros Hps self1 Hself1.
    assert (current_page self1 = 1 /\ self_page_size self1 = self_page_size self)
      as [Hc Hsz].
    { destruct Hself1 as [-> | [-> | [[v Hv] ->]]]; try (split; reflexivity).
      unfold clear_filter. rewrite Hv. split; reflexivity. }
    rewrite get_page_None_eq by (rewrite Hsz; exact Hps). cbn zeta.
    rewrite Hc.
    set (tp := page_count _ _).
    assert (1 <= tp) as Htp by (subst tp; unfold page_count; lia).
    destruct (Z.gtb_spec 1 tp) as [? | _]; [lia |].
    eexists _, _. split; [reflexivity |]. split; reflexivity.
Qed.

End WindowFacts.

Section WindowSamples.
Import Paginator.
Local Open Scope Z_scope.

Lemma list_source_pages_tile_sample :
  0 < 20 /\
  concat (map (fun p => fst (list_source Samples.items45 (Z.of_nat p) 20 tt))
              (seq 1 (Z.to_nat (page_count 45 20))))
    = Samples.items45.
Proof.
  split; [reflexivity |].
  apply (list_source_pages_tile Samples.items45 20). reflexivity.
Defined.

Lemma filters_reset_sample :
  clear_filter Samples.pager45_filtered "has_creds" = Samples.pager45_filtered /\
  current_page (clear_filter Samples.pager45_filtered "has_shares") = 1 /\
  exists self' r,
    get_page (set_filter Samples.pager45_filtered "has_creds" (PBool true)) None
      = Ok (self', r) /\
    page r = 1.
Proof.
  destruct (filters_reset_to_first_page Samples.pager45_filtered "has_creds"
              (PBool true)) as (_ & Habsent & _ & _ & _ & Hget).
  destruct (filters_reset_to_first_page Samples.pager45_filtered "has_shares"
              (PBool true)) as (_ & _ & Hpresent & _).
  split; [apply Habsent; reflexivity |].
  split; [apply Hpresent; eexists; reflexivity |].
  destruct (Hget ltac:(discriminate) _ (or_introl eq_refl))
    as (self' & r & Heq & Hp & _).
  exists self', r. split; assumption.
Defined.
End WindowSamples.

(** ** Column visibility at every width *)

Section SortedOrderFacts.
Context {A : Type} (le : A -> A -> bool).
Hypothesis le_trans : forall x y z, le x y = true -> le y z = true -> le x z = true.

Lemma in_order_head (x : A) (l : list A) :
  in_order le (x :: l) = true -> forall y, y ∈ l -> le x y = true.
Proof.
  revert x. induction l as [| z l IH]; intros x Hl y Hy.
  - apply elem_of_nil in Hy. contradiction.
  - cbn [in_order] in Hl. apply andb_true_iff in Hl as [Hxz Hl].
    apply elem_of_cons in Hy as [-> | Hy]; [exact Hxz |].
    eapply le_trans; [exact Hxz |]. apply (IH z Hl y Hy).
Qed.

(** In a list that is in order, whatever is in a prefix is below whatever
    comes after the prefix. *)
Lemma in_order_take_drop (l : list A) (k : nat) (c d : A) :
  in_order le l = true -> c ∈ take k l -> d ∈ drop k l -> le c d = true.
Proof.
  revert k. induction l as [| x l IH]; intros k Hl Hc Hd.
  - rewrite take_nil in Hc. apply elem_of_nil in Hc. contradiction.
  - destruct k as [| k]; [apply elem_of_nil in Hc; contradiction |].
    cbn [take drop] in Hc, Hd. apply elem_of_cons in Hc as [-> | Hc].
    + apply (in_order_head _ _ Hl). apply (subseteq_drop k l d Hd).
    + apply (IH k); [eapply in_order_tail, Hl | assumption | assumption].
Qed.
End SortedOrderFacts.

Section VisibleColumnsFacts.
Import Responsive.
Local Open Scope Z_scope.

Lemma priority_le_trans c d e :
  priority_le c d = true -> priority_le d e = true -> priority_le c e = true.
Proof. unfold priority_le. rewrite !Z.leb_le. lia. Qed.

(** What the loop returns from a list that is not empty: the list itself,
    or a proper prefix of the ranked list that is not empty; every longer
    prefix is too wide. *)
Lemma shrink_general (w : Z) (l : list ResponsiveColumn) :
  l <> [] ->
  exists k,
    (1 <= k <= length l)%nat /\
    (shrink (length l) w l = l /\ k = length l \/
     shrink (length l) w l = take k (py_sorted priority_le l) /\
     (k < length l)%nat) /\
    forall i, (k < i <= length l)%nat ->
              w - 6 < total_width (take i (py_sorted priority_le l)).
Proof.
  intros Hne.
  assert (1 <= length l)%nat as Hn1 by (destruct l; [congruence | cbn; lia]).
  pose proof (py_sorted_in_order priority_le priority_le_total l) as Hs.
  pose proof (length_py_sorted priority_le l) as Hlen.
  pose proof (total_width_perm _ _ (py_sorted_perm priority_le l)) as Htw.
  destruct (still_too_wide w l) eqn:Hw.
  - assert ((2 <= length l)%nat /\ w - 6 < total_width l) as [Hn Hwide].
    { unfold still_too_wide in Hw. apply andb_true_iff in Hw as [Hw1 Hw2].
      apply Z.gtb_lt in Hw1, Hw2. lia. }
    destruct (length l) as [| n] eqn:En; [lia |].
    cbn [shrink]. rewrite Hw. unfold drop_lowest.
    rewrite removelast_firstn_len, Hlen. cbn [Nat.pred].
    destruct (shrink_ranked w _ Hs n n ltac:(lia) ltac:(lia))
      as (k & Hk & Hk1 & Heq & Hstop & Hall).
    exists k. split; [lia |]. split; [right; split; [exact Heq | lia] |].
    intros i Hi. destruct (decide (i = S n)) as [-> | Hne'].
    + rewrite firstn_all2 by lia. lia.
    + specialize (Hall i ltac:(lia)). unfold still_too_wide in Hall.
      apply andb_true_iff in Hall as [Hall _]. apply Z.gtb_lt in Hall. lia.
  - exists (length l). split; [lia |].
    split; [left; split; [apply shrink_fits, Hw | reflexivity] |].
    intros i Hi. lia.
Qed.

(** At every width the visible columns are columns of the table from the
    tiers the width admits, and they fit in the width less 6 unless at most
    one column is left. *)
Theorem visible_columns_fit_or_single (columns : list ResponsiveColumn) (w : Z) :
  (forall c, c ∈ get_visible_columns columns w ->
             c ∈ columns /\ priority c <= max_priority_for w) /\
  (total_width (get_visible_columns columns w) <= w - 6 \/
   (length (get_visible_columns columns w) <= 1)%nat).
Proof.
  unfold get_visible_columns. split.
  - intros c Hc. apply shrink_subset in Hc.
    apply list_elem_of_filter in Hc. tauto.
  - apply still_too_wide_false, shrink_exits.
Qed.

(** When the width admits some column, some column is visible: the first
    of the admitted columns in the ranking by priority is never dropped. *)
Theorem visible_columns_keep_the_first (columns : list ResponsiveColumn) (w : Z)
    (c : ResponsiveColumn) :
  let admitted := filter (fun c => priority c <= max_priority_for w) columns in
  head (py_sorted priority_le admitted) = Some c ->
  c ∈ get_visible_columns columns w.
Proof.
  intros admitted Hhead. unfold get_visible_columns. fold admitted.
  assert (admitted <> []) as Hne.
  { intros Hnil. rewrite Hnil in Hhead. discriminate. }
  assert (c ∈ py_sorted priority_le admitted) as Hin.
  { destruct (py_sorted priority_le admitted); [discriminate |].
    injection Hhead as ->. apply list_elem_of_here. }
  destruct (shrink_general w admitted Hne) as (k & Hk & [[-> _] | [-> _]] & _).
  - rewrite <- (py_sorted_perm priority_le admitted). exact Hin.
  - destruct (py_sorted priority_le admitted) as [| x ranked]; [discriminate |].
    injection Hhead as ->. destruct k as [| k]; [lia |]. apply list_elem_of_here.
Qed.

(** A column is hidden only in favour of columns that rank at least as
    high: every visible column has a priority number at most that of every
    admitted column that is not visible. *)
Theorem hidden_columns_rank_lower (columns : list ResponsiveColumn) (w : Z)
    (c d : ResponsiveColumn) :
  c ∈ get_visible_columns columns w ->
  d ∈ columns -> priority d <= max_priority_for w ->
  d ∉ get_visible_columns columns w ->
  priority c <= priority d.
Proof.
  unfold get_visible_columns.
  set (admitted := filter (fun c => priority c <= max_priority_for w) columns).
  intros Hc Hd Hdp Hdv.
  assert (d ∈ admitted) as Hda by (apply list_elem_of_filter; tauto).
  assert (admitted <> []) as Hne.
  { intros Hnil. rewrite Hnil in Hda. apply elem_of_nil in Hda. contradiction. }
  destruct (shrink_general w admitted Hne) as (k & Hk & [[Heq _] | [Heq _]] & _);
    rewrite Heq in Hc, Hdv; [contradiction |].
  pose proof (py_sorted_in_order priority_le priority_le_total admitted) as Hs.
  assert (d ∈ drop k (py_sorted priority_le admitted)) as Hdd.
  { rewrite <- (py_sorted_perm priority_le admitted) in Hda.
    rewrite <- (take_drop k (py_sorted priority_le admitted)) in Hda.
    apply elem_of_app in Hda as [? | ?]; [contradiction | assumption]. }
  apply Z.leb_le.
  apply (in_order_take_drop priority_le priority_le_trans _ k c d Hs Hc Hdd).
Qed.

Lemma total_width_app l1 l2 :
  total_width (l1 ++ l2) = total_width l1 + total_width l2.
Proof.
  unfold total_width, sum_Z. rewrite map_app, foldr_app, length_app.
  induction (map width_or_10 l1) as [| x xs IH]; cbn in *; lia.
Qed.

Lemma total_width_nonneg l :
  (forall c, c ∈ l -> 0 <= width_or_10 c) -> 0 <= total_width l.
Proof.
  induction l as [| c l IH]; intros H; [unfold total_width; cbn; lia |].
  change (c :: l) with ([c] ++ l). rewrite total_width_app.
  assert (0 <= total_width l) by (apply IH; intros x Hx; apply H; set_solver).
  assert (0 <= width_or_10 c) by (apply H; set_solver).
  unfold total_width at 1. cbn. lia.
Qed.

Lemma filter_all (P : ResponsiveColumn -> Prop) `{forall c, Decision (P c)}
    (l : list ResponsiveColumn) :
  (forall c, c ∈ l -> P c) -> filter P l = l.
Proof.
  induction l as [| c l IH]; intros Hall; [reflexivity |].
  rewrite filter_cons_True by (apply Hall; set_solver).
  f_equal. apply IH. intros x Hx. apply Hall. set_solver.
Qed.

Lemma fitting_tier_visible (columns : list ResponsiveColumn) (w p : Z)
    (c : ResponsiveColumn) :
  (forall x, x ∈ columns -> 0 <= width_or_10 x) ->
  let admitted := filter (fun x => priority x <= max_priority_for w) columns in
  total_width (filter (fun x => priority x <= p) admitted) <= w - 6 ->
  c ∈ admitted -> priority c <= p ->
  c ∈ get_visible_columns columns w.
Proof.
  intros Hpos admitted Hfit Hc Hcp. unfold get_visible_columns. fold admitted.
  assert (admitted <> []) as Hne.
  { intros Hnil. rewrite Hnil in Hc. apply elem_of_nil in Hc. contradiction. }
  set (ranked := py_sorted priority_le admitted).
  pose proof (py_sorted_in_order priority_le priority_le_total admitted) as Hs.
  pose proof (py_sorted_perm priority_le admitted) as Hperm.
  fold ranked in Hs, Hperm.
  destruct (shrink_general w admitted Hne) as (k & Hk & [[-> _] | [-> Hkn]] & Hall);
    [exact Hc |].
  fold ranked in Hall |- *.
  destruct (decide (c ∈ take k ranked)) as [Hin | Hout]; [exact Hin |].
  exfalso.
  assert (c ∈ drop k ranked) as Hdrop.
  { rewrite <- Hperm, <- (take_drop k ranked) in Hc.
    apply elem_of_app in Hc as [? | ?]; [contradiction | assumption]. }
  apply list_elem_of_lookup in Hdrop as (j & Hj). rewrite lookup_drop in Hj.
  pose proof (lookup_lt_Some _ _ _ Hj) as Hlt.
  assert (length ranked = length admitted) as Hlen
    by (apply length_py_sorted).
  set (m := S (k + j)).
  specialize (Hall m ltac:(subst m; lia)).
  assert (forall x, x ∈ take m ranked -> priority x <= p) as Hsmall.
  { intros x Hx. subst m. rewrite (take_S_r _ _ _ Hj) in Hx.
    apply elem_of_app in Hx as [Hx | Hx].
    - assert (c ∈ drop (k + j) ranked) as Hcd.
      { apply list_elem_of_lookup. exists 0%nat. rewrite lookup_drop.
        rewrite Nat.add_0_r. exact Hj. }
      pose proof (in_order_take_drop priority_le priority_le_trans
                    ranked (k + j) x c Hs Hx Hcd) as Hle.
      apply Z.leb_le in Hle. lia.
    - apply list_elem_of_singleton in Hx. subst x. exact Hcp. }
  assert (total_width (take m ranked)
          <= total_width (filter (fun x => priority x <= p) ranked)) as Hle.
  { rewrite <- (take_drop m ranked) at 2. rewrite filter_app, total_width_app.
    rewrite (filter_all _ _ Hsmall).
    assert (0 <= total_width (filter (fun x => priority x <= p) (drop m ranked))).
    { apply total_width_nonneg. intros x Hx. apply Hpos.
      apply list_elem_of_filter in Hx as [_ Hx].
      apply subseteq_drop in Hx. rewrite Hperm in Hx.
      apply list_elem_of_filter in Hx. tauto. }
    lia. }
  assert (total_width (filter (fun x => priority x <= p) ranked)
          = total_width (filter (fun x => priority x <= p) admitted)) as Heq.
  { apply total_width_perm. rewrite Hperm. reflexivity. }
  lia.
Qed.

(** Columns of no negative width: when the admitted columns of priority
    number at most [p] fit together in the width less 6, every one of them
    is visible.  With [p] the critical tier: the critical columns are never
    hidden while they fit by themselves. *)
Theorem fitting_tier_is_kept (columns : list ResponsiveColumn) (w p : Z)
    (c : ResponsiveColumn) :
  (forall x, x ∈ columns -> 0 <= width_or_10 x) ->
  let admitted := filter (fun x => priority x <= max_priority_for w) columns in
  total_width (filter (fun x => priority x <= p) admitted) <= w - 6 ->
  c ∈ admitted -> priority c <= p ->
  c ∈ get_visible_columns columns w.
Proof. exact (fitting_tier_visible columns w p c). Qed.

(** On the hosts page the two critical columns are visible whenever the
    terminal is at least 60 wide, the least width the dashboard runs in. *)
Theorem hosts_page_critical_visible (w : Z) :
  60 <= w ->
  Column "IP" "ip" None PRIORITY_CRITICAL
    ∈ get_visible_columns Samples.hosts_page_columns w /\
  Column "Hostname" "hostname" None PRIORITY_CRITICAL
    ∈ get_visible_columns Samples.hosts_page_columns w.
Proof.
  intros Hw.
  assert (forall x, x ∈ Samples.hosts_page_columns -> 0 <= width_or_10 x) as Hpos.
  { intros x Hx. unfold Samples.hosts_page_columns in Hx.
    repeat (apply elem_of_cons in Hx as [-> | Hx]; [vm_compute; discriminate |]).
    apply elem_of_nil in Hx. contradiction. }
  assert (1 <= max_priority_for w) as Hmax.
  { unfold max_priority_for.
    repeat (match goal with |- context [if ?b then _ else _] => destruct b end);
      vm_compute; discriminate. }
  assert (total_width
            (filter (fun x => priority x <= PRIORITY_CRITICAL)
               (filter (fun x => priority x <= max_priority_for w)
                  Samples.hosts_page_columns)) <= w - 6) as Hfit.
  { unfold Samples.hosts_page_columns.
    rewrite !filter_cons, filter_nil. cbn [priority].
    unfold PRIORITY_MEDIUM, PRIORITY_CRITICAL, PRIORITY_LOW, PRIORITY_HIGH in *.
    repeat case_decide; try lia;
      rewrite ?filter_cons, ?filter_nil; cbn [priority];
      repeat case_decide; try lia; unfold total_width; cbn; lia. }
  split; apply (fitting_tier_visible _ w PRIORITY_CRITICAL _ Hpos Hfit);
    try (vm_compute; discriminate);
    apply list_elem_of_filter; (split; [cbn; exact Hmax | set_solver]).
Qed.
End VisibleColumnsFacts.

Section VisibleColumnsSamples.
Import Responsive.
Local Open Scope Z_scope.

Lemma visible_columns_keep_the_first_sample :
  Column "IP" "ip" (Some 15) PRIORITY_CRITICAL ∈ get_visible_columns HOSTS_COLUMNS 70.
Proof.
  apply (visible_columns_keep_the_first HOSTS_COLUMNS 70). reflexivity.
Defined.

Lemma hidden_columns_rank_lower_sample :
  priority (Column "Host" "host" (Some 15) PRIORITY_CRITICAL)
  <= priority (Column "Path" "path" (Some 60) PRIORITY_MEDIUM).
Proof.
  apply (hidden_columns_rank_lower Samples.wide_columns 150).
  - vm_compute. apply list_elem_of_here.
  - vm_compute. do 3 apply list_elem_of_further. apply list_elem_of_here.
  - vm_compute. discriminate.
  - vm_compute. intros Hin.
    repeat (apply elem_of_cons in Hin as [Heq | Hin]; [discriminate Heq |]).
    apply elem_of_nil in Hin. exact Hin.
Defined.

Lemma fitting_tier_is_kept_sample :
  Column "IP" "ip" None PRIORITY_CRITICAL
    ∈ get_visible_columns Samples.hosts_page_columns 60.
Proof.
  apply (fitting_tier_is_kept Samples.hosts_page_columns 60 PRIORITY_CRITICAL).
  - intros x Hx. unfold Samples.hosts_page_columns in Hx.
    repeat (apply elem_of_cons in Hx as [-> | Hx]; [vm_compute; discriminate |]).
    apply elem_of_nil in Hx. contradiction.
  - vm_compute. discriminate.
  - vm_compute. apply list_elem_of_here.
  - vm_compute. discriminate.
Defined.

Lemma hosts_page_critical_visible_sample :
  Column "IP" "ip" None PRIORITY_CRITICAL
    ∈ get_visible_columns Samples.hosts_page_columns 60 /\
  Column "Hostname" "hostname" None PRIORITY_CRITICAL
    ∈ get_visible_columns Samples.hosts_page_columns 60.
Proof. apply (hosts_page_critical_visible 60). lia. Defined.
End VisibleColumnsSamples.

(** ** Protocol selection *)

Section ProtocolSelectionFacts.
Import CommandBuilder.
Local Open Scope Z_scope.




(** The operations keep [available_protocols] as [reset] sets it. *)
Lemma available_protocols_kept (self : t) :
  available_protocols self = map fst PROTOCOLS ->
  (forall origin, available_protocols (start_selection self origin) = map fst PROTOCOLS) /\
  (forall host, available_protocols (set_host self host) = map fst PROTOCOLS) /\
  (forall user, available_protocols (set_user self user) = map fst PROTOCOLS) /\
  (forall p, available_protocols (select_protocol self p) = map fst PROTOCOLS) /\
  (forall key self' b,
      handle_protocol_key self key = Ok (self', b) ->
      available_protocols self' = map fst PROTOCOLS).
Proof.
  intros Hav. split; [reflexivity |]. split; [intros host; exact Hav |].
  split; [intros user; exact Hav |]. split; [intros p; exact Hav |].
  intros key self' b. unfold handle_protocol_key.
  destruct (get_available_protocols self) as [available | e]; [| discriminate].
  cbn. destruct available as [| a available]; [intros [= <- _]; exact Hav |].
  repeat (match goal with
          | |- context [if ?c then _ else _] => destruct c
          end); try (intros [= <- _]; exact Hav).
  destruct (py_getitem _ _); cbn; [intros [= <- _]; exact Hav | discriminate].
Qed.












(** A selection started from one list asks for the other list next and for
    the protocol last; starting again drops whatever was selected before. *)
Theorem selection_flow (self : t) (origin : string)
    (host user : gmap string pyval) :
  let s0 := start_selection self origin in
  (selected_host s0 = None /\ selected_user s0 = None /\
   selected_protocol s0 = None /\ protocol_index s0 = 0 /\
   available_protocols s0 = map fst PROTOCOLS /\ is_active s0 = true) /\
  (origin = "hosts" ->
     state s0 = st_select_host /\
     state (set_host s0 host) = st_select_user /\
     state (set_user (set_host s0 host) user) = st_select_protocol) /\
  (origin = "users" ->
     state s0 = st_select_user /\
     state (set_user s0 user) = st_select_host /\
     state (set_host (set_user s0 user) host) = st_select_protocol) /\
  selected_host (set_user (set_host s0 host) user) = Some host /\
  selected_user (set_user (set_host s0 host) user) = Some user /\
  selected_host (set_host (set_user s0 user) host) = Some host /\
  selected_user (set_host (set_user s0 user) host) = Some user.
Proof.
  cbn zeta. split; [| split; [| split]].
  - unfold start_selection. cbn. repeat split.
    destruct (String.eqb origin "hosts"); reflexivity.
  - intros ->. repeat split.
  - intros ->. repeat split.
  - repeat split.
Qed.

Lemma selection_flow_sample :
  state (set_user (set_host (start_selection init "hosts") Samples.hostA)
                  Samples.credB) = st_select_protocol /\
  state (set_host (set_user (start_selection init "users") Samples.credB)
                  Samples.hostA) = st_select_protocol.
Proof.
  split.
  - apply (proj1 (proj2 (selection_flow init "hosts" Samples.hostA Samples.credB))).
    reflexivity.
  - apply (proj1 (proj2 (proj2
             (selection_flow init "users" Samples.hostA Samples.credB)))).
    reflexivity.
Defined.

Lemma py_join_nxc (protocol : string) (tail : list pyval) (strs : list string) :
  all_str tail = Ok strs ->
  exists cmd,
    py_join " " (PStr "nxc" :: PStr protocol :: tail) = Ok cmd /\
    (cmd = "" \/
     exists p rest, Some protocol = Some p /\ cmd = ("nxc " +:+ p +:+ rest)%string).
Proof.
  intros Htail. unfold py_join. cbn [all_str as_str]. cbn [mbind result_bind rbind].
  rewrite Htail. cbn [mbind result_bind rbind].
  eexists. split; [reflexivity |]. right. exists protocol.
  destruct strs as [| x strs].
  - exists "". split; [reflexivity |]. rewrite string_app_empty_r. reflexivity.
  - exists (" " +:+ String.concat " " (x :: strs))%string. split; reflexivity.
Qed.

(** On a host whose address is text or NULL and a credential whose user
    name and secret are text or NULL, the command is built without an
    error, and it is empty or starts with the tool name and the selected
    protocol. *)
Theorem build_command_returns_on_text_fields (self : t) :
  (forall host, selected_host self = Some host ->
     DashboardDB.str_or_none (dict_get host "ip" (PStr "")) = true) ->
  (forall user, selected_user self = Some user ->
     DashboardDB.str_or_none (dict_get user "username" (PStr "")) = true /\
     DashboardDB.str_or_none (dict_get user "password" (PStr "")) = true) ->
  exists cmd,
    build_command self = Ok cmd /\
    (cmd = "" \/
     exists p rest, selected_protocol self = Some p /\ cmd = ("nxc " +:+ p +:+ rest)%string).
Proof.
  intros Hhost Huser. unfold build_command.
  destruct (negb (dict_truthy (selected_host self) &&
                  str_truthy (selected_protocol self)));
    [exists ""; split; [reflexivity | left; reflexivity] |].
  destruct (selected_host self) as [host |];
    [| exists ""; split; [reflexivity | left; reflexivity]].
  destruct (selected_protocol self) as [protocol |];
    [| exists ""; split; [reflexivity | left; reflexivity]].
  specialize (Hhost host eq_refl).
  destruct (dict_get host "ip" (PStr "")) as [| ip | |]; try discriminate Hhost;
    cbn [truthy];
    [| destruct (negb (String.eqb ip ""))];
    (destruct (selected_user self) as [user |];
     [| cbn [app]; eapply py_join_nxc; reflexivity]);
    destruct (Huser user eq_refl) as [Hname Hsecret];
    (destruct (dict_truthy (Some user));
     [| cbn [app]; eapply py_join_nxc; reflexivity]);
    destruct (dict_get user "username" (PStr "")) as [| username | |];
    try discriminate Hname;
    destruct (dict_get user "password" (PStr "")) as [| secret | |];
    try discriminate Hsecret;
    cbn [truthy andb];
    rewrite ?andb_false_r;
    repeat match goal with
           | |- context [if ?b then _ else _] => destruct b
           end;
    cbn [app]; eapply py_join_nxc; reflexivity.
Qed.

Lemma build_command_returns_sample :
  exists cmd,
    build_command
      (Samples.builder_with (Some Samples.hostA) (Some Samples.credB_no_secret)
         (Some "smb")) = Ok cmd /\
    (cmd = "" \/ exists p rest, Some "smb" = Some p /\ cmd = ("nxc " +:+ p +:+ rest)%string).
Proof.
  apply (build_command_returns_on_text_fields
           (Samples.builder_with (Some Samples.hostA)
              (Some Samples.credB_no_secret) (Some "smb"))).
  - intros host Hh. injection Hh as <-. reflexivity.
  - intros user Hu. injection Hu as <-. split; reflexivity.
Defined.
End ProtocolSelectionFacts.

(** ** Deltas and shutdown, in general *)

Section RegistryMoreFacts.
Import DashboardDB.
Local Open Scope Z_scope.

(** Two requests in a row: the second delta of a category is its count
    less the count of the first request, and 0 for a category the first
    request did not have; the same counts twice give deltas of 0. *)
Theorem get_diff_counts_successive (self : t) (first second : gmap string Z)
    (key : string) :
  let self1 := fst (get_diff_counts self first) in
  snd (get_diff_counts self1 second) !! key
    = (fun n => n - default n (first !! key)) <$> second !! key /\
  snd (get_diff_counts self1 first) !! key = (fun _ => 0) <$> first !! key.
Proof.
  cbn zeta. unfold get_diff_counts. cbn [fst snd _last_counts].
  rewrite !map_lookup_imap. split.
  - destruct (second !! key) as [n |]; cbn; [| reflexivity].
    destruct (first !! key); reflexivity.
  - destruct (first !! key) as [n |]; cbn; [| reflexivity].
    f_equal. lia.
Qed.

End RegistryMoreFacts.

Section RegistryMoreSamples.
Import DashboardDB.

End RegistryMoreSamples.

(** ** Listings *)

Section ListingFacts.
Import DashboardDB.
Local Open Scope Z_scope.

Lemma execute_query_ok (self : t) (protocol query : string)
    (params : option (gmap string pyval)) :
  exists rows, fst (_execute_query self protocol query params) = Ok rows.
Proof.
  unfold _execute_query.
  destruct (od_lookup protocol (engines self)) as [engine |]; [| eexists; reflexivity].
  destruct (connect engine) as [conn | e]; cbn; [| eexists; reflexivity].
  destruct (params_truthy params);
    destruct (execute conn query _); cbn; eexists; reflexivity.
Qed.

(** The access label of a share is one of four, and each label passes
    exactly one of the three filters. *)
Lemma share_label (s : gmap string pyval) :
  let a := share_access (share_of s) in
  let r := truthy (dict_get s "read" PNone) in
  let w := truthy (dict_get s "write" PNone) in
  a = (if r then if w then "READ, WRITE" else "READ"
       else if w then "WRITE" else "NO ACCESS")%string /\
  str_contains "READ" a && negb (str_contains "WRITE" a) = r && negb w /\
  str_contains "WRITE" a = w /\
  String.eqb a "NO ACCESS" = negb r && negb w.
Proof.
  cbn zeta. unfold share_of, access_of. cbn [share_access].
  destruct (truthy (dict_get s "read" PNone)),
           (truthy (dict_get s "write" PNone)); vm_compute; repeat split.
Qed.

Lemma length_filter_split {A : Type} (p q r : A -> bool) (l : list A) :
  (forall x, In x l ->
     (p x = true /\ q x = false /\ r x = false) \/
     (p x = false /\ q x = true /\ r x = false) \/
     (p x = false /\ q x = false /\ r x = true)) ->
  Z.of_nat (length l) =
    Z.of_nat (length (List.filter p l)) + Z.of_nat (length (List.filter q l))
    + Z.of_nat (length (List.filter r l)).
Proof.
  induction l as [| x l IH]; intros Hone; [reflexivity |].
  specialize (IH (fun y Hy => Hone y (or_intror Hy))).
  destruct (Hone x (or_introl eq_refl)) as [(Hp & Hq & Hr) | [(Hp & Hq & Hr) | (Hp & Hq & Hr)]];
    cbn [List.filter]; rewrite Hp, Hq, Hr; cbn [length]; lia.
Qed.

Lemma filter_read_only (l : list Share) :
  filter_shares {[ "read_only" := PBool true ]} l
    = List.filter (fun s => str_contains "READ" (share_access s)
                            && negb (str_contains "WRITE" (share_access s))) l.
Proof. reflexivity. Qed.

Lemma filter_write (l : list Share) :
  filter_shares {[ "write" := PBool true ]} l
    = List.filter (fun s => str_contains "WRITE" (share_access s)) l.
Proof. reflexivity. Qed.

Lemma filter_no_access (l : list Share) :
  filter_shares {[ "no_access" := PBool true ]} l
    = List.filter (fun s => String.eqb (share_access s) "NO ACCESS") l.
Proof. reflexivity. Qed.

Lemma shares_partition (rows : list (gmap string pyval)) :
  Z.of_nat (length (map share_of rows)) =
    Z.of_nat (length (filter_shares {[ "read_only" := PBool true ]} (map share_of rows)))
    + Z.of_nat (length (filter_shares {[ "write" := PBool true ]} (map share_of rows)))
    + Z.of_nat (length (filter_shares {[ "no_access" := PBool true ]} (map share_of rows))).
Proof.
  rewrite filter_read_only, filter_write, filter_no_access.
  apply length_filter_split. intros x Hx.
  apply in_map_iff in Hx as (s & <- & _).
  destruct (share_label s) as (_ & Hro & Hw & Hna).
  rewrite Hro, Hw, Hna.
  destruct (truthy (dict_get s "read" PNone)),
           (truthy (dict_get s "write" PNone)); cbn; tauto.
Qed.

(** [get_shares] never raises; without an [smb] store or a [shares] table,
    and when the query fails, the listing is empty; and the three filters
    part the shares: the totals under [read_only], [write] and [no_access]
    add up to the total without a filter. *)
Theorem share_filters_partition (get_table_names : Engine -> result (list string))
    (self : t) (page size : Z) :
  exists p0 p1 p2 p3 total ro w na,
    get_shares get_table_names self page size None = Ok (p0, total) /\
    get_shares get_table_names self page size
      (Some {[ "read_only" := PBool true ]}) = Ok (p1, ro) /\
    get_shares get_table_names self page size
      (Some {[ "write" := PBool true ]}) = Ok (p2, w) /\
    get_shares get_table_names self page size
      (Some {[ "no_access" := PBool true ]}) = Ok (p3, na) /\
    total = ro + w + na /\
    (has_engine self "smb" = false \/
     _table_exists get_table_names self "smb" "shares" = false \/
     (exists engine e, od_lookup "smb" (engines self) = Some engine /\
                       connect engine = Raise e) ->
     p0 = [] /\ total = 0).
Proof.
  unfold get_shares.
  destruct (negb (has_engine self "smb")
            || negb (_table_exists get_table_names self "smb" "shares")) eqn:Hguard.
  - exists [], [], [], [], 0, 0, 0, 0. repeat split; reflexivity.
  - destruct (execute_query_ok self "smb" SHARES_QUERY None) as (rows & Hq).
    rewrite Hq.
    cbn [mbind result_bind rbind filters_or_empty]. unfold page_of.
    eexists _, _, _, _, _, _, _, _.
    split; [reflexivity |]. split; [reflexivity |]. split; [reflexivity |].
    split; [reflexivity |]. split.
    + apply shares_partition.
    + apply orb_false_iff in Hguard as [H1 H2].
      apply negb_false_iff in H1, H2.
      intros [H | [H | (engine & e & Hl & Hc)]]; [congruence | congruence |].
      unfold _execute_query in Hq. rewrite Hl, Hc in Hq. cbn in Hq.
      injection Hq as <-. split; [| reflexivity].
      change (filter_shares ∅ (map share_of [])) with (@nil Share).
      unfold py_slice. rewrite drop_nil, take_nil. reflexivity.
Qed.

Lemma share_access_tally_from (rows : list (gmap string pyval)) (acc : ShareAccess) :
  foldl share_access_step acc rows =
    mkShareAccess
      (sa_read acc + Z.of_nat (length (filter_shares {[ "read_only" := PBool true ]}
                                         (map share_of rows))))
      (sa_write acc + Z.of_nat (length (filter_shares {[ "write" := PBool true ]}
                                          (map share_of rows))))
      (sa_none acc + Z.of_nat (length (filter_shares {[ "no_access" := PBool true ]}
                                         (map share_of rows)))).
Proof.
  rewrite filter_read_only, filter_write, filter_no_access.
  revert acc. induction rows as [| s rows IH]; intros [r w n].
  - cbn. f_equal; lia.
  - cbn [foldl map List.filter]. rewrite IH.
    destruct (share_label s) as (_ & Hro & Hw & Hna).
    rewrite Hro, Hw, Hna. unfold share_access_step.
    destruct (truthy (dict_get s "read" PNone)),
             (truthy (dict_get s "write" PNone));
      cbn [negb andb sa_read sa_write sa_none length]; f_equal; lia.
Qed.

(** The share tally of the analytics counts what the three filters of the
    shares page list: [write] the shares under the [write] filter, [read]
    those under [read_only], [none] those under [no_access]; the three
    counts add up to the number of rows. *)
Theorem share_access_tally_agrees (rows : list (gmap string pyval)) :
  let shares := map share_of rows in
  sa_read (share_access_tally rows)
    = Z.of_nat (length (filter_shares {[ "read_only" := PBool true ]} shares)) /\
  sa_write (share_access_tally rows)
    = Z.of_nat (length (filter_shares {[ "write" := PBool true ]} shares)) /\
  sa_none (share_access_tally rows)
    = Z.of_nat (length (filter_shares {[ "no_access" := PBool true ]} shares)) /\
  sa_read (share_access_tally rows) + sa_write (share_access_tally rows)
    + sa_none (share_access_tally rows) = Z.of_nat (length rows).
Proof.
  cbn zeta. unfold share_access_tally. rewrite share_access_tally_from.
  cbn [sa_read sa_write sa_none]. repeat split; try lia.
  pose proof (shares_partition rows) as Hp. rewrite length_map in Hp. lia.
Qed.
End ListingFacts.

Section CheckFacts.
Import DashboardDB.
Local Open Scope Z_scope.

Lemma check_result_two (r : gmap string pyval) :
  check_result (check_of r) = "PASS"%string \/
  check_result (check_of r) = "FAIL"%string.
Proof.
  unfold check_of. cbn [check_result].
  destruct (truthy (dict_get r "secure" PNone)); [left | right]; reflexivity.
Qed.

Lemma filter_checks_results (filters : gmap string pyval) (l : list Check) :
  Forall (fun c => check_result c = "PASS"%string \/
                   check_result c = "FAIL"%string) l ->
  Forall (fun c => check_result c = "PASS"%string \/
                   check_result c = "FAIL"%string) (filter_checks filters l) /\
  (truthy (dict_get filters "pass" PNone) = true ->
   Forall (fun c => check_result c = "PASS"%string) (filter_checks filters l)) /\
  (truthy (dict_get filters "pass" PNone) = false ->
   truthy (dict_get filters "fail" PNone) = true ->
   Forall (fun c => check_result c = "FAIL"%string) (filter_checks filters l)).
Proof.
  intros Hl. unfold filter_checks.
  assert (forall p, Forall (fun c => check_result c = "PASS"%string \/
                                     check_result c = "FAIL"%string)
                           (List.filter p l)) as Hsub.
  { intros p. apply List.Forall_forall. intros c Hc.
    apply filter_In in Hc as [Hc _].
    rewrite List.Forall_forall in Hl. apply Hl, Hc. }
  assert (forall res, Forall (fun c => check_result c = res)
                        (List.filter (fun c => String.eqb (check_result c) res) l))
    as Hres.
  { intros res. apply List.Forall_forall. intros c Hc.
    apply filter_In in Hc as [_ Hc]. apply String.eqb_eq, Hc. }
  destruct (truthy (dict_get filters "pass" PNone)).
  - split; [apply Hsub |]. split; [intros _; apply Hres | discriminate].
  - destruct (truthy (dict_get filters "fail" PNone)).
    + split; [apply Hsub |]. split; [discriminate | intros _ _; apply Hres].
    + split; [exact Hl |]. split; discriminate.
Qed.

Lemma summary_from (l : list Check) (acc : Summary) :
  Forall (fun c => check_result c = "PASS"%string \/
                   check_result c = "FAIL"%string) l ->
  let s := foldl summary_step acc l in
  summary_warn s = summary_warn acc /\
  summary_pass acc <= summary_pass s /\
  summary_fail acc <= summary_fail s /\
  summary_pass s + summary_fail s
    = summary_pass acc + summary_fail acc + Z.of_nat (length l) /\
  (Forall (fun c => check_result c = "PASS"%string) l ->
   summary_fail s = summary_fail acc) /\
  (Forall (fun c => check_result c = "FAIL"%string) l ->
   summary_pass s = summary_pass acc).
Proof.
  intros Hl. revert acc. induction Hl as [| c l Hc _ IH]; intros acc; cbn zeta.
  - cbn. repeat split; lia.
  - cbn [foldl]. specialize (IH (summary_step acc c)). cbn zeta in IH.
    destruct IH as (Hw & Hp & Hf & Hsum & Hallp & Hallf).
    unfold summary_step in *.
    destruct Hc as [Hc | Hc]; rewrite Hc in *; cbn [String.eqb Ascii.eqb] in *;
      cbn in Hw, Hp, Hf, Hsum, Hallp, Hallf |- *;
      (split; [exact Hw |]); (split; [lia |]); (split; [lia |]);
      (split; [lia |]); split; intros Hall;
      apply Forall_cons in Hall as [Hhead Hall];
      try (rewrite Hc in Hhead; discriminate Hhead);
      first [rewrite (Hallp Hall) | rewrite (Hallf Hall)]; reflexivity.
Qed.

(** [get_wcc_checks] never raises.  It returns a pair, empty, exactly when
    there is no [smb] store or one of the two tables is missing, and a
    triple otherwise, whose summary counts the checks that passed the
    filter: no warning is ever counted, the passes and the failures add up
    to the total, and the filter [pass] leaves no failure, the filter
    [fail] no pass. *)
Theorem wcc_summary_counts (get_table_names : Engine -> result (list string))
    (self : t) (page size : Z) (filters : option (gmap string pyval)) :
  exists answer,
    get_wcc_checks get_table_names self page size filters = Ok answer /\
    match answer with
    | WccPair checks total =>
        checks = [] /\ total = 0 /\
        (has_engine self "smb" = false \/
         _table_exists get_table_names self "smb" "conf_checks_results" = false \/
         _table_exists get_table_names self "smb" "conf_checks" = false)
    | WccTriple checks total summary =>
        has_engine self "smb" = true /\
        _table_exists get_table_names self "smb" "conf_checks_results" = true /\
        _table_exists get_table_names self "smb" "conf_checks" = true /\
        summary_warn summary = 0 /\
        0 <= summary_pass summary /\ 0 <= summary_fail summary /\
        summary_pass summary + summary_fail summary = total /\
        (truthy (dict_get (filters_or_empty filters) "pass" PNone) = true ->
         summary_fail summary = 0) /\
        (truthy (dict_get (filters_or_empty filters) "pass" PNone) = false ->
         truthy (dict_get (filters_or_empty filters) "fail" PNone) = true ->
         summary_pass summary = 0)
    end.
Proof.
  unfold get_wcc_checks.
  destruct (has_engine self "smb") eqn:He; cbn [negb];
    [| eexists; split; [reflexivity |]; cbn; tauto].
  destruct (_table_exists get_table_names self "smb" "conf_checks_results") eqn:H1;
    cbn [negb orb]; [| eexists; split; [reflexivity |]; cbn; tauto].
  destruct (_table_exists get_table_names self "smb" "conf_checks") eqn:H2;
    cbn [negb orb]; [| eexists; split; [reflexivity |]; cbn; tauto].
  destruct (execute_query_ok self "smb" WCC_QUERY None) as (rows & ->).
  cbn [mbind result_bind rbind]. unfold page_of.
  eexists. split; [reflexivity |]. cbn beta iota.
  assert (Forall (fun c => check_result c = "PASS"%string \/
                           check_result c = "FAIL"%string) (map check_of rows))
    as Hrows.
  { apply List.Forall_forall. intros c Hc. apply in_map_iff in Hc as (r & <- & _).
    apply check_result_two. }
  destruct (filter_checks_results (filters_or_empty filters) _ Hrows)
    as (Hall & Hpass & Hfail).
  destruct (summary_from _ (mkSummary 0 0 0) Hall) as (Hw & Hp & Hf & Hsum & Hap & Haf).
  cbn [summary_pass summary_fail summary_warn] in Hw, Hp, Hf, Hsum, Hap, Haf.
  repeat split; try reflexivity; try assumption; try lia.
  - intros Ht. apply Hap, Hpass, Ht.
  - intros Ht Ht'. apply Haf, Hfail; assumption.
Qed.
End CheckFacts.

(** ** Logs and small helpers *)

Section LogFacts.
Import DashboardDB.
Local Open Scope Z_scope.

Lemma py_slice_to_end {A : Type} (l : list A) (start : Z) :
  py_slice l start (Z.of_nat (length l))
    = drop (Z.to_nat (py_index_clip (Z.of_nat (length l)) start)) l.
Proof.
  unfold py_slice.
  set (n := Z.of_nat (length l)).
  assert (py_index_clip n n = n) as ->.
  { unfold py_index_clip. destruct (Z.ltb_spec n 0); lia. }
  assert (0 <= py_index_clip n start <= n) as Hs.
  { unfold py_index_clip. destruct (Z.ltb_spec start 0); lia. }
  apply firstn_all2. rewrite length_skipn. lia.
Qed.

(** [get_log_entries] never raises.  Without a file name, with a file
    that does not exist and when reading fails it returns no line.
    Otherwise a positive [count] gives the last [count] lines, or all of
    them when there are fewer; a [count] of 0 gives all the lines, and a
    negative one all but the first [-count]. *)
Theorem get_log_entries_tail (path_exists : string -> bool)
    (readlines : string -> result (list string)) (log_file : option string)
    (count : Z) :
  (exists entries,
      fst (get_log_entries path_exists readlines log_file count) = Ok entries) /\
  (log_file = None \/ log_file = Some ""%string \/
   (exists f, log_file = Some f /\ path_exists f = false) \/
   (exists f e, log_file = Some f /\ readlines f = Raise e) ->
   fst (get_log_entries path_exists readlines log_file count) = Ok []) /\
  (forall f lines,
      log_file = Some f -> f <> ""%string -> path_exists f = true ->
      readlines f = Ok lines ->
      fst (get_log_entries path_exists readlines log_file count)
        = Ok (if 0 <? count
              then drop (length lines - Z.to_nat count) lines
              else drop (Z.to_nat (- count)) lines)).
Proof.
  unfold get_log_entries. split; [| split].
  - destruct log_file as [f |]; [| eexists; reflexivity].
    destruct (String.eqb f "" || negb (path_exists f)); [eexists; reflexivity |].
    destruct (readlines f); cbn; eexists; reflexivity.
  - intros [-> | [-> | [(f & -> & Hf) | (f & e & -> & Hr)]]];
      try reflexivity.
    + rewrite Hf. cbn. rewrite orb_true_r. reflexivity.
    + destruct (String.eqb f "" || negb (path_exists f)); [reflexivity |].
      rewrite Hr. reflexivity.
  - intros f lines -> Hne Hex Hread.
    apply String.eqb_neq in Hne. rewrite Hne, Hex, Hread. cbn.
    f_equal.
    destruct (Z.gtb_spec (Z.of_nat (length lines)) count) as [Hgt | Hle].
    + rewrite py_slice_to_end. unfold py_index_clip.
      destruct (Z.ltb_spec (- count) 0); destruct (Z.ltb_spec 0 count); try lia.
      * f_equal. lia.
      * destruct (Z.le_gt_cases (- count) (Z.of_nat (length lines))).
        -- f_equal. lia.
        -- rewrite !drop_ge by lia. reflexivity.
    + destruct (Z.ltb_spec 0 count).
      * replace (length lines - Z.to_nat count)%nat with 0%nat by lia.
        reflexivity.
      * destruct lines; [| cbn in Hle; lia]. rewrite drop_nil. reflexivity.
Qed.

(** [_safe_get] returns the default for a missing key and for a key that
    holds [None], and the value otherwise; it returns [None] only when the
    default is [None]. *)
Theorem safe_get_never_none (row : gmap string pyval) (key : string)
    (default : pyval) :
  (row !! key = None \/ row !! key = Some PNone ->
   _safe_get row key default = default) /\
  (forall v, row !! key = Some v -> v <> PNone -> _safe_get row key default = v) /\
  (default <> PNone -> _safe_get row key default <> PNone).
Proof.
  unfold _safe_get, dict_get. split; [| split].
  - intros [-> | ->]; [destruct default |]; reflexivity.
  - intros v -> Hv. destruct v; [contradiction | reflexivity ..].
  - intros Hd. destruct (row !! key) as [[] |]; try discriminate; try exact Hd.
    destruct default; [contradiction | discriminate ..].
Qed.
End LogFacts.

Section CredTypeFacts.
Import DashboardDB.
Local Open Scope Z_scope.
Context {text : PyStr}.

Lemma ctype_of_ok (cred : gmap string pyval) :
  str_or_none (dict_get cred "credtype" PNone) = true ->
  exists s, ctype_of cred = Ok s.
Proof.
  intros Hc. unfold ctype_of, py_or.
  destruct (dict_get cred "credtype" PNone) as [| t | |];
    try discriminate Hc; cbn [truthy]; [eexists; reflexivity |].
  destruct (negb (String.eqb t "")); eexists; reflexivity.
Qed.

Lemma cred_types_step_ok (acc : CredTypes) (cred : gmap string pyval) :
  str_or_none (dict_get cred "credtype" PNone) = true ->
  exists acc',
    cred_types_step acc cred = Ok acc' /\
    ct_plaintext acc <= ct_plaintext acc' /\
    ct_hash acc <= ct_hash acc' /\
    ct_ticket acc <= ct_ticket acc' /\
    ct_plaintext acc' + ct_hash acc' + ct_ticket acc'
      = ct_plaintext acc + ct_hash acc + ct_ticket acc + 1.
Proof.
  intros Hc. unfold cred_types_step.
  destruct (ctype_of_ok cred Hc) as (s & ->). cbn [mbind result_bind rbind].
  destruct (str_contains "hash" s);
    [| destruct (str_contains "ticket" s || str_contains "ccache" s)];
    eexists; (split; [reflexivity |]); cbn; repeat split; lia.
Qed.

Lemma cred_types_from (all_creds : list (gmap string pyval)) (acc : CredTypes) :
  Forall (fun cred => str_or_none (dict_get cred "credtype" PNone) = true)
         all_creds ->
  exists ct,
    foldM cred_types_step all_creds acc = Ok ct /\
    ct_plaintext acc <= ct_plaintext ct /\
    ct_hash acc <= ct_hash ct /\
    ct_ticket acc <= ct_ticket ct /\
    ct_plaintext ct + ct_hash ct + ct_ticket ct
      = ct_plaintext acc + ct_hash acc + ct_ticket acc
        + Z.of_nat (length all_creds).
Proof.
  intros Hall. revert acc. induction Hall as [| cred creds Hc _ IH]; intros acc.
  - exists acc. cbn. repeat split; lia.
  - cbn [foldM].
    destruct (cred_types_step_ok acc cred Hc) as (acc' & -> & Hp' & Hh' & Ht' & Hs').
    cbn [mbind result_bind rbind].
    destruct (IH acc') as (ct & -> & Hp & Hh & Ht & Hsum).
    exists ct. split; [reflexivity |]. cbn [length]. repeat split; lia.
Qed.

(** On rows whose credential type is text or NULL the tally of the
    analytics does not raise, and every row is counted once: the three
    counts are not negative and add up to the number of rows. *)
Theorem cred_types_count_every_row (all_creds : list (gmap string pyval)) :
  Forall (fun cred => str_or_none (dict_get cred "credtype" PNone) = true)
         all_creds ->
  exists ct,
    cred_types all_creds = Ok ct /\
    0 <= ct_plaintext ct /\ 0 <= ct_hash ct /\ 0 <= ct_ticket ct /\
    ct_plaintext ct + ct_hash ct + ct_ticket ct = Z.of_nat (length all_creds).
Proof.
  intros Hall. unfold cred_types.
  destruct (cred_types_from all_creds (mkCredTypes 0 0 0) Hall)
    as (ct & Hok & Hp & Hh & Ht & Hsum).
  cbn [ct_plaintext ct_hash ct_ticket] in Hp, Hh, Ht, Hsum.
  exists ct. split; [exact Hok |]. repeat split; lia.
Qed.
End CredTypeFacts.

Section ListingSamples.
Import DashboardDB.
Local Open Scope Z_scope.
#[local] Existing Instance ascii_text.

Lemma share_filters_partition_sample :
  exists p0 total,
    get_shares Samples.all_tables Samples.query_db 1 20 None = Ok (p0, total) /\
    p0 = [] /\ total = 0.
Proof.
  destruct (share_filters_partition Samples.all_tables Samples.query_db 1 20)
    as (p0 & _ & _ & _ & total & _ & _ & _ & Hok & _ & _ & _ & _ & Hempty).
  exists p0, total. split; [exact Hok |].
  apply Hempty. right. right. exists Samples.locked_engine. eexists.
  split; reflexivity.
Defined.

Lemma wcc_summary_counts_sample :
  exists answer,
    get_wcc_checks Samples.all_tables Samples.checks_db 1 20
      (Some {[ "pass" := PBool true ]}) = Ok answer /\
    match answer with
    | WccPair _ _ => False
    | WccTriple _ total summary =>
        summary_fail summary = 0 /\ summary_pass summary = total
    end.
Proof.
  destruct (wcc_summary_counts Samples.all_tables Samples.checks_db 1 20
              (Some {[ "pass" := PBool true ]})) as (answer & Hok & Hans).
  exists answer. split; [exact Hok |].
  destruct answer as [checks total | checks total summary].
  - destruct Hans as (_ & _ & [H | [H | H]]); vm_compute in H; discriminate H.
  - destruct Hans as (_ & _ & _ & _ & _ & _ & Hsum & Hpass & _).
    specialize (Hpass eq_refl). split; [exact Hpass | lia].
Defined.

Lemma get_log_entries_tail_sample :
  fst (get_log_entries (fun _ => true) (fun _ => Ok Samples.log_lines)
         (Some "nxc.log"%string) 2)
    = Ok (drop (length Samples.log_lines - Z.to_nat 2) Samples.log_lines).
Proof.
  apply (proj2 (proj2 (get_log_entries_tail (fun _ => true)
                         (fun _ => Ok Samples.log_lines)
                         (Some "nxc.log"%string) 2))
           "nxc.log"%string Samples.log_lines eq_refl);
    [discriminate | reflexivity | reflexivity].
Defined.

Lemma safe_get_never_none_sample :
  _safe_get Samples.cred_used "pillaged_from_hostid" (PStr "") = PStr "".
Proof.
  apply (proj1 (safe_get_never_none Samples.cred_used "pillaged_from_hostid"
                  (PStr ""))).
  right. reflexivity.
Defined.

Lemma cred_types_count_every_row_sample :
  exists ct,
    cred_types Samples.analysis_creds = Ok ct /\
    ct_plaintext ct + ct_hash ct + ct_ticket ct = 7.
Proof.
  destruct (cred_types_count_every_row Samples.analysis_creds)
    as (ct & Hok & _ & _ & _ & Hsum).
  - apply Forall_forallb. vm_compute. reflexivity.
  - exists ct. split; [exact Hok | exact Hsum].
Defined.
End ListingSamples.
